(** * The ai-seo-optimization scoring pipeline

    A shallow embedding of the scorers of [skills/ai-seo-optimization]
    (entity, structure, E-E-A-T, freshness, AI/human balance and
    citation-worthiness), of [AIOptimizer.analyzeContent] with its
    recommendation rules, and of the score helpers of [ReportGenerator].

    Numbers.  A JavaScript [number] is an IEEE 754 binary64 value, and so is
    Rocq's primitive [float]: [+], [-], [*], [/] and [sqrt] round to nearest,
    ties to even, in both.  Scores are therefore [float]s and every decimal
    literal of the source is the [float] literal of the same spelling.
    Quantities that the source only ever produces as integers (lengths of
    arrays, numbers of regex matches, millisecond time stamps, day counts)
    are [nat] or [Z] and are converted where the source mixes them with
    fractional numbers.

    Documents.  The HTML parser, [Date.parse], the tokenizer and the
    sentiment analyzer are collaborators outside the repository; a document
    is represented by what the DOM queries and regular expressions of each
    analyzer return on it (its "feature bag").

    Effects.  [new Date()] and [Math.random()] are the only effects of the
    analysis; they are read from an explicit environment [Env]. *)

From Stdlib Require Import ZArith List Bool QArith Floats Lia.
From Stdlib Require Import Sorted.
From Stdlib Require String.
Import ListNotations.

Close Scope Q_scope.

#[local] Set Warnings "-inexact-float".
#[local] Set Implicit Arguments.

(** ** JavaScript numbers and [Math] *)

Module JS.

Local Open Scope float_scope.

(** An array length or a match count (a non-negative integer) used as a
    number. *)
Definition ofZ (z : Z) : float := PrimFloat.of_uint63 (Uint63.of_Z z).
Definition ofNat (n : nat) : float := ofZ (Z.of_nat n).

(** [Math.min(a, b)]: NaN if either argument is NaN, and [-0] is smaller
    than [+0]. *)
Definition Math_min (a b : float) : float :=
  if is_nan a || is_nan b then nan
  else if a <? b then a
  else if b <? a then b
  else if get_sign a then a else b.

(** [Math.max(a, b)]: NaN if either argument is NaN, and [+0] is larger
    than [-0]. *)
Definition Math_max (a b : float) : float :=
  if is_nan a || is_nan b then nan
  else if a <? b then b
  else if b <? a then a
  else if get_sign a then b else a.

Definition Math_abs (a : float) : float := abs a.
Definition Math_sqrt (a : float) : float := sqrt a.

(** [Math.floor] of a finite number, as an integer. *)
Definition Math_floor (a : float) : Z :=
  match Prim2SF a with
  | S754_finite s m e =>
      let v := if s then Z.neg m else Z.pos m in
      if (0 <=? e)%Z then (v * 2 ^ e)%Z else (v / 2 ^ (- e))%Z
  | _ => 0%Z
  end.

(** [Math.ceil(a / b)] for integers [a] and [b > 0]. *)
Definition ceilDiv (a b : Z) : Z := (- ((- a) / b))%Z.

(** The closed unit interval, as the comparison a caller would write:
    [0 <= x && x <= 1].  It is [false] on NaN. *)
Definition inUnit (x : float) : bool := (0 <=? x) && (x <=? 1).

End JS.

(** ** Exceptions *)

(** A call returns a value or throws. *)
Module Exceptions.

Inductive Error := SyntaxError | TypeError.

Inductive Outcome (A : Type) :=
  | Returns (a : A)
  | Throws (e : Error).

Arguments Returns {A} a.
Arguments Throws {A} e.

End Exceptions.

(** ** constants.ts *)

Module Constants.

Local Open Scope float_scope.

Module EEAT_WEIGHTS.
Definition EXPERTISE := 0.3.
Definition EXPERIENCE := 0.25.
Definition AUTHORITATIVENESS := 0.25.
Definition TRUSTWORTHINESS := 0.2.
End EEAT_WEIGHTS.

Module FRESHNESS_THRESHOLDS.
Definition CRITICAL : Z := 7.
Definition HIGH : Z := 30.
Definition MEDIUM : Z := 90.
Definition LOW : Z := 180.
End FRESHNESS_THRESHOLDS.

Module AI_HUMAN_BALANCE_TARGET.
Definition MIN := 0.3.
Definition MAX := 0.7.
Definition OPTIMAL := 0.5.
End AI_HUMAN_BALANCE_TARGET.

Module CITATION_WORTHINESS_FACTORS.
Definition UNIQUE_DATA := 0.25.
Definition EXPERT_QUOTES := 0.2.
Definition ORIGINAL_RESEARCH := 0.2.
Definition COMPREHENSIVE_COVERAGE := 0.15.
Definition VISUAL_CONTENT := 0.1.
Definition RECENCY := 0.1.
End CITATION_WORTHINESS_FACTORS.

End Constants.

(** ** The result types of the analyzers

    The records are polymorphic in the type [num] of numbers: the analyzers
    produce them at [float]; [ReportGenerator]'s arithmetic is also read at
    [Q] (see [Arith]). *)

Module Types.

Inductive Urgency := low | medium | high | critical.

Inductive SignalType := author_bio | credential | citation | review | social_proof.

(** [EEATSignal]; the [description] and [location] texts are not kept. *)
Record EEATSignal (num : Type) := {
  type : SignalType;
  strength : num
}.

Record EEATAnalysis (num : Type) := {
  expertise : num;
  experience : num;
  authoritativeness : num;
  trustworthiness : num;
  signals : list (EEATSignal num)
}.

(** [FreshnessScore]; [lastUpdated] is a time stamp in milliseconds. *)
Record FreshnessScore (num : Type) := {
  score : num;
  lastUpdated : Z;
  competitorAverage : Z;
  updateUrgency : Urgency
}.

Inductive RecommendationType :=
  add_schema | improve_structure | add_author_bio | update_content.

Inductive Priority := priority_high | priority_medium | priority_low.

Record Recommendation (num : Type) := {
  rtype : RecommendationType;
  priority : Priority;
  description : String.string;
  implementation : String.string;
  estimatedImpact : num
}.

Record ContentAnalysis (num : Type) := {
  entityScore : num;
  aiCitationPotential : num;
  structureScore : num;
  eeatSignals : EEATAnalysis num;
  freshness : FreshnessScore num;
  aiHumanBalance : num;
  recommendations : list (Recommendation num)
}.

(** [KPIMetrics], of which the score helpers read [aiVisibilityIndex]. *)
Record KPIMetrics (num : Type) := {
  citationShare : num;
  aiVisibilityIndex : num
}.

Definition Urgency_eqb (a b : Urgency) : bool :=
  match a, b with
  | low, low | medium, medium | high, high | critical, critical => true
  | _, _ => false
  end.

End Types.

(** ** The environment: clock and random source *)

(** One analysis reads the clock twice, in [extractLastUpdated] (when the
    document carries no date) and in [calculateDaysSince], and draws one
    random number in [getCompetitorFreshness]. *)
Record Env := {
  clockAtExtract : Z;   (* [new Date()] in extractLastUpdated, in ms *)
  clockAtDays : Z;      (* [new Date()] in calculateDaysSince, in ms *)
  random : float        (* [Math.random()] in getCompetitorFreshness *)
}.

(** ** monitors/FreshnessMonitor *)

Module FreshnessMonitor.

Import JS Constants Types.

(** What [extractLastUpdated] finds in a document: the update elements
    ([time[datetime]], [.updated], ...) and the matches of the date
    pattern in the text, each with the result of [Date.parse] on its date
    string ([None] when [Date.parse] gives NaN). *)
Record DateFeatures := {
  updateElements : list (option Z);
  dateMatches : list (option Z)
}.

Definition extractLastUpdated (d : DateFeatures) (now : Z) : Z :=
  match updateElements d with
  | Some parsed :: _ => parsed
  | _ =>
      match dateMatches d with
      | Some parsed :: _ => parsed
      | _ => now              (* Default to current date if not found *)
      end
  end.

Definition msPerDay : Z := 1000 * 60 * 60 * 24.

(** [Math.ceil(diffTime / msPerDay)] on integer milliseconds.  Between two
    time stamps of a [Date] the quotient is rounded by less than the
    distance of a non-integer quotient to the next integer, so the ceiling
    is that of the exact quotient. *)
Definition calculateDaysSince (date now : Z) : Z :=
  let diffTime := Z.abs (now - date) in
  ceilDiv diffTime msPerDay.

Definition getCompetitorFreshness (rnd : float) : Z :=
  (Math_floor (rnd * 60)%float + 15)%Z.

Local Open Scope float_scope.

Definition calculateFreshnessScore (daysSinceUpdate competitorAverage : Z) : float :=
  let score := 1 in
  let score := if (7 <? daysSinceUpdate)%Z then score - 0.1 else score in
  let score := if (30 <? daysSinceUpdate)%Z then score - 0.2 else score in
  let score := if (60 <? daysSinceUpdate)%Z then score - 0.2 else score in
  let score := if (90 <? daysSinceUpdate)%Z then score - 0.2 else score in
  let score := if (180 <? daysSinceUpdate)%Z then score - 0.3 else score in
  let score := if (daysSinceUpdate <? competitorAverage)%Z then score + 0.2 else score in
  Math_max 0 (Math_min 1 score).

Definition determineUpdateUrgency (daysSinceUpdate competitorAverage : Z) : Urgency :=
  if (competitorAverage * 2 <? daysSinceUpdate)%Z then critical
  else if (FRESHNESS_THRESHOLDS.CRITICAL <? daysSinceUpdate)%Z then critical
  else if (FRESHNESS_THRESHOLDS.HIGH <? daysSinceUpdate)%Z then high
  else if (FRESHNESS_THRESHOLDS.MEDIUM <? daysSinceUpdate)%Z then medium
  else low.

Definition checkFreshness (d : DateFeatures) (env : Env) : FreshnessScore float :=
  let lastUpdated := extractLastUpdated d (clockAtExtract env) in
  let daysSinceUpdate := calculateDaysSince lastUpdated (clockAtDays env) in
  let competitorAverage := getCompetitorFreshness (random env) in
  {| score := calculateFreshnessScore daysSinceUpdate competitorAverage;
     lastUpdated := lastUpdated;
     competitorAverage := competitorAverage;
     updateUrgency := determineUpdateUrgency daysSinceUpdate competitorAverage |}.

End FreshnessMonitor.

(** ** optimizers/EEATSignalBuilder *)

Module EEATSignalBuilder.

Import JS Types.
Local Open Scope float_scope.

(** What the four E-E-A-T scans find in a document. *)
Record EEATFeatures := {
  authorElements : list nat;     (* text length of each author element *)
  credentialMatches : nat;       (* matches of the credential pattern *)
  expertiseIndicators : nat;     (* .expertise, .qualifications, .credentials *)
  experienceMatches : nat;       (* matches of the experience pattern *)
  caseStudies : nat;
  testimonials : nat;
  citations : nat;
  authoritativeLinks : nat;      (* external links to authoritative hosts *)
  dataMatches : nat;             (* matches of the statistics pattern *)
  contactElements : nat;
  legalLinks : nat;
  securityMentioned : bool;
  dateElements : nat
}.

Definition signal (t : SignalType) (s : float) : EEATSignal float :=
  {| type := t; strength := s |}.

Definition analyzeExpertise (f : EEATFeatures) : list (EEATSignal float) :=
  map (fun len => signal author_bio (if (50 <? len)%nat then 0.8 else 0.4))
      (authorElements f)
  ++ (if (0 <? credentialMatches f)%nat then [signal credential 0.7] else [])
  ++ repeat (signal credential 0.6) (expertiseIndicators f).

Definition analyzeExperience (f : EEATFeatures) : list (EEATSignal float) :=
  (if (3 <? experienceMatches f)%nat
   then [signal credential (Math_min (ofNat (experienceMatches f) * 0.1) 0.8)]
   else [])
  ++ (if (0 <? caseStudies f)%nat then [signal credential 0.7] else [])
  ++ (if (0 <? testimonials f)%nat then [signal review 0.6] else []).

Definition analyzeAuthoritativeness (f : EEATFeatures) : list (EEATSignal float) :=
  (if (0 <? citations f)%nat
   then [signal citation (Math_min (ofNat (citations f) * 0.1) 0.9)]
   else [])
  ++ (if (0 <? authoritativeLinks f)%nat
      then [signal citation (Math_min (ofNat (authoritativeLinks f) * 0.15) 0.8)]
      else [])
  ++ (if (2 <? dataMatches f)%nat then [signal citation 0.6] else []).

Definition analyzeTrustworthiness (f : EEATFeatures) : list (EEATSignal float) :=
  (if (0 <? contactElements f)%nat then [signal social_proof 0.6] else [])
  ++ (if (0 <? legalLinks f)%nat then [signal social_proof 0.5] else [])
  ++ (if securityMentioned f then [signal social_proof 0.4] else [])
  ++ (if (0 <? dateElements f)%nat then [signal social_proof 0.5] else []).

Definition calculateSignalScore (signals : list (EEATSignal float)) : float :=
  if (length signals =? 0)%nat then 0
  else
    let totalStrength := fold_left (fun sum s => sum + strength s) signals 0 in
    Math_min (totalStrength / ofNat (length signals)) 1.

Definition analyzeEEATSignals (f : EEATFeatures) : EEATAnalysis float :=
  let expertiseSignals := analyzeExpertise f in
  let experienceSignals := analyzeExperience f in
  let authoritativenessSignals := analyzeAuthoritativeness f in
  let trustworthinessSignals := analyzeTrustworthiness f in
  {| expertise := calculateSignalScore expertiseSignals;
     experience := calculateSignalScore experienceSignals;
     authoritativeness := calculateSignalScore authoritativenessSignals;
     trustworthiness := calculateSignalScore trustworthinessSignals;
     signals := expertiseSignals ++ experienceSignals
                ++ authoritativenessSignals ++ trustworthinessSignals |}.

End EEATSignalBuilder.

(** ** optimizers/ContentStructurer *)

Module ContentStructurer.

Import JS.
Local Open Scope float_scope.

(** [ContentStructure] with each extracted array represented by its
    length, and what [calculateReadabilityScore] reads from the DOM. *)
Record StructureFeatures := {
  headings : nat;          (* h1 .. h6 *)
  faqs : nat;              (* extracted question/answer pairs *)
  tables : nat;            (* table elements *)
  lists : nat;             (* ul and ol elements *)
  sectionHeadings : nat;   (* h2 and h3 *)
  words : nat;             (* text.split(/\s+/).length *)
  sentences : nat          (* matches of /[.!?]+/g in the text *)
}.

Definition calculateReadabilityScore (f : StructureFeatures) : float :=
  let avgWordsPerSentence := ofNat (words f) / ofNat (Nat.max (sentences f) 1) in
  let score := 1 in
  let score := if 20 <? avgWordsPerSentence then score - 0.2 else score in
  let score := if 25 <? avgWordsPerSentence then score - 0.3 else score in
  let score := if (3 <? sectionHeadings f)%nat then score + 0.1 else score in
  let score := if (0 <? lists f)%nat then score + 0.1 else score in
  let score := if (0 <? tables f)%nat then score + 0.1 else score in
  Math_max 0 (Math_min 1 score).

Definition calculateStructureScore (f : StructureFeatures) (readabilityScore : float) : float :=
  let score := readabilityScore * 0.3 in
  let score := if (3 <? headings f)%nat then score + 0.2 else score in
  let score := if (2 <? faqs f)%nat then score + 0.2 else score in
  let score := if (0 <? tables f)%nat then score + 0.15 else score in
  let score := if (1 <? lists f)%nat then score + 0.15 else score in
  Math_min 1 score.

Definition analyzeStructure (f : StructureFeatures) : float :=
  calculateStructureScore f (calculateReadabilityScore f).

End ContentStructurer.

(** ** optimizers/EntityOptimizer *)

Module EntityOptimizer.

Import JS Exceptions.
Local Open Scope float_scope.

(** [AIOptimizerConfig], of which the analysis reads the brand only, to
    build [new RegExp(`\\b${brand}\\b`, 'gi')] from it unescaped: the
    constructor throws a SyntaxError unless that is the source of a regular
    expression (the brand C++ gives the source \bC++\b, which is none). *)
Record AIOptimizerConfig := {
  brandIsPattern : bool
}.

Record EntityFeatures := {
  schemaScripts : list bool;  (* per ld+json script: does JSON.parse succeed *)
  brandMentions : nat;        (* matches of the brand pattern in root.text *)
  hasItemscope : bool;
  hasAddress : bool;
  hasAuthor : bool
}.

Definition countBrandMentions (config : AIOptimizerConfig) (f : EntityFeatures)
  : Outcome nat :=
  if brandIsPattern config then Returns (brandMentions f) else Throws SyntaxError.

Record EntityAnalysis := {
  score : float;
  entities : nat              (* number of schemas collected *)
}.

(** What [analyzeEntities] returns when [countBrandMentions] returns. *)
Definition analysisOfEntities (f : EntityFeatures) : EntityAnalysis :=
  let '(entities, score) :=
    fold_left (fun '(entities, score) parses =>
                 if parses : bool then (S entities, score + 0.1) else (entities, score))
              (schemaScripts f) (O, 0) in
  let score := score + Math_min (ofNat (brandMentions f) * 0.05) 0.3 in
  let score := if hasItemscope f then score + 0.1 else score in
  let score := if hasAddress f then score + 0.05 else score in
  let score := if hasAuthor f then score + 0.1 else score in
  {| score := Math_min score 1; entities := entities |}.

(** The errors of [JSON.parse] are caught, the error of
    [countBrandMentions] is not. *)
Definition analyzeEntities (config : AIOptimizerConfig) (f : EntityFeatures)
  : Outcome EntityAnalysis :=
  match countBrandMentions config f with
  | Returns _ => Returns (analysisOfEntities f)
  | Throws e => Throws e
  end.

End EntityOptimizer.

(** ** analyzers/AICitationAnalyzer *)

Module AICitationAnalyzer.

Import JS Constants.
Local Open Scope float_scope.

(** [DataPoint]; the [value] and [source] texts are not kept. *)
Record DataPoint := {
  unique : bool;
  verifiable : bool
}.

(** What the extractors collect before they truncate: the insights, data
    points and quotes in the order they are pushed. *)
Record CitationFeatures := {
  insightsFound : list String.string;
  dataPointsFound : list DataPoint;
  researchIndicator : bool;
  quotesFound : list String.string
}.

Definition extractUniqueInsights (f : CitationFeatures) : list String.string :=
  firstn 5 (insightsFound f).

Definition extractDataPoints (f : CitationFeatures) : list DataPoint :=
  firstn 10 (dataPointsFound f).

Definition detectOriginalResearch (f : CitationFeatures) : bool :=
  researchIndicator f.

Definition extractExpertQuotes (f : CitationFeatures) : list String.string :=
  firstn 5 (quotesFound f).

Record CitationData := {
  uniqueInsights : list String.string;
  dataPoints : list DataPoint;
  originalResearch : bool;
  expertQuotes : list String.string
}.

Definition calculateCitationWorthiness (data : CitationData) : float :=
  let score := 0 in
  let score := score + Math_min (ofNat (length (uniqueInsights data)) * 0.05) 0.25
                       * CITATION_WORTHINESS_FACTORS.UNIQUE_DATA in
  let verifiableData := length (filter verifiable (dataPoints data)) in
  let score := score + Math_min (ofNat verifiableData * 0.05) 0.25
                       * CITATION_WORTHINESS_FACTORS.UNIQUE_DATA in
  let score := score + Math_min (ofNat (length (expertQuotes data)) * 0.04) 0.2
                       * CITATION_WORTHINESS_FACTORS.EXPERT_QUOTES in
  let score := if originalResearch data
               then score + CITATION_WORTHINESS_FACTORS.ORIGINAL_RESEARCH else score in
  let totalElements := (length (uniqueInsights data) + length (dataPoints data)
                        + length (expertQuotes data))%nat in
  let score := if (10 <? totalElements)%nat
               then score + CITATION_WORTHINESS_FACTORS.COMPREHENSIVE_COVERAGE else score in
  Math_min score 1.

Definition citationData (f : CitationFeatures) : CitationData :=
  {| uniqueInsights := extractUniqueInsights f;
     dataPoints := extractDataPoints f;
     originalResearch := detectOriginalResearch f;
     expertQuotes := extractExpertQuotes f |}.

(** The [score] of [analyzeCitationPotential]. *)
Definition analyzeCitationPotential (f : CitationFeatures) : float :=
  calculateCitationWorthiness (citationData f).

End AICitationAnalyzer.

(** ** optimizers/AIContentBalancer *)

Module AIContentBalancer.

Import JS Constants.
Local Open Scope float_scope.

(** A [<p>] paragraph: the word count of each of its sentences, and the
    sentiment the sentiment analyzer gives its tokens. *)
Record Paragraph := {
  sentenceLengths : list nat;
  sentiment : float
}.

Record BalanceFeatures := {
  paragraphs : list Paragraph;
  aiPatternCount : nat;          (* countPatterns(text, AI_GENERATED) *)
  humanPatternCount : nat;       (* countPatterns(text, HUMAN_INDICATORS) *)
  wordTokens : nat;              (* tokenizer.tokenize(text.toLowerCase()).length *)
  pronounCount : nat;            (* tokens that are personal pronouns *)
  uniqueWords : nat;             (* new Set(words).size *)
  transitionCount : nat;         (* matches of the formal transitions *)
  anecdoteCount : nat;           (* matches of the anecdote patterns *)
  conversationalMatches : list nat;  (* matches of each conversational pattern *)
  emotionalCount : nat           (* tokens that are emotional words *)
}.

(** [Math.pow(x, 2)]. *)
Definition square (x : float) : float := x * x.

Definition analyzeSentenceUniformity (ps : list Paragraph) : float :=
  let sentenceLengths := flat_map sentenceLengths ps in
  if (length sentenceLengths <? 5)%nat then 0
  else
    let n := ofNat (length sentenceLengths) in
    let mean := fold_left (fun a b => a + ofNat b) sentenceLengths 0 / n in
    let variance :=
      fold_left (fun acc len => acc + square (ofNat len - mean)) sentenceLengths 0 / n in
    let stdDev := Math_sqrt variance in
    Math_max 0 (1 - stdDev / mean).

Definition calculatePersonalPronounRatio (f : BalanceFeatures) : float :=
  ofNat (pronounCount f) / ofNat (wordTokens f).

Definition analyzeTransitions (f : BalanceFeatures) : float :=
  Math_min (ofNat (transitionCount f) * 0.05) 1.

Definition calculateVocabularyDiversity (f : BalanceFeatures) : float :=
  ofNat (uniqueWords f) / ofNat (wordTokens f).

Definition analyzeSentimentNeutrality (ps : list Paragraph) : float :=
  let neutralCount :=
    fold_left (fun neutralCount p =>
                 if Math_abs (sentiment p) <? 0.2 then S neutralCount else neutralCount)
              ps O in
  ofNat neutralCount / ofNat (length ps).

Definition detectAnecdotes (f : BalanceFeatures) : float :=
  Math_min (ofNat (anecdoteCount f) * 0.2) 1.

Definition analyzeConversationalTone (f : BalanceFeatures) : float :=
  let score :=
    fold_left (fun score matches =>
                 score + (if (0 <? matches)%nat then ofNat matches * 0.02 else 0))
              (conversationalMatches f) 0 in
  Math_min score 1.

Definition analyzeEmotionalLanguage (f : BalanceFeatures) : float :=
  Math_min (ofNat (emotionalCount f) / ofNat (wordTokens f) * 20) 1.

Definition calculateAIScore (f : BalanceFeatures) : float :=
  let score := 0 in
  let score := score + Math_min (ofNat (aiPatternCount f) * 0.02) 0.3 in
  let score := score + analyzeSentenceUniformity (paragraphs f) * 0.3 in
  let score := score + (1 - calculatePersonalPronounRatio f) * 0.2 in
  let score := score + analyzeTransitions f * 0.2 in
  let score := score + (1 - calculateVocabularyDiversity f) * 0.15 in
  let score := score + analyzeSentimentNeutrality (paragraphs f) * 0.15 in
  let factors := 6 in
  Math_min (score / factors) 1.

Definition calculateHumanScore (f : BalanceFeatures) : float :=
  let score := 0 in
  let score := score + Math_min (ofNat (humanPatternCount f) * 0.05) 0.3 in
  let score := score + detectAnecdotes f * 0.25 in
  let score := score + analyzeConversationalTone f * 0.2 in
  let sentenceVariety := 1 - analyzeSentenceUniformity (paragraphs f) in
  let score := score + sentenceVariety * 0.15 in
  let score := score + analyzeEmotionalLanguage f * 0.1 in
  let factors := 5 in
  Math_min (score / factors) 1.

Definition calculateHybridScore (aiScore humanScore : float) : float :=
  let total := aiScore + humanScore in
  if total =? 0 then 0
  else
    let ratio := humanScore / total in
    let optimalRatio := AI_HUMAN_BALANCE_TARGET.OPTIMAL in
    let distance := Math_abs (ratio - optimalRatio) in
    Math_max 0 (1 - distance * 2).

(** The result of [analyzeBalance]; the flagged sections and the balance
    recommendations, which do not feed the scores, are not kept. *)
Record Balance := {
  ratio : float;
  aiGeneratedScore : float;
  humanWrittenScore : float;
  hybridScore : float
}.

Definition analyzeBalance (f : BalanceFeatures) : Balance :=
  let aiScore := calculateAIScore f in
  let humanScore := calculateHumanScore f in
  let hybridScore := calculateHybridScore aiScore humanScore in
  let ratio := humanScore / (aiScore + humanScore) in
  {| ratio := ratio;
     aiGeneratedScore := aiScore;
     humanWrittenScore := humanScore;
     hybridScore := hybridScore |}.

End AIContentBalancer.

(** ** AIOptimizer *)

Module AIOptimizer.

Import JS Types.
Local Open Scope float_scope.

(** A document, as the six analyzers see it. *)
Record Document := {
  entityFeatures : EntityOptimizer.EntityFeatures;
  structureFeatures : ContentStructurer.StructureFeatures;
  eeatFeatures : EEATSignalBuilder.EEATFeatures;
  dateFeatures : FreshnessMonitor.DateFeatures;
  balanceFeatures : AIContentBalancer.BalanceFeatures;
  citationFeatures : AICitationAnalyzer.CitationFeatures
}.

(** The object [analyzeContent] hands to [generateRecommendations]. *)
Record AnalysisData := {
  entityScore : EntityOptimizer.EntityAnalysis;
  structure : float;                       (* structure.score *)
  eeatSignals : EEATAnalysis float;
  freshness : FreshnessScore float;
  aiHumanBalance : AIContentBalancer.Balance;
  citationPotential : float                (* citationPotential.score *)
}.

Import String.StringSyntax.
Local Open Scope string_scope.

Definition generateRecommendations (analysisData : AnalysisData)
  : list (Recommendation float) :=
  (if EntityOptimizer.score (entityScore analysisData) <? 0.6
   then [ {| rtype := add_schema;
             priority := priority_high;
             description := "Add comprehensive schema markup to enhance entity recognition";
             implementation := "Use EntityOptimizer.generateSchema() to create appropriate schemas";
             estimatedImpact := 0.25 |} ]
   else [])
  ++ (if structure analysisData <? 0.7
      then [ {| rtype := improve_structure;
                priority := priority_medium;
                description := "Restructure content with FAQs, tables, and lists for better AI parsing";
                implementation := "Apply ContentStructurer.restructureContent() to improve formatting";
                estimatedImpact := 0.2 |} ]
      else [])
  ++ (if authoritativeness (eeatSignals analysisData) <? 0.5
      then [ {| rtype := add_author_bio;
                priority := priority_high;
                description := "Add detailed author bios with credentials and expertise signals";
                implementation := "Use EEATSignalBuilder.createAuthorBio() with proper schema";
                estimatedImpact := 0.3 |} ]
      else [])
  ++ (if Urgency_eqb (updateUrgency (freshness analysisData)) high
         || Urgency_eqb (updateUrgency (freshness analysisData)) critical
      then [ {| rtype := update_content;
                priority := priority_high;
                description := "Content is stale compared to competitors, requires immediate update";
                implementation := "Use FreshnessMonitor.suggestUpdates() for specific update recommendations";
                estimatedImpact := 0.35 |} ]
      else []).

Definition analyze (doc : Document) (env : Env) : AnalysisData :=
  {| entityScore := EntityOptimizer.analysisOfEntities (entityFeatures doc);
     structure := ContentStructurer.analyzeStructure (structureFeatures doc);
     eeatSignals := EEATSignalBuilder.analyzeEEATSignals (eeatFeatures doc);
     freshness := FreshnessMonitor.checkFreshness (dateFeatures doc) env;
     aiHumanBalance := AIContentBalancer.analyzeBalance (balanceFeatures doc);
     citationPotential := AICitationAnalyzer.analyzeCitationPotential (citationFeatures doc) |}.

Definition analyzeContent (doc : Document) (env : Env) : ContentAnalysis float :=
  let data := analyze doc env in
  let recommendations := generateRecommendations data in
  {| Types.entityScore := EntityOptimizer.score (entityScore data);
     Types.aiCitationPotential := citationPotential data;
     Types.structureScore := structure data;
     Types.eeatSignals := eeatSignals data;
     Types.freshness := freshness data;
     Types.aiHumanBalance := AIContentBalancer.ratio (aiHumanBalance data);
     Types.recommendations := recommendations |}.

(** [analyzeContent] awaits the six analyses together and is rejected
    when one of them throws, as [analyzeEntities] does for a brand that is
    no pattern; [analyzeContent] above is the analysis it is fulfilled
    with. *)
Definition analyzeContentOutcome (config : EntityOptimizer.AIOptimizerConfig)
           (doc : Document) (env : Env) : Exceptions.Outcome (ContentAnalysis float) :=
  match EntityOptimizer.analyzeEntities config (entityFeatures doc) with
  | Exceptions.Returns _ => Exceptions.Returns (analyzeContent doc env)
  | Exceptions.Throws e => Exceptions.Throws e
  end.

End AIOptimizer.

(** ** utils/ReportGenerator: the score helpers *)

(** The arithmetic of [calculateOverallScore] and [calculateEEATAverage]
    uses literals, [+], [*] and [/] only.  It is written once over an
    interface [Arith] and read twice: at [float], which is what the program
    computes, and at [Q], the exact arithmetic that the rounded results
    approximate. *)
Class Arith (num : Type) := {
  lit : Q -> num;              (* a decimal literal of the source *)
  add : num -> num -> num;
  mul : num -> num -> num;
  div : num -> num -> num
}.

(** A decimal literal [n / 10^k] denotes the binary64 value nearest to it;
    [n] and [10^k] are exact and the division rounds once. *)
#[export] Instance floatArith : Arith float := {
  lit q := PrimFloat.div (JS.ofZ (Qnum q)) (JS.ofZ (Zpos (Qden q)));
  add := PrimFloat.add;
  mul := PrimFloat.mul;
  div := PrimFloat.div
}.

#[export] Instance exactArith : Arith Q := {
  lit q := q;
  add := Qplus;
  mul := Qmult;
  div := Qdiv
}.

Module ReportGenerator.

Import Types.

(** The keys of the [weights] and [scores] objects. *)
Inductive Dimension := entity | citation | structure | eeat | visibility.

Section Helpers.

Context {num : Type} `{Arith num}.

Local Infix "+" := add.
Local Infix "*" := mul.
Local Infix "/" := div.

Definition calculateEEATAverage (eeat : EEATAnalysis num) : num :=
  ((expertise eeat + experience eeat + authoritativeness eeat + trustworthiness eeat)
   / lit 4) * lit 100.

(** [Object.entries(weights)], in insertion order. *)
Definition weights : list (Dimension * num) :=
  [ (entity, lit 0.2);
    (citation, lit 0.25);
    (structure, lit 0.15);
    (eeat, lit 0.2);
    (visibility, lit 0.2) ].

Definition scores (analysis : ContentAnalysis num) (kpis : KPIMetrics num)
           (key : Dimension) : num :=
  match key with
  | entity => entityScore analysis
  | citation => aiCitationPotential analysis
  | structure => structureScore analysis
  | eeat => calculateEEATAverage (eeatSignals analysis) / lit 100
  | visibility => aiVisibilityIndex kpis
  end.

Definition calculateOverallScore (analysis : ContentAnalysis num)
           (kpis : KPIMetrics num) : num :=
  fold_left (fun overall '(key, weight) => overall + scores analysis kpis key * weight)
            weights (lit 0).

End Helpers.

End ReportGenerator.

(** ** Documents used in the statements *)

(** The empty document: every query returns no element and every pattern
    has no match.  Its text is the empty string, which [split(/\s+/)] cuts
    into one (empty) word and the tokenizer into none. *)
Definition emptyDocument : AIOptimizer.Document :=
  {| AIOptimizer.entityFeatures :=
       {| EntityOptimizer.schemaScripts := [];
          EntityOptimizer.brandMentions := 0;
          EntityOptimizer.hasItemscope := false;
          EntityOptimizer.hasAddress := false;
          EntityOptimizer.hasAuthor := false |};
     AIOptimizer.structureFeatures :=
       {| ContentStructurer.headings := 0;
          ContentStructurer.faqs := 0;
          ContentStructurer.tables := 0;
          ContentStructurer.lists := 0;
          ContentStructurer.sectionHeadings := 0;
          ContentStructurer.words := 1;
          ContentStructurer.sentences := 0 |};
     AIOptimizer.eeatFeatures :=
       {| EEATSignalBuilder.authorElements := [];
          EEATSignalBuilder.credentialMatches := 0;
          EEATSignalBuilder.expertiseIndicators := 0;
          EEATSignalBuilder.experienceMatches := 0;
          EEATSignalBuilder.caseStudies := 0;
          EEATSignalBuilder.testimonials := 0;
          EEATSignalBuilder.citations := 0;
          EEATSignalBuilder.authoritativeLinks := 0;
          EEATSignalBuilder.dataMatches := 0;
          EEATSignalBuilder.contactElements := 0;
          EEATSignalBuilder.legalLinks := 0;
          EEATSignalBuilder.securityMentioned := false;
          EEATSignalBuilder.dateElements := 0 |};
     AIOptimizer.dateFeatures :=
       {| FreshnessMonitor.updateElements := [];
          FreshnessMonitor.dateMatches := [] |};
     AIOptimizer.balanceFeatures :=
       {| AIContentBalancer.paragraphs := [];
          AIContentBalancer.aiPatternCount := 0;
          AIContentBalancer.humanPatternCount := 0;
          AIContentBalancer.wordTokens := 0;
          AIContentBalancer.pronounCount := 0;
          AIContentBalancer.uniqueWords := 0;
          AIContentBalancer.transitionCount := 0;
          AIContentBalancer.anecdoteCount := 0;
          AIContentBalancer.conversationalMatches := [0; 0; 0; 0; 0; 0]%nat;
          AIContentBalancer.emotionalCount := 0 |};
     AIOptimizer.citationFeatures :=
       {| AICitationAnalyzer.insightsFound := [];
          AICitationAnalyzer.dataPointsFound := [];
          AICitationAnalyzer.researchIndicator := false;
          AICitationAnalyzer.quotesFound := [] |} |}.

(** A document that differs from the empty one in carrying one update
    element whose date parses to the time stamp [t]. *)
Definition datedDocument (t : Z) : AIOptimizer.Document :=
  {| AIOptimizer.entityFeatures := AIOptimizer.entityFeatures emptyDocument;
     AIOptimizer.structureFeatures := AIOptimizer.structureFeatures emptyDocument;
     AIOptimizer.eeatFeatures := AIOptimizer.eeatFeatures emptyDocument;
     AIOptimizer.dateFeatures :=
       {| FreshnessMonitor.updateElements := [Some t];
          FreshnessMonitor.dateMatches := [] |};
     AIOptimizer.balanceFeatures := AIOptimizer.balanceFeatures emptyDocument;
     AIOptimizer.citationFeatures := AIOptimizer.citationFeatures emptyDocument |}.

(** The balance features of a document that is one heading of two words,
    without any paragraph. *)
Definition headingOnly : AIContentBalancer.BalanceFeatures :=
  {| AIContentBalancer.paragraphs := [];
     AIContentBalancer.aiPatternCount := 0;
     AIContentBalancer.humanPatternCount := 0;
     AIContentBalancer.wordTokens := 2;
     AIContentBalancer.pronounCount := 0;
     AIContentBalancer.uniqueWords := 2;
     AIContentBalancer.transitionCount := 0;
     AIContentBalancer.anecdoteCount := 0;
     AIContentBalancer.conversationalMatches := [0; 0; 0; 0; 0; 0]%nat;
     AIContentBalancer.emotionalCount := 0 |}.

(** [days] days, in milliseconds. *)
Definition daysMs (days : Z) : Z := (days * FreshnessMonitor.msPerDay)%Z.

(** An analysis that starts at time [now], reads the clock again one
    millisecond later and draws [rnd]. *)
Definition envAt (now : Z) (rnd : float) : Env :=
  {| clockAtExtract := now; clockAtDays := (now + 1)%Z; random := rnd |}.

(** ** Vocabulary of the statements *)

(** The dimension scores of an analysis: entity, citation, structure, the
    four E-E-A-T components, freshness, and the AI/human balance ratio. *)
Definition dimensionScores (a : Types.ContentAnalysis float) : list float :=
  [ Types.entityScore a;
    Types.aiCitationPotential a;
    Types.structureScore a;
    Types.expertise (Types.eeatSignals a);
    Types.experience (Types.eeatSignals a);
    Types.authoritativeness (Types.eeatSignals a);
    Types.trustworthiness (Types.eeatSignals a);
    Types.score (Types.freshness a);
    Types.aiHumanBalance a ].

(** The position of a rule in [generateRecommendations]. *)
Definition ruleIndex (t : Types.RecommendationType) : nat :=
  match t with
  | Types.add_schema => 0
  | Types.improve_structure => 1
  | Types.add_author_bio => 2
  | Types.update_content => 3
  end.

(** The priority each rule gives its recommendation. *)
Definition rulePriority (t : Types.RecommendationType) : Types.Priority :=
  match t with
  | Types.improve_structure => Types.priority_medium
  | _ => Types.priority_high
  end.

Definition priorityRank (p : Types.Priority) : nat :=
  match p with
  | Types.priority_high => 2
  | Types.priority_medium => 1
  | Types.priority_low => 0
  end.

(** [a] may stand before [b] in a list ordered by descending priority and,
    among equal priorities, by declaration order of the rules. *)
Definition priorityThenDeclaration (a b : Types.Recommendation float) : Prop :=
  priorityRank (Types.priority b) < priorityRank (Types.priority a)
  \/ (priorityRank (Types.priority b) = priorityRank (Types.priority a)
      /\ ruleIndex (Types.rtype a) < ruleIndex (Types.rtype b)).

(** [a] may stand before [b] in a list that follows the declaration order
    of the rules and has each rule at most once. *)
Definition declarationOrder (a b : Types.Recommendation float) : Prop :=
  ruleIndex (Types.rtype a) < ruleIndex (Types.rtype b).

(** The age [checkFreshness] computes for a document in an environment. *)
Definition ageInDays (d : FreshnessMonitor.DateFeatures) (env : Env) : Z :=
  FreshnessMonitor.calculateDaysSince
    (FreshnessMonitor.extractLastUpdated d (clockAtExtract env)) (clockAtDays env).

(** [l] with [x] inserted at position [k], at the end when [l] has fewer
    than [k] elements. *)
Fixpoint insertAt {A : Type} (k : nat) (x : A) (l : list A) : list A :=
  match k, l with
  | S k', y :: l' => y :: insertAt k' x l'
  | _, _ => x :: l
  end.





(** A document of twenty words in one sentence, and the same with a
    heading of two words before it. *)
Definition twentyWords : ContentStructurer.StructureFeatures :=
  {| ContentStructurer.headings := 0;
     ContentStructurer.faqs := 0;
     ContentStructurer.tables := 0;
     ContentStructurer.lists := 0;
     ContentStructurer.sectionHeadings := 0;
     ContentStructurer.words := 20;
     ContentStructurer.sentences := 1 |}.

Definition twentyWordsUnderHeading : ContentStructurer.StructureFeatures :=
  {| ContentStructurer.headings := 1;
     ContentStructurer.faqs := 0;
     ContentStructurer.tables := 0;
     ContentStructurer.lists := 0;
     ContentStructurer.sectionHeadings := 1;
     ContentStructurer.words := 22;
     ContentStructurer.sentences := 1 |}.



Definition addDataPoint (f : AICitationAnalyzer.CitationFeatures)
           (k : nat) (dp : AICitationAnalyzer.DataPoint) :=
  {| AICitationAnalyzer.insightsFound := AICitationAnalyzer.insightsFound f;
     AICitationAnalyzer.dataPointsFound := insertAt k dp (AICitationAnalyzer.dataPointsFound f);
     AICitationAnalyzer.researchIndicator := AICitationAnalyzer.researchIndicator f;
     AICitationAnalyzer.quotesFound := AICitationAnalyzer.quotesFound f |}.



(** Nine data points without a source followed by one with a source. *)
Definition nineInternalOneReferenced : AICitationAnalyzer.CitationFeatures :=
  {| AICitationAnalyzer.insightsFound := [];
     AICitationAnalyzer.dataPointsFound :=
       repeat {| AICitationAnalyzer.unique := true; AICitationAnalyzer.verifiable := false |} 9
       ++ [ {| AICitationAnalyzer.unique := true; AICitationAnalyzer.verifiable := true |} ];
     AICitationAnalyzer.researchIndicator := false;
     AICitationAnalyzer.quotesFound := [] |}.

(** [calculateCitationWorthiness] reads its argument through four counts
    and a flag; this is the score as a function of them: [i] insights, [v]
    verifiable among [d] data points, [q] quotes. *)
Definition citationScore (i v d q : nat) (research : bool) : float :=
  AICitationAnalyzer.calculateCitationWorthiness
    {| AICitationAnalyzer.uniqueInsights := repeat String.EmptyString i;
       AICitationAnalyzer.dataPoints :=
         repeat {| AICitationAnalyzer.unique := true; AICitationAnalyzer.verifiable := true |} v
         ++ repeat {| AICitationAnalyzer.unique := true; AICitationAnalyzer.verifiable := false |}
                   (d - v);
       AICitationAnalyzer.originalResearch := research;
       AICitationAnalyzer.expertQuotes := repeat String.EmptyString q |}.

(** One more insight, data point (verifiable or not) or quote, or the
    research flag, does not lower [citationScore] at the counts given, and
    the score there is a number between 0 and 1. *)
Definition citationStepsUp (i v d q : nat) (research : bool) : bool :=
  let s := citationScore i v d q research in
  PrimFloat.leb s (citationScore (S i) v d q research)
  && PrimFloat.leb s (citationScore i (S v) (S d) q research)
  && PrimFloat.leb s (citationScore i v (S d) q research)
  && PrimFloat.leb s (citationScore i v d (S q) research)
  && PrimFloat.leb s (citationScore i v d q true)
  && PrimFloat.leb s s
  && JS.inUnit s.

(** The same, at all the counts the extractors can return: at most 5
    insights, 10 data points and 5 quotes. *)
Definition citationStepsUpEverywhere : bool :=
  forallb (fun i =>
    forallb (fun d =>
      forallb (fun v =>
        forallb (fun q =>
          forallb (fun research => citationStepsUp i v d q research) [false; true])
          (seq 0 6))
        (seq 0 (S d)))
      (seq 0 11))
    (seq 0 6).






(** The number of scripts of a document that parse. *)
Definition parsedScripts (f : EntityOptimizer.EntityFeatures) : nat :=
  length (filter (fun parses => parses) (EntityOptimizer.schemaScripts f)).



(** A paragraph of seven words with one human indicator, and the same
    with the word "moreover" added, which is an AI pattern and a formal
    transition. *)
Definition plainParagraph : AIContentBalancer.BalanceFeatures :=
  {| AIContentBalancer.paragraphs :=
       [ {| AIContentBalancer.sentenceLengths := [7]; AIContentBalancer.sentiment := 0 |} ];
     AIContentBalancer.aiPatternCount := 0;
     AIContentBalancer.humanPatternCount := 1;
     AIContentBalancer.wordTokens := 7;
     AIContentBalancer.pronounCount := 1;
     AIContentBalancer.uniqueWords := 7;
     AIContentBalancer.transitionCount := 0;
     AIContentBalancer.anecdoteCount := 1;
     AIContentBalancer.conversationalMatches := [0; 0; 0; 0; 0; 0];
     AIContentBalancer.emotionalCount := 0 |}.

Definition plainParagraphMoreover : AIContentBalancer.BalanceFeatures :=
  {| AIContentBalancer.paragraphs :=
       [ {| AIContentBalancer.sentenceLengths := [8]; AIContentBalancer.sentiment := 0 |} ];
     AIContentBalancer.aiPatternCount := 1;
     AIContentBalancer.humanPatternCount := 1;
     AIContentBalancer.wordTokens := 8;
     AIContentBalancer.pronounCount := 1;
     AIContentBalancer.uniqueWords := 8;
     AIContentBalancer.transitionCount := 1;
     AIContentBalancer.anecdoteCount := 1;
     AIContentBalancer.conversationalMatches := [0; 0; 0; 0; 0; 0];
     AIContentBalancer.emotionalCount := 0 |}.


(** The analysis and the KPIs in which every score is [x]. *)
Definition uniformAnalysis {num : Type} (x : num) : Types.ContentAnalysis num :=
  {| Types.entityScore := x;
     Types.aiCitationPotential := x;
     Types.structureScore := x;
     Types.eeatSignals :=
       {| Types.expertise := x;
          Types.experience := x;
          Types.authoritativeness := x;
          Types.trustworthiness := x;
          Types.signals := [] |};
     Types.freshness :=
       {| Types.score := x;
          Types.lastUpdated := 0;
          Types.competitorAverage := 15;
          Types.updateUrgency := Types.low |};
     Types.aiHumanBalance := x;
     Types.recommendations := [] |}.

Definition uniformKpis {num : Type} (x : num) : Types.KPIMetrics num :=
  {| Types.citationShare := x; Types.aiVisibilityIndex := x |}.

(** An analysis with the given E-E-A-T analysis, every other score being
    0. *)
Definition uniformAnalysisWith (eeat : Types.EEATAnalysis float) : Types.ContentAnalysis float :=
  {| Types.entityScore := 0%float;
     Types.aiCitationPotential := 0%float;
     Types.structureScore := 0%float;
     Types.eeatSignals := eeat;
     Types.freshness :=
       {| Types.score := 0%float;
          Types.lastUpdated := 0;
          Types.competitorAverage := 15;
          Types.updateUrgency := Types.low |};
     Types.aiHumanBalance := 0%float;
     Types.recommendations := [] |}.

(** An E-E-A-T analysis with the given component scores. *)
Definition eeatOf {num : Type} (e x a t : num) : Types.EEATAnalysis num :=
  {| Types.expertise := e;
     Types.experience := x;
     Types.authoritativeness := a;
     Types.trustworthiness := t;
     Types.signals := [] |}.

(** The unweighted arithmetic mean of the four component scores. *)
Definition unweightedMean {num : Type} `{Arith num} (eeat : Types.EEATAnalysis num) : num :=
  div (add (add (add (Types.expertise eeat) (Types.experience eeat))
                (Types.authoritativeness eeat))
           (Types.trustworthiness eeat))
      (lit 4).

(** The mean of the four component scores weighted by [EEAT_WEIGHTS]. *)
Definition tableWeightedMean {num : Type} `{Arith num} (eeat : Types.EEATAnalysis num) : num :=
  add (add (add (mul (Types.expertise eeat) (lit 0.3))
                (mul (Types.experience eeat) (lit 0.25)))
           (mul (Types.authoritativeness eeat) (lit 0.25)))
      (mul (Types.trustworthiness eeat) (lit 0.2)).

(** * More of the code *)

(** ** monitors/ContentUpdateSuggester *)

Module ContentUpdateSuggester.

Import JS Types.
Local Open Scope float_scope.

Inductive UpdatePriority := urgent | update_high | update_medium | update_low.
Inductive Effort := effort_low | effort_medium | effort_high.

Inductive UpdateType :=
  | critical_freshness | update_add_author_bio | update_improve_structure
  | entity_building | platform_optimization
  | schema_enhancement | image_optimization | internal_linking
  | content_expansion | add_examples | add_data | improve_formatting
  | citation_optimization | brand_building.

(** An update; the [action] and [details] texts are not kept. *)
Record Update := {
  utype : UpdateType;
  upriority : UpdatePriority;
  effort : Effort
}.

Definition update (t : UpdateType) (p : UpdatePriority) (e : Effort) : Update :=
  {| utype := t; upriority := p; effort := e |}.

(** The properties of [metrics] that the suggester reads.  [None] is a
    missing property: a comparison with [undefined] is false. *)
Record Metrics := {
  updateUrgency : option Urgency;    (* metrics.freshness?.updateUrgency *)
  expertise : option float;          (* metrics.eeatSignals?.expertise *)
  structureScore : option float;
  entityScore : option float;
  citationShare : option float;
  brandMentions : option float
}.

(** [x < bound], for a value that may be missing. *)
Definition below (x : option float) (bound : float) : bool :=
  match x with
  | Some v => v <? bound
  | None => false
  end.

(** What the DOM queries of the suggester find in a document. *)
Record UpdateFeatures := {
  schemas : nat;             (* ld+json scripts *)
  imagesMissingAlt : nat;
  internalLinks : nat;
  wordCount : nat;           (* text.split(/\s+/).length *)
  hasExamples : bool;        (* .case-study, .example, .real-world *)
  hasData : bool;            (* the text matches the statistics pattern *)
  listElements : nat         (* ul and ol elements *)
}.

Definition getImmediateUpdates (metrics : Metrics) : list Update :=
  (match updateUrgency metrics with
   | Some critical => [update critical_freshness urgent effort_medium]
   | _ => []
   end)
  ++ (if below (expertise metrics) 0.3
      then [update update_add_author_bio update_high effort_low] else [])
  ++ (if below (structureScore metrics) 0.5
      then [update update_improve_structure update_high effort_medium] else []).

Definition getStrategicUpdates (metrics : Metrics) : list Update :=
  (if below (entityScore metrics) 0.6
   then [update entity_building update_medium effort_high] else [])
  ++ [update platform_optimization update_medium effort_high].

Definition getTechnicalUpdates (f : UpdateFeatures) : list Update :=
  (if (schemas f <? 2)%nat
   then [update schema_enhancement update_high effort_medium] else [])
  ++ (if (0 <? imagesMissingAlt f)%nat
      then [update image_optimization update_medium effort_low] else [])
  ++ (if (internalLinks f <? 5)%nat
      then [update internal_linking update_medium effort_low] else []).

Definition getContentUpdates (f : UpdateFeatures) : list Update :=
  (if (wordCount f <? 1500)%nat
   then [update content_expansion update_medium effort_high] else [])
  ++ (if hasExamples f then [] else [update add_examples update_medium effort_medium])
  ++ (if hasData f then [] else [update add_data update_high effort_medium])
  ++ (if (listElements f <? 2)%nat
      then [update improve_formatting update_low effort_low] else []).

Definition getCompetitiveUpdates (metrics : Metrics) : list Update :=
  (if below (citationShare metrics) 0.15
   then [update citation_optimization update_high effort_high] else [])
  ++ (if below (brandMentions metrics) 10
      then [update brand_building update_medium effort_medium] else []).

(** [Object.values(suggestions)]: the categories immediate, strategic,
    technical, content, competitive. *)
Definition suggestionsOf (f : UpdateFeatures) (metrics : Metrics) : list (list Update) :=
  [ getImmediateUpdates metrics;
    getStrategicUpdates metrics;
    getTechnicalUpdates f;
    getContentUpdates f;
    getCompetitiveUpdates metrics ].

Definition effortToHours (e : Effort) : nat :=
  match e with
  | effort_low => 2
  | effort_medium => 8
  | effort_high => 20
  end.

Definition isUrgentOrHigh (u : Update) : bool :=
  match upriority u with
  | urgent | update_high => true
  | _ => false
  end.

Definition getTopPriorities (suggestions : list (list Update)) : list Update :=
  firstn 5 (filter isUrgentOrHigh (concat suggestions)).

Definition identifyQuickWins (suggestions : list (list Update)) : list Update :=
  firstn 3 (filter (fun u => match effort u, upriority u with
                             | effort_low, update_low => false
                             | effort_low, _ => true
                             | _, _ => false
                             end)
                   (concat suggestions)).

Record Summary := {
  totalUpdates : nat;
  urgentUpdates : nat;
  estimatedHours : nat;
  topPriorities : list Update;
  summaryQuickWins : list Update
}.

Definition generateUpdateSummary (suggestions : list (list Update)) : Summary :=
  let '(totalUpdates, urgentUpdates, estimatedEffort) :=
    fold_left
      (fun counts category =>
         fold_left
           (fun '(totalUpdates, urgentUpdates, estimatedEffort) u =>
              (S totalUpdates,
               if isUrgentOrHigh u then S urgentUpdates else urgentUpdates,
               estimatedEffort + effortToHours u.(effort))%nat)
           category counts)
      suggestions (O, O, O) in
  {| totalUpdates := totalUpdates;
     urgentUpdates := urgentUpdates;
     estimatedHours := estimatedEffort;
     topPriorities := getTopPriorities suggestions;
     summaryQuickWins := identifyQuickWins suggestions |}.

Definition UpdatePriority_eqb (a b : UpdatePriority) : bool :=
  match a, b with
  | urgent, urgent | update_high, update_high
  | update_medium, update_medium | update_low, update_low => true
  | _, _ => false
  end.

Definition Effort_eqb (a b : Effort) : bool :=
  match a, b with
  | effort_low, effort_low | effort_medium, effort_medium
  | effort_high, effort_high => true
  | _, _ => false
  end.

Definition filterUpdatesByPriorityAndEffort
           (suggestions : list (list Update))
           (priorities : list UpdatePriority) (efforts : list Effort) : list Update :=
  fold_left
    (fun filtered category =>
       filtered
       ++ filter (fun u => existsb (UpdatePriority_eqb (upriority u)) priorities
                           && existsb (Effort_eqb (effort u)) efforts)
                 category)
    suggestions [].

(** The [tasks] of the three phases of the timeline: week 1, weeks 2-3,
    week 4 and later. *)
Definition createUpdateTimeline (suggestions : list (list Update)) : list (list Update) :=
  [ filterUpdatesByPriorityAndEffort suggestions [urgent; update_high] [effort_low];
    filterUpdatesByPriorityAndEffort suggestions [update_high; update_medium] [effort_medium];
    filterUpdatesByPriorityAndEffort suggestions [update_medium] [effort_high] ].

Definition impactFactor (t : UpdateType) : float :=
  match t with
  | critical_freshness => 0.25
  | update_add_author_bio => 0.15
  | update_improve_structure => 0.20
  | entity_building => 0.20
  | schema_enhancement => 0.15
  | citation_optimization => 0.25
  | _ => 0.1
  end.

Record Impact := {
  overallImpact : float;
  totalImpact : float;         (* the sum behind visibilityIncrease *)
  citationPotentialHigh : bool;  (* 'High' or 'Medium' *)
  resultsIn2to4Weeks : bool      (* '2-4 weeks' or '4-8 weeks' *)
}.

Definition estimateUpdateImpact (suggestions : list (list Update)) : Impact :=
  let totalImpact :=
    fold_left (fun total category =>
                 fold_left (fun total u => total + impactFactor (utype u)) category total)
              suggestions 0 in
  {| overallImpact := Math_min totalImpact 1;
     totalImpact := totalImpact;
     citationPotentialHigh := 0.5 <? totalImpact;
     resultsIn2to4Weeks := 0.6 <? totalImpact |}.

End ContentUpdateSuggester.

(** ** utils/ReportGenerator: labels, counts and recommendation buckets *)

Module ReportLabels.

Import JS Types.
Local Open Scope float_scope.

(** The labels, without the emoji that precedes some of them. *)
Inductive PerformanceLevel := EXCELLENT | GOOD | AVERAGE | NEEDS_IMPROVEMENT.
Inductive Status := Excellent | Good | Fair | Poor.
Inductive StatusEmoji := check_mark | warning_sign | cross_mark.
Inductive VisibilityPerformance := Leading | Strong | Moderate | Limited.
Inductive BenchmarkStatus := Top_10 | Top_25 | Average | Below_Average.
Inductive BalanceStatus := Optimal | Balance_Good | Imbalanced.

Definition getPerformanceLevel (score : float) : PerformanceLevel :=
  if 0.8 <=? score then EXCELLENT
  else if 0.6 <=? score then GOOD
  else if 0.4 <=? score then AVERAGE
  else NEEDS_IMPROVEMENT.

Definition getStatus (score : float) : Status :=
  if 0.8 <=? score then Excellent
  else if 0.6 <=? score then Good
  else if 0.4 <=? score then Fair
  else Poor.

Definition getStatusEmoji (score : float) : StatusEmoji :=
  if 0.8 <=? score then check_mark
  else if 0.6 <=? score then warning_sign
  else cross_mark.

Definition getBalanceStatus (ratio : float) : BalanceStatus :=
  let distance := Math_abs (ratio - 0.5) in
  if distance <? 0.1 then Optimal
  else if distance <? 0.2 then Balance_Good
  else Imbalanced.

Definition getVisibilityPerformance (index : float) : VisibilityPerformance :=
  if 0.8 <=? index then Leading
  else if 0.6 <=? index then Strong
  else if 0.4 <=? index then Moderate
  else Limited.

(** One table of [KPI_BENCHMARKS]. *)
Record Benchmarks := {
  POOR : float;
  AVERAGE_ : float;
  GOOD_ : float;
  EXCELLENT_ : float
}.

Definition CITATION_SHARE : Benchmarks :=
  {| POOR := 0.05; AVERAGE_ := 0.15; GOOD_ := 0.25; EXCELLENT_ := 0.35 |}.

Definition AI_VISIBILITY : Benchmarks :=
  {| POOR := 0.2; AVERAGE_ := 0.4; GOOD_ := 0.6; EXCELLENT_ := 0.8 |}.

Definition getBenchmarkStatus (value : float) (benchmarks : Benchmarks) : BenchmarkStatus :=
  if EXCELLENT_ benchmarks <=? value then Top_10
  else if GOOD_ benchmarks <=? value then Top_25
  else if AVERAGE_ benchmarks <=? value then Average
  else Below_Average.

Section SignalCounts.

Import String.StringSyntax.
Local Open Scope string_scope.

(** The text of a signal type. *)
Definition SignalType_text (t : SignalType) : String.string :=
  match t with
  | author_bio => "author_bio"
  | credential => "credential"
  | citation => "citation"
  | review => "review"
  | social_proof => "social_proof"
  end.

Definition countSignalsByType (signals : list (EEATSignal float)) (type : String.string) : nat :=
  List.length (filter (fun s => String.eqb (SignalType_text (Types.type s)) type) signals).

(** The four counts of the E-E-A-T table of [generateAnalysisSection], in
    the order of its rows: expertise, experience, authoritativeness,
    trustworthiness. *)
Definition signalsFound (signals : list (EEATSignal float)) : list nat :=
  [ countSignalsByType signals "credential";
    countSignalsByType signals "experience";
    countSignalsByType signals "citation";
    countSignalsByType signals "social_proof" ].

End SignalCounts.

(** *** Recommendation buckets *)

Import ContentUpdateSuggester.

(** An entry of the list [all]: a recommendation of the analysis, which
    has no [effort], or an update. *)
Inductive Entry :=
  | ofAnalysis (r : Recommendation float)
  | ofUpdate (u : Update).

Definition entryPriority (e : Entry) : UpdatePriority :=
  match e with
  | ofAnalysis r =>
      match priority r with
      | priority_high => update_high
      | priority_medium => update_medium
      | priority_low => update_low
      end
  | ofUpdate u => upriority u
  end.

Definition entryEffort (e : Entry) : option Effort :=
  match e with
  | ofAnalysis _ => None
  | ofUpdate u => Some (effort u)
  end.

Definition isCritical (e : Entry) : bool :=
  match entryPriority e with
  | update_high | urgent => true
  | _ => false
  end.

Definition isQuickWin (e : Entry) : bool :=
  match entryEffort e, entryPriority e with
  | Some effort_low, update_low => false
  | Some effort_low, _ => true
  | _, _ => false
  end.

Definition isStrategic (e : Entry) : bool :=
  match entryPriority e, entryEffort e with
  | update_medium, Some effort_low => false
  | update_medium, _ => true
  | _, _ => false
  end.

Record Prioritized := {
  critical_actions : list Entry;
  quickWins : list Entry;
  strategic : list Entry
}.

(** [updateSuggestions.suggestions], when present, is the list of its
    categories, each a list of updates. *)
Definition prioritizeAllRecommendations
           (analysisRecs : list (Recommendation float))
           (suggestions : option (list (list Update))) : Prioritized :=
  let all := map ofAnalysis analysisRecs in
  let all :=
    match suggestions with
    | Some categories =>
        fold_left (fun all category => all ++ map ofUpdate category) categories all
    | None => all
    end in
  {| critical_actions := firstn 3 (filter isCritical all);
     quickWins := firstn 3 (filter isQuickWin all);
     strategic := firstn 3 (filter isStrategic all) |}.

(** The "Top Opportunities" of [generateExecutiveSummary]. *)
Definition topOpportunities (recs : list (Recommendation float)) : list (Recommendation float) :=
  firstn 3 (filter (fun r => match priority r with priority_high => true | _ => false end) recs).

End ReportLabels.

(** ** analyzers/KPITracker *)

Module KPITracker.

Import JS.
Local Open Scope float_scope.

Inductive BenchmarkLevel := Excellent | Good | Average | Poor.

Definition getBenchmarkLevel (value : float) (benchmarks : ReportLabels.Benchmarks)
  : BenchmarkLevel :=
  if ReportLabels.EXCELLENT_ benchmarks <=? value then Excellent
  else if ReportLabels.GOOD_ benchmarks <=? value then Good
  else if ReportLabels.AVERAGE_ benchmarks <=? value then Average
  else Poor.

Definition calculatePercentile (value : float) (benchmarks : ReportLabels.Benchmarks) : nat :=
  if ReportLabels.EXCELLENT_ benchmarks <=? value then 90
  else if ReportLabels.GOOD_ benchmarks <=? value then 70
  else if ReportLabels.AVERAGE_ benchmarks <=? value then 50
  else if ReportLabels.POOR benchmarks <=? value then 30
  else 10.

(** [historicalData], read as [historicalData.get(url) || []]. *)
Definition History (M : Type) := String.string -> list M.

Definition noHistory {M : Type} : History M := fun _ => [].

(** [storeMetrics]: push, and drop the oldest entry beyond 90. *)
Definition storeMetrics {M : Type} (historicalData : History M)
           (url : String.string) (metrics : M) : History M :=
  let history := historicalData url ++ [metrics] in
  let history := if (90 <? length history)%nat then tl history else history in
  fun u => if String.eqb u url then history else historicalData u.

(** One value of [generateTrendData], for the random draw [rnd]. *)
Definition trendValue (baseValue rnd : float) : float :=
  let variance := (rnd - 0.5) * 0.1 in
  Math_max 0 (Math_min 1 (baseValue + variance)).

End KPITracker.

(** ** monitors/FreshnessMonitor: update suggestions *)

Module FreshnessUpdates.

Import JS.
Local Open Scope float_scope.

Inductive SuggestionType :=
  | outdated_year | outdated_term | temporal_reference
  | competitor_feature | missing_topic | trending_topic | emerging_trend
  | structure | multimedia.

Inductive Category := statistical | temporal | competitive | trending | structural.

(** A suggestion with the category [prioritizeUpdates] adds; of its texts
    only the year of an [outdated_year] is kept. *)
Record Suggestion := {
  stype : SuggestionType;
  year : option Z
}.

Definition suggestion (t : SuggestionType) : Suggestion := {| stype := t; year := None |}.

(** What the scans of [suggestUpdates] find. *)
Record UpdateScan := {
  years : list Z;                (* the matches of /\b(20\d{2})\b/g, in order *)
  outdatedTerms : list bool;     (* per outdated term: does the text include it *)
  temporalMatches : nat;         (* matches of the temporal phrases *)
  hasKeyTakeaways : bool;
  hasVideo : bool;
  hasFaq : bool
}.

Definition findOutdatedStatistics (scan : UpdateScan) (currentYear : Z) : list Suggestion :=
  map (fun y => {| stype := outdated_year; year := Some y |})
      (filter (fun y => (y <? currentYear - 2)%Z) (years scan))
  ++ map (fun _ => suggestion outdated_term) (filter (fun present => present) (outdatedTerms scan)).

Definition findTemporalReferences (scan : UpdateScan) : list Suggestion :=
  repeat (suggestion temporal_reference) (temporalMatches scan).

Definition getCompetitiveUpdates : list Suggestion :=
  [suggestion competitor_feature; suggestion missing_topic].

Definition getTrendingTopics : list Suggestion :=
  [suggestion trending_topic; suggestion emerging_trend].

Definition suggestStructuralUpdates (scan : UpdateScan) : list Suggestion :=
  (if hasKeyTakeaways scan then [] else [suggestion structure])
  ++ (if hasVideo scan then [] else [suggestion multimedia])
  ++ (if hasFaq scan then [] else [suggestion structure]).

(** [Object.entries(suggestions)], in the order of the object literal. *)
Definition Suggestions := list (Category * list Suggestion).

Definition suggestionsOf (scan : UpdateScan) (currentYear : Z) : Suggestions :=
  [ (statistical, findOutdatedStatistics scan currentYear);
    (temporal, findTemporalReferences scan);
    (competitive, getCompetitiveUpdates);
    (trending, getTrendingTopics);
    (structural, suggestStructuralUpdates scan) ].

(** [priorityOrder[type] || 999]. *)
Definition priorityOrder (t : SuggestionType) : nat :=
  match t with
  | outdated_year => 1
  | competitor_feature => 2
  | trending_topic => 3
  | temporal_reference => 4
  | structure => 5
  | outdated_term => 6
  | _ => 999
  end.

(** [Array.prototype.sort] with the comparator [aPriority - bPriority]: the
    sort is stable, so its result is that of inserting each element, from
    the last to the first, before the first element whose priority is not
    smaller. *)
Fixpoint insertByPriority (u : Category * Suggestion) (sorted : list (Category * Suggestion))
  : list (Category * Suggestion) :=
  match sorted with
  | [] => [u]
  | v :: rest =>
      if (priorityOrder (stype (snd u)) <=? priorityOrder (stype (snd v)))%nat
      then u :: sorted
      else v :: insertByPriority u rest
  end.

Definition sortByPriority (l : list (Category * Suggestion)) : list (Category * Suggestion) :=
  fold_right insertByPriority [] l.

Definition allUpdates (suggestions : Suggestions) : list (Category * Suggestion) :=
  flat_map (fun '(category, updates) => map (fun u => (category, u)) updates) suggestions.

Definition prioritizeUpdates (suggestions : Suggestions) : list (Category * Suggestion) :=
  firstn 10 (sortByPriority (allUpdates suggestions)).

Definition impactScore (c : Category) : float :=
  match c with
  | statistical => 0.2
  | temporal => 0.1
  | competitive => 0.3
  | trending => 0.25
  | structural => 0.15
  end.

Definition calculateUpdateImpact (suggestions : Suggestions) : float :=
  let impact :=
    fold_left (fun impact '(category, updates) =>
                 if (0 <? length updates)%nat then impact + impactScore category else impact)
              suggestions 0 in
  Math_min impact 1.

Record UpdatePlan := {
  urgentUpdates : list (Category * Suggestion);
  allSuggestions : Suggestions;
  estimatedImpact : float
}.

Definition suggestUpdates (scan : UpdateScan) (currentYear : Z) : UpdatePlan :=
  let suggestions := suggestionsOf scan currentYear in
  {| urgentUpdates := prioritizeUpdates suggestions;
     allSuggestions := suggestions;
     estimatedImpact := calculateUpdateImpact suggestions |}.

End FreshnessUpdates.

(** ** optimizers/AIContentBalancer: flagged sections *)

Module FlaggedSections.

Import JS.
Local Open Scope float_scope.

(** A paragraph as [identifyProblematicSections] reads it: the length of
    its text, for each of the ten patterns of
    [CONTENT_PATTERNS.AI_GENERATED] whether the lower-cased text includes
    it, and the word count of each of its sentences. *)
Record ParagraphScan := {
  chars : nat;
  aiPatterns : list bool;
  sentenceWords : list nat
}.

(** The test on the sentence structure: more than two sentences whose
    lengths have a variance below 10. *)
Definition uniformSentences (p : ParagraphScan) : bool :=
  let lengths := sentenceWords p in
  if (2 <? length lengths)%nat then
    let n := ofNat (length lengths) in
    let avgLength := fold_left (fun a b => a + ofNat b) lengths 0 / n in
    let variance :=
      fold_left (fun acc len => acc + AIContentBalancer.square (ofNat len - avgLength))
                lengths 0 / n in
    variance <? 10
  else false.

Definition calculateParagraphAIProbability (p : ParagraphScan) : float :=
  let probability :=
    fold_left (fun probability present =>
                 if present : bool then probability + 0.15 else probability)
              (aiPatterns p) 0 in
  let probability := if uniformSentences p then probability + 0.2 else probability in
  Math_min probability 1.

(** Is the paragraph flagged. *)
Definition flagged (p : ParagraphScan) : bool :=
  if (chars p <? 50)%nat then false
  else 0.7 <? calculateParagraphAIProbability p.

Definition identifyProblematicSections (paragraphs : list ParagraphScan) : list ParagraphScan :=
  filter flagged paragraphs.

End FlaggedSections.

(** ** analyzers/MultiPlatformAnalyzer *)

Module MultiPlatformAnalyzer.

Import JS.
Local Open Scope float_scope.

(** The values of [AI_PLATFORMS_2025]. *)
Inductive Platform :=
  google_ai_overview | chatgpt | perplexity | gemini | bing_chat | claude | you_com.

(** Does [PLATFORM_OPTIMIZATION_WEIGHTS] have an entry for the platform. *)
Definition hasWeights (p : Platform) : bool :=
  match p with
  | google_ai_overview | chatgpt | perplexity | gemini => true
  | _ => false
  end.

(** [PlatformVisibility]; of its queries only whether one of them includes
    'how' or 'what' is kept. *)
Record PlatformVisibility := {
  indexed : bool;
  citationFrequency : nat;
  averagePosition : nat;
  asksHowOrWhat : bool
}.

Definition calculatePlatformScore (platform : Platform) (visibility : PlatformVisibility) : float :=
  let score := 0 in
  let score := if indexed visibility then score + 0.2 else score in
  let score := score + Math_min (ofNat (citationFrequency visibility) * 0.02) 0.3 in
  let score := score + Math_max 0 ((5 - ofNat (averagePosition visibility)) * 0.1) in
  let score := if hasWeights platform then score * 1.2 else score in
  Math_min score 1.

Inductive PlatformRecommendation :=
  | indexing | citation_optimization | ranking_improvement
  | snippet_optimization | educational_content | freshness_update.

Definition recommendationPriority (r : PlatformRecommendation) : Types.Priority :=
  match r with
  | indexing | snippet_optimization | freshness_update => Types.priority_high
  | _ => Types.priority_medium
  end.

Definition getPlatformSpecificRecommendations
           (platform : Platform) (visibility : PlatformVisibility)
  : list PlatformRecommendation :=
  match platform with
  | google_ai_overview =>
      if (citationFrequency visibility <? 10)%nat then [snippet_optimization] else []
  | chatgpt =>
      if asksHowOrWhat visibility then [] else [educational_content]
  | perplexity =>
      let daysSinceUpdate := 30%nat in
      if (14 <? daysSinceUpdate)%nat then [freshness_update] else []
  | _ => []
  end.

Definition generatePlatformRecommendations
           (platform : Platform) (visibility : PlatformVisibility)
  : list PlatformRecommendation :=
  (if indexed visibility then [] else [indexing])
  ++ (if (citationFrequency visibility <? 5)%nat then [citation_optimization] else [])
  ++ (if (3 <? averagePosition visibility)%nat then [ranking_improvement] else [])
  ++ getPlatformSpecificRecommendations platform visibility.

(** The "Top Recommendations" of a platform in the report. *)
Definition topRecommendations (recs : list PlatformRecommendation) : list PlatformRecommendation :=
  firstn 2 (filter (fun r => match recommendationPriority r with
                             | Types.priority_high => true
                             | _ => false
                             end) recs).

End MultiPlatformAnalyzer.

(** ** utils/AIDetector *)

Module AIDetector.

Import JS.
Local Open Scope float_scope.

(** The features that [calculateAIConfidence] and [identifyAIIndicators]
    read. *)
Record Features := {
  vocabularyRichness : float;
  sentenceLengthVariance : float;
  sentimentConsistency : float;
  personalPronounRatio : float;
  formulaicPhrases : float;
  repetitiveStructures : float;
  unnaturalPerfection : float
}.

(** [detectUnnaturalPerfection], from the outcome of its three tests: does
    the text match the common errors, the punctuation errors, the
    inconsistent formatting. *)
Definition detectUnnaturalPerfection
           (commonErrors punctuationErrors inconsistentFormatting : bool) : float :=
  let perfectionScore := 0 in
  let perfectionScore := if commonErrors then perfectionScore else perfectionScore + 0.3 in
  let perfectionScore := if punctuationErrors then perfectionScore else perfectionScore + 0.3 in
  let perfectionScore :=
    if inconsistentFormatting then perfectionScore else perfectionScore + 0.4 in
  perfectionScore.

Definition weights : list ((Features -> float) * float) :=
  [ (vocabularyRichness, -0.15);
    (sentenceLengthVariance, -0.20);
    (sentimentConsistency, 0.15);
    (personalPronounRatio, -0.10);
    (formulaicPhrases, 0.25);
    (repetitiveStructures, 0.20);
    (unnaturalPerfection, 0.15) ].

Definition calculateAIConfidence (features : Features) : float :=
  let score :=
    fold_left (fun score '(feature, weight) => score + feature features * weight) weights 0 in
  Math_max 0 (Math_min 1 (score + 0.5)).

Inductive Indicator :=
  | Limited_vocabulary_diversity | Uniform_sentence_structure
  | Lack_of_personal_pronouns | Excessive_formulaic_phrases
  | Repetitive_sentence_patterns | Unnaturally_perfect_grammar_and_formatting
  | Overly_consistent_sentiment.

Definition identifyAIIndicators (features : Features) : list Indicator :=
  (if vocabularyRichness features <? 0.3 then [Limited_vocabulary_diversity] else [])
  ++ (if sentenceLengthVariance features <? 5 then [Uniform_sentence_structure] else [])
  ++ (if personalPronounRatio features <? 0.01 then [Lack_of_personal_pronouns] else [])
  ++ (if 3 <? formulaicPhrases features then [Excessive_formulaic_phrases] else [])
  ++ (if 0.3 <? repetitiveStructures features then [Repetitive_sentence_patterns] else [])
  ++ (if 0.8 <? unnaturalPerfection features
      then [Unnaturally_perfect_grammar_and_formatting] else [])
  ++ (if 0.9 <? sentimentConsistency features then [Overly_consistent_sentiment] else []).

Record Detection := {
  isAIGenerated : bool;
  confidence : float;
  indicators : list Indicator
}.

Definition detectAIContent (features : Features) : Detection :=
  let confidence := calculateAIConfidence features in
  {| isAIGenerated := 0.6 <? confidence;
     confidence := confidence;
     indicators := identifyAIIndicators features |}.

End AIDetector.

(** ** optimizers/ContentStructurer: keywords of a heading *)

Module Keywords.

Import String.StringSyntax.
Local Open Scope string_scope.

Definition commonWords : list String.string :=
  [ "the"; "a"; "an"; "and"; "or"; "but"; "in"; "on"; "at"; "to"; "for" ].

(** [extractKeywords], on the words of the lower-cased text, that is on
    [text.toLowerCase().split(/\s+/)]. *)
Definition extractKeywords (words : list String.string) : list String.string :=
  firstn 5 (filter (fun word => (3 <? String.length word)%nat
                                && negb (existsb (String.eqb word) commonWords))
                   words).

End Keywords.

(** ** Vocabulary of the further statements *)

(** The status that goes with a performance level, the emoji that goes
    with a status, and the visibility text that goes with a status. *)
Definition statusOfLevel (l : ReportLabels.PerformanceLevel) : ReportLabels.Status :=
  match l with
  | ReportLabels.EXCELLENT => ReportLabels.Excellent
  | ReportLabels.GOOD => ReportLabels.Good
  | ReportLabels.AVERAGE => ReportLabels.Fair
  | ReportLabels.NEEDS_IMPROVEMENT => ReportLabels.Poor
  end.

Definition emojiOfStatus (s : ReportLabels.Status) : ReportLabels.StatusEmoji :=
  match s with
  | ReportLabels.Excellent => ReportLabels.check_mark
  | ReportLabels.Good => ReportLabels.warning_sign
  | _ => ReportLabels.cross_mark
  end.

Definition visibilityOfStatus (s : ReportLabels.Status) : ReportLabels.VisibilityPerformance :=
  match s with
  | ReportLabels.Excellent => ReportLabels.Leading
  | ReportLabels.Good => ReportLabels.Strong
  | ReportLabels.Fair => ReportLabels.Moderate
  | ReportLabels.Poor => ReportLabels.Limited
  end.

(** The report's benchmark status that goes with a benchmark level of the
    KPI tracker, and the percentiles that go with it. *)
Definition statusOfBenchmarkLevel (l : KPITracker.BenchmarkLevel) : ReportLabels.BenchmarkStatus :=
  match l with
  | KPITracker.Excellent => ReportLabels.Top_10
  | KPITracker.Good => ReportLabels.Top_25
  | KPITracker.Average => ReportLabels.Average
  | KPITracker.Poor => ReportLabels.Below_Average
  end.

Definition percentilesOfBenchmarkLevel (l : KPITracker.BenchmarkLevel) : list nat :=
  match l with
  | KPITracker.Excellent => [90]
  | KPITracker.Good => [70]
  | KPITracker.Average => [50]
  | KPITracker.Poor => [30; 10]
  end.

Definition isHighPriority (r : Types.Recommendation float) : bool :=
  match Types.priority r with
  | Types.priority_high => true
  | _ => false
  end.

(** Is an update with this priority and effort a task of some phase of the
    timeline. *)
Definition scheduled (u : ContentUpdateSuggester.Update) : bool :=
  match ContentUpdateSuggester.upriority u, ContentUpdateSuggester.effort u with
  | ContentUpdateSuggester.urgent, ContentUpdateSuggester.effort_low
  | ContentUpdateSuggester.update_high, ContentUpdateSuggester.effort_low
  | ContentUpdateSuggester.update_high, ContentUpdateSuggester.effort_medium
  | ContentUpdateSuggester.update_medium, ContentUpdateSuggester.effort_medium
  | ContentUpdateSuggester.update_medium, ContentUpdateSuggester.effort_high => true
  | _, _ => false
  end.

(** The kinds of update that the suggester creates with a priority and an
    effort that no phase of the timeline takes. *)
Definition unscheduledTypes : list ContentUpdateSuggester.UpdateType :=
  [ ContentUpdateSuggester.critical_freshness;
    ContentUpdateSuggester.citation_optimization;
    ContentUpdateSuggester.image_optimization;
    ContentUpdateSuggester.internal_linking;
    ContentUpdateSuggester.improve_formatting ].

(** The order [prioritizeUpdates] sorts by. *)
Definition byPriority (a b : FreshnessUpdates.Category * FreshnessUpdates.Suggestion) : Prop :=
  FreshnessUpdates.priorityOrder (FreshnessUpdates.stype (snd a))
  <= FreshnessUpdates.priorityOrder (FreshnessUpdates.stype (snd b)).

(** How many of the patterns a paragraph includes. *)
Definition patternCount (p : FlaggedSections.ParagraphScan) : nat :=
  length (filter (fun present => present) (FlaggedSections.aiPatterns p)).

(** The probability of a paragraph that includes [k] patterns. *)
Definition probabilityOf (k : nat) (uniform : bool) : float :=
  let probability := Nat.iter k (fun probability => probability + 0.15)%float 0%float in
  let probability := if uniform then (probability + 0.2)%float else probability in
  JS.Math_min probability 1.

(** The probability of up to ten patterns exceeds 0.7 exactly from five
    patterns on, or from four with uniform sentences. *)
Definition flaggedFromFourOrFive : bool :=
  forallb (fun k =>
    forallb (fun uniform =>
      Bool.eqb (PrimFloat.ltb 0.7 (probabilityOf k uniform))
               ((5 <=? k) || ((4 <=? k) && uniform))
      && JS.inUnit (probabilityOf k uniform))
      [false; true])
    (seq 0 11).

(** The visibilities the simulated check can return: a citation frequency
    from 1 to 20 and an average position from 1 to 5. *)
Definition simulatedVisibilities : list MultiPlatformAnalyzer.PlatformVisibility :=
  flat_map (fun isIndexed =>
    flat_map (fun frequency =>
      flat_map (fun position =>
        map (fun asks =>
               {| MultiPlatformAnalyzer.indexed := isIndexed;
                  MultiPlatformAnalyzer.citationFrequency := frequency;
                  MultiPlatformAnalyzer.averagePosition := position;
                  MultiPlatformAnalyzer.asksHowOrWhat := asks |})
            [false; true])
        (seq 1 5))
      (seq 1 20))
    [false; true].

Definition allPlatforms : list MultiPlatformAnalyzer.Platform :=
  [ MultiPlatformAnalyzer.google_ai_overview; MultiPlatformAnalyzer.chatgpt;
    MultiPlatformAnalyzer.perplexity; MultiPlatformAnalyzer.gemini;
    MultiPlatformAnalyzer.bing_chat; MultiPlatformAnalyzer.claude;
    MultiPlatformAnalyzer.you_com ].

(** The visibility [v], indexed; with one more citation; one position
    nearer to the top. *)
Definition nowIndexed (v : MultiPlatformAnalyzer.PlatformVisibility) :=
  {| MultiPlatformAnalyzer.indexed := true;
     MultiPlatformAnalyzer.citationFrequency := MultiPlatformAnalyzer.citationFrequency v;
     MultiPlatformAnalyzer.averagePosition := MultiPlatformAnalyzer.averagePosition v;
     MultiPlatformAnalyzer.asksHowOrWhat := MultiPlatformAnalyzer.asksHowOrWhat v |}.

Definition citedOnceMore (v : MultiPlatformAnalyzer.PlatformVisibility) :=
  {| MultiPlatformAnalyzer.indexed := MultiPlatformAnalyzer.indexed v;
     MultiPlatformAnalyzer.citationFrequency := S (MultiPlatformAnalyzer.citationFrequency v);
     MultiPlatformAnalyzer.averagePosition := MultiPlatformAnalyzer.averagePosition v;
     MultiPlatformAnalyzer.asksHowOrWhat := MultiPlatformAnalyzer.asksHowOrWhat v |}.

Definition onePositionUp (v : MultiPlatformAnalyzer.PlatformVisibility) :=
  {| MultiPlatformAnalyzer.indexed := MultiPlatformAnalyzer.indexed v;
     MultiPlatformAnalyzer.citationFrequency := MultiPlatformAnalyzer.citationFrequency v;
     MultiPlatformAnalyzer.averagePosition := Nat.pred (MultiPlatformAnalyzer.averagePosition v);
     MultiPlatformAnalyzer.asksHowOrWhat := MultiPlatformAnalyzer.asksHowOrWhat v |}.

(** On a platform and a visibility: the score is a number between 0 and
    1, at most 0.9 without a weight table, and not lowered by indexing, by
    one more citation or by a better position. *)
Definition platformScoreOk (platform : MultiPlatformAnalyzer.Platform)
           (v : MultiPlatformAnalyzer.PlatformVisibility) : bool :=
  let s := MultiPlatformAnalyzer.calculatePlatformScore platform v in
  JS.inUnit s
  && (MultiPlatformAnalyzer.hasWeights platform || PrimFloat.leb s 0.9)
  && PrimFloat.leb s (MultiPlatformAnalyzer.calculatePlatformScore platform (nowIndexed v))
  && PrimFloat.leb s (MultiPlatformAnalyzer.calculatePlatformScore platform (citedOnceMore v))
  && PrimFloat.leb s (MultiPlatformAnalyzer.calculatePlatformScore platform (onePositionUp v)).

Definition platformScoresOk : bool :=
  forallb (fun platform => forallb (platformScoreOk platform) simulatedVisibilities)
          allPlatforms.

(** The citation score at the counts given is at most 0.515, and the
    report labels it Fair or Poor. *)
Definition citationAtMostFair (i v d q : nat) (research : bool) : bool :=
  let s := citationScore i v d q research in
  PrimFloat.leb s 0.515
  && match ReportLabels.getStatus s with
     | ReportLabels.Excellent | ReportLabels.Good => false
     | _ => true
     end.

Definition citationAtMostFairEverywhere : bool :=
  forallb (fun i =>
    forallb (fun d =>
      forallb (fun v =>
        forallb (fun q =>
          forallb (fun research => citationAtMostFair i v d q research) [false; true])
          (seq 0 6))
        (seq 0 (S d)))
      (seq 0 11))
    (seq 0 6).

(** A document with all that [calculateCitationWorthiness] rewards: five
    insights, ten verifiable data points, original research, five quotes. *)
Definition richestCitations : AICitationAnalyzer.CitationFeatures :=
  {| AICitationAnalyzer.insightsFound := repeat String.EmptyString 5;
     AICitationAnalyzer.dataPointsFound :=
       repeat {| AICitationAnalyzer.unique := true; AICitationAnalyzer.verifiable := true |} 10;
     AICitationAnalyzer.researchIndicator := true;
     AICitationAnalyzer.quotesFound := repeat String.EmptyString 5 |}.

(** ** utils/SchemaGenerator *)

Module SchemaGenerator.

Import Exceptions.
Import String.StringSyntax.
Local Open Scope string_scope.

(** The ['@type'] of the schemas that [generateSchemas] builds. *)
Inductive SchemaType :=
  Brand | FAQPage | HowTo | Person | Product | Service | Event | Article | WebPage.

Definition SchemaType_text (t : SchemaType) : String.string :=
  match t with
  | Brand => "Brand"
  | FAQPage => "FAQPage"
  | HowTo => "HowTo"
  | Person => "Person"
  | Product => "Product"
  | Service => "Service"
  | Event => "Event"
  | Article => "Article"
  | WebPage => "WebPage"
  end.

(** [SCHEMA_PRIORITY] of constants.ts, key by key. *)
Definition SCHEMA_PRIORITY : list (String.string * nat) :=
  [ ("FAQ", 1); ("HOWTO", 2); ("ORGANIZATION", 3); ("PERSON", 4);
    ("PRODUCT", 5); ("ARTICLE", 6); ("REVIEW", 7); ("EVENT", 8) ].

(** [SCHEMA_PRIORITY[key] || 999]: a missing key and the priority 0 both
    give 999. *)
Definition priorityOr999 (key : String.string) : nat :=
  match find (fun entry => String.eqb (fst entry) key) SCHEMA_PRIORITY with
  | Some (_, p) => if (p =? 0)%nat then 999 else p
  | None => 999
  end.

(** A schema: its ['@type'] and, for the schema of an entity, the name of
    the entity; the other properties are not kept. *)
Record SchemaMarkup := {
  atType : SchemaType;
  name : option String.string
}.

Definition schemaPriority (s : SchemaMarkup) : nat :=
  priorityOr999 (SchemaType_text (atType s)).

(** [Array.prototype.sort] with the comparator [priorityA - priorityB]: a
    stable sort, that is the insertion of each element, from the last to
    the first, before the first element whose priority is not smaller. *)
Fixpoint insertSchema (s : SchemaMarkup) (sorted : list SchemaMarkup) : list SchemaMarkup :=
  match sorted with
  | [] => [s]
  | t :: rest =>
      if (schemaPriority s <=? schemaPriority t)%nat
      then s :: sorted
      else t :: insertSchema s rest
  end.

Definition prioritizeSchemas (schemas : list SchemaMarkup) : list SchemaMarkup :=
  fold_right insertSchema [] schemas.

(** [Entity.type]. *)
Inductive EntityType :=
  | entity_Organization | entity_Person | entity_Brand | entity_Product
  | entity_Service | entity_Event | entity_Place.

Record Entity := {
  entityName : String.string;
  entityType : EntityType
}.

(** What [generateSchemas] reads of its argument: the number of FAQs, the
    two counts of [isHowToContent], the number of steps that
    [extractHowToSteps] finds, the key points of the content structure,
    the entities and the content type.  The type [ContentStructure]
    declares no [keyPoints]: a structure of that type has none, which is
    [None] here, and one that has some has [Some] number of them. *)
Record SchemaData := {
  faqs : nat;
  indicatorCount : nat;      (* how-to indicators that the content includes *)
  howToHeadings : nat;       (* headings that include 'how to' or 'step' *)
  steps : nat;
  keyPoints : option nat;    (* contentStructure.keyPoints.length *)
  entities : list Entity;
  contentType : option String.string
}.

Definition isHowToContent (data : SchemaData) : bool :=
  (3 <=? indicatorCount data)%nat || (2 <=? howToHeadings data)%nat.

(** [generateHowToSchema] returns [null] when there is no step. *)
Definition generateHowToSchema (data : SchemaData) : option SchemaMarkup :=
  if (steps data =? 0)%nat then None else Some {| atType := HowTo; name := None |}.

Definition entitySchema (entity : Entity) : list SchemaMarkup :=
  match entityType entity with
  | entity_Person => [ {| atType := Person; name := Some (entityName entity) |} ]
  | entity_Product => [ {| atType := Product; name := Some (entityName entity) |} ]
  | entity_Service => [ {| atType := Service; name := Some (entityName entity) |} ]
  | entity_Event => [ {| atType := Event; name := Some (entityName entity) |} ]
  | _ => []
  end.

Definition isArticleOrBlog (contentType : option String.string) : bool :=
  match contentType with
  | Some t => String.eqb t "article" || String.eqb t "blog"
  | None => false
  end.

(** [generateArticleSchema] calls [extractKeywords], which reads
    [structure.keyPoints.forEach], and [generateWebPageSchema] reads
    [structure.keyPoints.slice]: without key points either throws a
    TypeError. *)
Definition generateArticleSchema (data : SchemaData) : Outcome SchemaMarkup :=
  match keyPoints data with
  | Some _ => Returns {| atType := Article; name := None |}
  | None => Throws TypeError
  end.

Definition generateWebPageSchema (data : SchemaData) : Outcome SchemaMarkup :=
  match keyPoints data with
  | Some _ => Returns {| atType := WebPage; name := None |}
  | None => Throws TypeError
  end.

Definition generateSchemas (data : SchemaData) : Outcome (list SchemaMarkup) :=
  let schemas := [ {| atType := Brand; name := None |} ] in
  let schemas :=
    if (0 <? faqs data)%nat
    then schemas ++ [ {| atType := FAQPage; name := None |} ] else schemas in
  let schemas :=
    if isHowToContent data
    then match generateHowToSchema data with
         | Some howToSchema => schemas ++ [howToSchema]
         | None => schemas
         end
    else schemas in
  let schemas := schemas ++ flat_map entitySchema (entities data) in
  match (if isArticleOrBlog (contentType data)
         then match generateArticleSchema data with
              | Returns articleSchema => Returns (schemas ++ [articleSchema])
              | Throws e => Throws e
              end
         else Returns schemas) with
  | Throws e => Throws e
  | Returns schemas =>
      match generateWebPageSchema data with
      | Returns webPageSchema => Returns (prioritizeSchemas (schemas ++ [webPageSchema]))
      | Throws e => Throws e
      end
  end.

(** [extractDescription], on the first paragraph of the content, that is
    on [content.split('\n\n')[0]]. *)
Definition extractDescription (firstParagraph : String.string) : String.string :=
  if (160 <? String.length firstParagraph)%nat
  then String.append (String.substring 0 157 firstParagraph) "..."
  else firstParagraph.

End SchemaGenerator.

(** ** legal-compliance: generators/privacy-policy *)

Module PrivacyPolicyGenerator.

Import String.StringSyntax.
Local Open Scope string_scope.

(** The options that decide which sections a policy has: the number of
    international transfers and of cookie categories ([None] when the
    option is not given) and the two flags.  The other options only fill
    the texts in. *)
Record PrivacyPolicyOptions := {
  internationalTransfers : option nat;
  cookies : option nat;
  childrenPrivacy : option bool;
  californiaPrivacy : option bool
}.

(** A text, as the sequence of its blocks: a numbered heading, or any
    other text.  The empty string is the empty sequence. *)
Inductive Block :=
  | heading (number : nat) (title : String.string)
  | prose.

Definition Text := list Block.

(** [Boolean(text)]: a string is truthy unless it is empty. *)
Definition Boolean (text : Text) : bool :=
  match text with
  | [] => false
  | _ => true
  end.

(** [!option] of an optional array, and of an optional flag. *)
Definition missingOrEmpty (option : option nat) : bool :=
  match option with
  | None | Some 0 => true
  | Some _ => false
  end.

Definition notSet (flag : option bool) : bool :=
  match flag with
  | Some true => false
  | _ => true
  end.

Definition generateHeader : Text := [prose].
Definition generateIntroduction : Text := [prose; heading 1 "Introduction"; prose].
Definition generateDataController : Text := [heading 2 "Data Controller"; prose].
Definition generateDataCollection : Text := [heading 3 "Information We Collect"; prose].
Definition generatePurposesAndLegalBases : Text :=
  [heading 4 "How We Use Your Information"; prose].
Definition generateDataSharing : Text := [heading 5 "Data Sharing"; prose].

Definition generateInternationalTransfers (options : PrivacyPolicyOptions) : Text :=
  if missingOrEmpty (internationalTransfers options) then []
  else [heading 6 "International Transfers"; prose].

Definition generateDataRetention : Text := [heading 7 "Data Retention"; prose].
Definition generateUserRights : Text := [heading 8 "Your Rights"; prose].
Definition generateDataSecurity : Text := [heading 9 "Data Security"; prose].

Definition generateCookies (options : PrivacyPolicyOptions) : Text :=
  if missingOrEmpty (cookies options) then []
  else [heading 10 "Cookies and Tracking Technologies"; prose].

Definition generateChildrenPrivacy (options : PrivacyPolicyOptions) : Text :=
  if notSet (childrenPrivacy options) then []
  else [heading 11 "Children's Privacy"; prose].

Definition generateCaliforniaPrivacy (options : PrivacyPolicyOptions) : Text :=
  if notSet (californiaPrivacy options) then []
  else [heading 12 "California Privacy Rights"; prose].

Definition generateChanges : Text := [heading 13 "Changes to This Privacy Policy"; prose].
Definition generateContact : Text := [heading 14 "Contact Us"; prose].

(** [sections.filter(Boolean).join(...)]. *)
Definition join (sections : list Text) : Text := concat (filter Boolean sections).

Definition generate (options : PrivacyPolicyOptions) : Text :=
  join [ generateHeader;
         generateIntroduction;
         generateDataController;
         generateDataCollection;
         generatePurposesAndLegalBases;
         generateDataSharing;
         generateInternationalTransfers options;
         generateDataRetention;
         generateUserRights;
         generateDataSecurity;
         generateCookies options;
         generateChildrenPrivacy options;
         generateCaliforniaPrivacy options;
         generateChanges;
         generateContact ].

(** The Markdown texts of the sections; those of the four optional
    sections are empty as their HTML texts are. *)
Definition generateInternationalTransfersMarkdown (options : PrivacyPolicyOptions) : Text :=
  if missingOrEmpty (internationalTransfers options) then [] else [prose].

Definition generateCookiesMarkdown (options : PrivacyPolicyOptions) : Text :=
  if missingOrEmpty (cookies options) then [] else [prose].

Definition generateChildrenPrivacyMarkdown (options : PrivacyPolicyOptions) : Text :=
  if notSet (childrenPrivacy options) then [] else [prose].

Definition generateCaliforniaPrivacyMarkdown (options : PrivacyPolicyOptions) : Text :=
  if notSet (californiaPrivacy options) then [] else [prose].

(** In [generateMarkdown] the optional sections are guarded by the option
    itself, which for an array is truthy also when the array is empty. *)
Definition generateMarkdown (options : PrivacyPolicyOptions) : Text :=
  join [ [prose];
         [];
         [prose];
         [prose];
         [];
         [heading 1 "Introduction"];
         [prose];
         [];
         [heading 2 "Data Controller"];
         [prose];
         [];
         [heading 3 "Information We Collect"];
         [prose];
         [];
         [heading 4 "How We Use Your Information"];
         [prose];
         [];
         [heading 5 "Legal Bases for Processing"];
         [prose];
         [];
         [heading 6 "Data Sharing"];
         [prose];
         [];
         match internationalTransfers options with
         | Some _ => [heading 7 "International Transfers"]
                     ++ generateInternationalTransfersMarkdown options
         | None => []
         end;
         [heading 8 "Data Retention"];
         [prose];
         [];
         [heading 9 "Your Rights"];
         [prose];
         [];
         [heading 10 "Data Security"];
         [prose];
         [];
         match cookies options with
         | Some _ => [heading 11 "Cookies and Tracking"] ++ generateCookiesMarkdown options
         | None => []
         end;
         (if notSet (childrenPrivacy options) then []
          else [heading 12 "Children's Privacy"] ++ generateChildrenPrivacyMarkdown options);
         (if notSet (californiaPrivacy options) then []
          else [heading 13 "California Privacy Rights"]
               ++ generateCaliforniaPrivacyMarkdown options);
         [heading 14 "Changes to This Policy"];
         [prose];
         [];
         [heading 15 "Contact Us"];
         [prose] ].

End PrivacyPolicyGenerator.

(** The numbers of the headings of a text, in order, and the numbers of
    those that no text follows before the next heading or the end. *)
Definition headingNumbers (text : PrivacyPolicyGenerator.Text) : list nat :=
  flat_map (fun block => match block with
                         | PrivacyPolicyGenerator.heading n _ => [n]
                         | PrivacyPolicyGenerator.prose => []
                         end) text.

Fixpoint emptySections (text : PrivacyPolicyGenerator.Text) : list nat :=
  match text with
  | [] => []
  | PrivacyPolicyGenerator.heading n _ :: rest =>
      match rest with
      | PrivacyPolicyGenerator.prose :: _ => emptySections rest
      | _ => n :: emptySections rest
      end
  | PrivacyPolicyGenerator.prose :: rest => emptySections rest
  end.

(** The number that a heading with the given title has in a text. *)
Definition numberOf (title : String.string) (text : PrivacyPolicyGenerator.Text) : option nat :=
  match find (fun block => match block with
                           | PrivacyPolicyGenerator.heading _ t => String.eqb t title
                           | PrivacyPolicyGenerator.prose => false
                           end) text with
  | Some (PrivacyPolicyGenerator.heading n _) => Some n
  | _ => None
  end.

(** A history in which every address has the full 90 entries. *)
Definition fullHistory : KPITracker.History nat := fun _ => repeat 0 90.

(** The schemas of [generateSchemas] in the order of the pushes, for a
    content structure with key points. *)
Definition schemasInPushOrder (data : SchemaGenerator.SchemaData)
  : list SchemaGenerator.SchemaMarkup :=
  [ {| SchemaGenerator.atType := SchemaGenerator.Brand; SchemaGenerator.name := None |} ]
  ++ (if 0 <? SchemaGenerator.faqs data
      then [ {| SchemaGenerator.atType := SchemaGenerator.FAQPage;
                SchemaGenerator.name := None |} ]
      else [])
  ++ (if SchemaGenerator.isHowToContent data && negb (SchemaGenerator.steps data =? 0)
      then [ {| SchemaGenerator.atType := SchemaGenerator.HowTo;
                SchemaGenerator.name := None |} ]
      else [])
  ++ flat_map SchemaGenerator.entitySchema (SchemaGenerator.entities data)
  ++ (if SchemaGenerator.isArticleOrBlog (SchemaGenerator.contentType data)
      then [ {| SchemaGenerator.atType := SchemaGenerator.Article;
                SchemaGenerator.name := None |} ]
      else [])
  ++ [ {| SchemaGenerator.atType := SchemaGenerator.WebPage; SchemaGenerator.name := None |} ].

(** The document [f] with one more ld+json script, at position [k], that
    does not parse: a plain script element, which matches none of the
    selectors of the three flags.  The text of a script is part of
    [root.text], in which the brand is counted: [mentions] is the count in
    the new text. *)
Definition addUnparsableScript (f : EntityOptimizer.EntityFeatures) (k mentions : nat)
  : EntityOptimizer.EntityFeatures :=
  {| EntityOptimizer.schemaScripts := insertAt k false (EntityOptimizer.schemaScripts f);
     EntityOptimizer.brandMentions := mentions;
     EntityOptimizer.hasItemscope := EntityOptimizer.hasItemscope f;
     EntityOptimizer.hasAddress := EntityOptimizer.hasAddress f;
     EntityOptimizer.hasAuthor := EntityOptimizer.hasAuthor f |}.

(** The empty document with four empty [cite] elements, an element of
    class contact and a link to a privacy page. *)
Definition citedWithContact : AIOptimizer.Document :=
  {| AIOptimizer.entityFeatures := AIOptimizer.entityFeatures emptyDocument;
     AIOptimizer.structureFeatures := AIOptimizer.structureFeatures emptyDocument;
     AIOptimizer.eeatFeatures :=
       {| EEATSignalBuilder.authorElements := [];
          EEATSignalBuilder.credentialMatches := 0;
          EEATSignalBuilder.expertiseIndicators := 0;
          EEATSignalBuilder.experienceMatches := 0;
          EEATSignalBuilder.caseStudies := 0;
          EEATSignalBuilder.testimonials := 0;
          EEATSignalBuilder.citations := 4;
          EEATSignalBuilder.authoritativeLinks := 0;
          EEATSignalBuilder.dataMatches := 0;
          EEATSignalBuilder.contactElements := 1;
          EEATSignalBuilder.legalLinks := 1;
          EEATSignalBuilder.securityMentioned := false;
          EEATSignalBuilder.dateElements := 0 |};
     AIOptimizer.dateFeatures := AIOptimizer.dateFeatures emptyDocument;
     AIOptimizer.balanceFeatures := AIOptimizer.balanceFeatures emptyDocument;
     AIOptimizer.citationFeatures := AIOptimizer.citationFeatures emptyDocument |}.

(** * Properties *)

(** ** Freshness *)

Section Freshness.

Import Types FreshnessMonitor.

Ltac split_comparisons :=
  repeat match goal with
         | |- context [(?a <? ?b)%Z] => destruct (a <? b)%Z
         end.

(** Whatever the age and the baseline, the freshness score is a number
    between 0 and 1. *)
Lemma calculateFreshnessScore_inUnit (daysSinceUpdate competitorAverage : Z) :
  JS.inUnit (calculateFreshnessScore daysSinceUpdate competitorAverage) = true.
Proof.
  unfold calculateFreshnessScore; split_comparisons; vm_compute; reflexivity.
Qed.

(** Content that is at most a week old has the full score. *)
Lemma calculateFreshnessScore_week (daysSinceUpdate competitorAverage : Z) :
  (daysSinceUpdate <= 7)%Z ->
  calculateFreshnessScore daysSinceUpdate competitorAverage = 1%float.
Proof.
  intros Hweek. unfold calculateFreshnessScore.
  replace (7 <? daysSinceUpdate)%Z with false by (symmetry; apply Z.ltb_ge; lia).
  replace (30 <? daysSinceUpdate)%Z with false by (symmetry; apply Z.ltb_ge; lia).
  replace (60 <? daysSinceUpdate)%Z with false by (symmetry; apply Z.ltb_ge; lia).
  replace (90 <? daysSinceUpdate)%Z with false by (symmetry; apply Z.ltb_ge; lia).
  replace (180 <? daysSinceUpdate)%Z with false by (symmetry; apply Z.ltb_ge; lia).
  destruct (daysSinceUpdate <? competitorAverage)%Z; vm_compute; reflexivity.
Qed.

Lemma ceilDiv_le (a b q : Z) :
  (0 < b)%Z -> (a <= q * b)%Z -> (JS.ceilDiv a b <= q)%Z.
Proof.
  intros Hb Ha. unfold JS.ceilDiv.
  assert (- q <= (- a) / b)%Z by (apply Z.div_le_lower_bound; nia).
  lia.
Qed.

Lemma calculateDaysSince_le (date now q : Z) :
  (Z.abs (now - date) <= daysMs q)%Z -> (calculateDaysSince date now <= q)%Z.
Proof.
  intros Hd. unfold calculateDaysSince. apply ceilDiv_le.
  - reflexivity.
  - exact Hd.
Qed.

(** The urgency of content that is more than a week old, or more than
    twice as old as the competitors', is critical. *)
Lemma determineUpdateUrgency_critical (daysSinceUpdate competitorAverage : Z) :
  (competitorAverage * 2 < daysSinceUpdate \/ 7 < daysSinceUpdate)%Z ->
  determineUpdateUrgency daysSinceUpdate competitorAverage = critical.
Proof.
  intros Hold. unfold determineUpdateUrgency, Constants.FRESHNESS_THRESHOLDS.CRITICAL.
  destruct (Z.ltb_spec (competitorAverage * 2) daysSinceUpdate); [reflexivity|].
  destruct (Z.ltb_spec 7 daysSinceUpdate); [reflexivity|lia].
Qed.

(** C7: a document that was last updated 40 days ago, analysed against a
    competitor average of 15 days, has update urgency critical. *)
Theorem urgency_critical_at_40_days_against_15 (d : DateFeatures) (env : Env) :
  calculateDaysSince (extractLastUpdated d (clockAtExtract env)) (clockAtDays env) = 40%Z ->
  getCompetitorFreshness (random env) = 15%Z ->
  updateUrgency (checkFreshness d env) = critical
  /\ determineUpdateUrgency 40 15 = critical.
Proof.
  intros Hage Hbaseline. unfold checkFreshness. cbn [updateUrgency].
  rewrite Hage, Hbaseline. split; reflexivity.
Qed.

Lemma urgency_critical_at_40_days_against_15_witness :
  updateUrgency (checkFreshness (AIOptimizer.dateFeatures (datedDocument 0))
                                (envAt (daysMs 40 - 1) 0))
  = critical
  /\ determineUpdateUrgency 40 15 = critical.
Proof.
  apply (urgency_critical_at_40_days_against_15
           (AIOptimizer.dateFeatures (datedDocument 0)) (envAt (daysMs 40 - 1) 0));
    reflexivity.
Defined.

(** C9: [determineUpdateUrgency] answers critical exactly when the age
    exceeds twice the competitor average or exceeds 7 days, and low
    otherwise; it never answers high or medium, the threshold for critical
    (7) being below those for high (30) and medium (90). *)
Theorem determineUpdateUrgency_critical_or_low (daysSinceUpdate competitorAverage : Z) :
  (determineUpdateUrgency daysSinceUpdate competitorAverage = critical
   <-> (2 * competitorAverage < daysSinceUpdate \/ 7 < daysSinceUpdate)%Z)
  /\ (determineUpdateUrgency daysSinceUpdate competitorAverage = low
      <-> ~ (2 * competitorAverage < daysSinceUpdate \/ 7 < daysSinceUpdate)%Z)
  /\ determineUpdateUrgency daysSinceUpdate competitorAverage <> high
  /\ determineUpdateUrgency daysSinceUpdate competitorAverage <> medium
  /\ (Constants.FRESHNESS_THRESHOLDS.CRITICAL < Constants.FRESHNESS_THRESHOLDS.HIGH
      < Constants.FRESHNESS_THRESHOLDS.MEDIUM)%Z.
Proof.
  unfold determineUpdateUrgency, Constants.FRESHNESS_THRESHOLDS.CRITICAL,
    Constants.FRESHNESS_THRESHOLDS.HIGH, Constants.FRESHNESS_THRESHOLDS.MEDIUM.
  destruct (Z.ltb_spec (competitorAverage * 2) daysSinceUpdate);
    [ repeat split; intros; try discriminate; try lia; tauto | ].
  destruct (Z.ltb_spec 7 daysSinceUpdate);
    [ repeat split; intros; try discriminate; try lia; tauto | ].
  destruct (Z.ltb_spec 30 daysSinceUpdate); [ lia | ].
  destruct (Z.ltb_spec 90 daysSinceUpdate); [ lia | ].
  repeat split; intros; try discriminate; try lia.
Qed.

End Freshness.

(** Two closed binary64 values that compare different are different. *)
Ltac float_discriminate H :=
  match type of H with
  | ?x = ?y =>
      apply (f_equal (fun z => PrimFloat.Leibniz.eqb z y)) in H;
      vm_compute in H; discriminate H
  end.

(** ** A document without a date *)

Section MissingDate.

Import Types FreshnessMonitor.


(** C8, as stated, fails: a document without any date has a higher
    freshness score (1) than the same document with an explicit date 20
    days back (0.9), both analysed against a competitor average of 15. *)
Lemma missing_date_scores_higher_than_explicit_date :
  getCompetitorFreshness 0 = 15%Z
  /\ ageInDays (AIOptimizer.dateFeatures (datedDocument 0)) (envAt (daysMs 20 - 1) 0) = 20%Z
  /\ score (checkFreshness (AIOptimizer.dateFeatures emptyDocument) (envAt (daysMs 20 - 1) 0))
     = 1%float
  /\ score (checkFreshness (AIOptimizer.dateFeatures (datedDocument 0)) (envAt (daysMs 20 - 1) 0))
     = 0.9%float
  /\ PrimFloat.leb
       (score (checkFreshness (AIOptimizer.dateFeatures emptyDocument) (envAt (daysMs 20 - 1) 0)))
       (score (checkFreshness (AIOptimizer.dateFeatures (datedDocument 0)) (envAt (daysMs 20 - 1) 0)))
     = false.
Proof. repeat split; vm_compute; reflexivity. Qed.

(** C8, amended: a document in which [extractLastUpdated] finds no date
    is given the time of the analysis as its date; when the two clock
    readings of the analysis are at most a week apart its freshness score
    is 1, and no document scores more than 1. *)
Theorem missing_date_gets_full_freshness (d : DateFeatures) (env : Env) :
  (forall now, extractLastUpdated d now = now) ->
  (Z.abs (clockAtDays env - clockAtExtract env) <= daysMs 7)%Z ->
  lastUpdated (checkFreshness d env) = clockAtExtract env
  /\ score (checkFreshness d env) = 1%float
  /\ forall d', PrimFloat.leb (score (checkFreshness d' env)) (score (checkFreshness d env)) = true.
Proof.
  intros Hnone Hclock.
  assert (Hscore : score (checkFreshness d env) = 1%float).
  { unfold checkFreshness; cbn [score]. rewrite Hnone.
    apply calculateFreshnessScore_week, calculateDaysSince_le, Hclock. }
  split; [ unfold checkFreshness; cbn [lastUpdated]; apply Hnone | ].
  split; [ exact Hscore | ].
  intros d'. rewrite Hscore. unfold checkFreshness; cbn [score].
  pose proof (calculateFreshnessScore_inUnit
                (calculateDaysSince (extractLastUpdated d' (clockAtExtract env)) (clockAtDays env))
                (getCompetitorFreshness (random env))) as Hunit.
  unfold JS.inUnit in Hunit. apply andb_true_iff in Hunit. apply Hunit.
Qed.

Lemma missing_date_gets_full_freshness_witness :
  lastUpdated (checkFreshness (AIOptimizer.dateFeatures emptyDocument) (envAt 5000 0.5)) = 5000%Z
  /\ score (checkFreshness (AIOptimizer.dateFeatures emptyDocument) (envAt 5000 0.5)) = 1%float
  /\ forall d',
      PrimFloat.leb (score (checkFreshness d' (envAt 5000 0.5)))
                    (score (checkFreshness (AIOptimizer.dateFeatures emptyDocument) (envAt 5000 0.5)))
      = true.
Proof.
  apply (missing_date_gets_full_freshness
           (AIOptimizer.dateFeatures emptyDocument) (envAt 5000 0.5)).
  - intros now. reflexivity.
  - vm_compute. discriminate.
Defined.

End MissingDate.

(** ** The analysis of a document *)

Section Analysis.

Import Types AIOptimizer.

(** The five scores that are computed from the document alone do not
    depend on the clock or on the random draw. *)
Lemma analyzeContent_document_scores (doc : Document) (env1 env2 : Env) :
  Types.entityScore (analyzeContent doc env1) = Types.entityScore (analyzeContent doc env2)
  /\ aiCitationPotential (analyzeContent doc env1) = aiCitationPotential (analyzeContent doc env2)
  /\ structureScore (analyzeContent doc env1) = structureScore (analyzeContent doc env2)
  /\ Types.eeatSignals (analyzeContent doc env1) = Types.eeatSignals (analyzeContent doc env2)
  /\ Types.aiHumanBalance (analyzeContent doc env1) = Types.aiHumanBalance (analyzeContent doc env2).
Proof. repeat split. Qed.

(** C6, as stated, fails: two runs on the same document, at the same
    time, that draw different random numbers disagree on the competitor
    average (15 against 45) and on the freshness score (0.9 against 1). *)
Lemma two_runs_differ_in_freshness :
  competitorAverage (Types.freshness (analyzeContent (datedDocument 0) (envAt (daysMs 20 - 1) 0)))
  <> competitorAverage (Types.freshness (analyzeContent (datedDocument 0) (envAt (daysMs 20 - 1) 0.5)))
  /\ score (Types.freshness (analyzeContent (datedDocument 0) (envAt (daysMs 20 - 1) 0)))
     <> score (Types.freshness (analyzeContent (datedDocument 0) (envAt (daysMs 20 - 1) 0.5))).
Proof.
  split.
  - vm_compute. discriminate.
  - intros H. float_discriminate H.
Qed.

(** C6, amended: two runs on the same document that measure the same age
    and draw the same competitor average return the same dimension
    scores, the same freshness score, competitor average and urgency, and
    the same recommendations. *)
Theorem analyzeContent_deterministic_given_age_and_baseline
        (doc : Document) (env1 env2 : Env) :
  ageInDays (dateFeatures doc) env1 = ageInDays (dateFeatures doc) env2 ->
  FreshnessMonitor.getCompetitorFreshness (random env1)
  = FreshnessMonitor.getCompetitorFreshness (random env2) ->
  dimensionScores (analyzeContent doc env1) = dimensionScores (analyzeContent doc env2)
  /\ competitorAverage (Types.freshness (analyzeContent doc env1))
     = competitorAverage (Types.freshness (analyzeContent doc env2))
  /\ updateUrgency (Types.freshness (analyzeContent doc env1))
     = updateUrgency (Types.freshness (analyzeContent doc env2))
  /\ recommendations (analyzeContent doc env1) = recommendations (analyzeContent doc env2).
Proof.
  unfold ageInDays. intros Hage Hbaseline.
  unfold dimensionScores, analyzeContent, generateRecommendations, analyze,
    FreshnessMonitor.checkFreshness.
  cbn [Types.entityScore Types.aiCitationPotential Types.structureScore Types.eeatSignals
       Types.freshness Types.aiHumanBalance Types.recommendations
       entityScore structure eeatSignals freshness aiHumanBalance citationPotential
       score competitorAverage updateUrgency].
  rewrite Hage, Hbaseline. repeat split.
Qed.

Lemma analyzeContent_deterministic_given_age_and_baseline_witness :
  dimensionScores (analyzeContent (datedDocument 0) (envAt (daysMs 20 - 1) 0.5))
  = dimensionScores (analyzeContent (datedDocument 0) (envAt (daysMs 20 - 7) 0.51))
  /\ competitorAverage (Types.freshness (analyzeContent (datedDocument 0) (envAt (daysMs 20 - 1) 0.5)))
     = competitorAverage (Types.freshness (analyzeContent (datedDocument 0) (envAt (daysMs 20 - 7) 0.51)))
  /\ updateUrgency (Types.freshness (analyzeContent (datedDocument 0) (envAt (daysMs 20 - 1) 0.5)))
     = updateUrgency (Types.freshness (analyzeContent (datedDocument 0) (envAt (daysMs 20 - 7) 0.51)))
  /\ recommendations (analyzeContent (datedDocument 0) (envAt (daysMs 20 - 1) 0.5))
     = recommendations (analyzeContent (datedDocument 0) (envAt (daysMs 20 - 7) 0.51)).
Proof.
  apply (analyzeContent_deterministic_given_age_and_baseline
           (datedDocument 0) (envAt (daysMs 20 - 1) 0.5) (envAt (daysMs 20 - 7) 0.51));
    vm_compute; reflexivity.
Defined.

(** Reduce the projections of an analysis to the scorer they come from. *)
Ltac project_analysis :=
  unfold dimensionScores, analyzeContent, analyze;
  cbn [Types.entityScore Types.aiCitationPotential Types.structureScore Types.eeatSignals
       Types.freshness Types.aiHumanBalance Types.recommendations
       entityScore structure eeatSignals freshness aiHumanBalance citationPotential].

(** *** The empty document *)

(** C1, at the failing input.  The empty document has no paragraph, so
    [analyzeSentimentNeutrality] divides 0 by 0 and the AI score is NaN;
    [analyzeBalance] then divides by a NaN total, and the ratio it returns
    is NaN, which is not in [0, 1].  [calculateHybridScore] guards the
    division by a zero total; the ratio, computed two lines later, does
    not, and is NaN also when both scores are 0. *)
Theorem balance_ratio_of_empty_document_is_NaN (env : Env) :
  AIContentBalancer.analyzeSentimentNeutrality [] = PrimFloat.nan
  /\ AIContentBalancer.calculateAIScore (balanceFeatures emptyDocument) = PrimFloat.nan
  /\ Types.aiHumanBalance (analyzeContent emptyDocument env) = PrimFloat.nan
  /\ JS.inUnit (Types.aiHumanBalance (analyzeContent emptyDocument env)) = false
  /\ AIContentBalancer.calculateHybridScore 0 0 = 0%float
  /\ (0 / (0 + 0))%float = PrimFloat.nan
  /\ AIContentBalancer.ratio (AIContentBalancer.analyzeBalance headingOnly) = PrimFloat.nan.
Proof. repeat split; project_analysis; vm_compute; reflexivity. Qed.


(** With a brand that is no pattern, such as C++, [countBrandMentions]
    throws for every document, the empty one included, and the analysis is
    rejected. *)
Lemma brand_that_is_no_pattern_throws
      (config : EntityOptimizer.AIOptimizerConfig) (doc : Document) (env : Env) :
  EntityOptimizer.brandIsPattern config = false ->
  EntityOptimizer.analyzeEntities config (entityFeatures doc)
  = Exceptions.Throws Exceptions.SyntaxError
  /\ analyzeContentOutcome config doc env = Exceptions.Throws Exceptions.SyntaxError.
Proof.
  intros Hbrand.
  unfold analyzeContentOutcome, EntityOptimizer.analyzeEntities,
    EntityOptimizer.countBrandMentions.
  rewrite Hbrand. split; reflexivity.
Qed.



(** *** Recommendations *)

Ltac split_rules :=
  repeat match goal with
         | |- context [PrimFloat.ltb ?a ?b] => destruct (PrimFloat.ltb a b)
         | |- context [Urgency_eqb ?a ?b] => destruct (Urgency_eqb a b)
         end.

(** C5, as stated, fails: for the empty document the rules for the
    entity score, the structure score and the authoritativeness fire, and
    the medium-priority recommendation of the second stands before the
    high-priority recommendation of the third. *)
Lemma recommendations_not_sorted_by_priority :
  map (fun r => priority r) (recommendations (analyzeContent emptyDocument (envAt 0 0.5)))
  = [priority_high; priority_medium; priority_high]
  /\ ~ StronglySorted priorityThenDeclaration
       (recommendations (analyzeContent emptyDocument (envAt 0 0.5))).
Proof.
  split; [ vm_compute; reflexivity | ].
  set (recs := recommendations (analyzeContent emptyDocument (envAt 0 0.5))).
  assert (Hrecs : exists a b c,
             recs = [a; b; c]
             /\ priority b = priority_medium /\ priority c = priority_high).
  { vm_compute. do 3 eexists. repeat split. }
  destruct Hrecs as (a & b & c & -> & Hb & Hc).
  intros Hsorted.
  apply StronglySorted_inv in Hsorted as [Htail _].
  apply StronglySorted_inv in Htail as [_ Hmedium].
  apply Forall_inv in Hmedium.
  unfold priorityThenDeclaration in Hmedium. rewrite Hb, Hc in Hmedium.
  cbn in Hmedium. lia.
Qed.

(** C5, amended: the recommendation list has the recommendation of each
    rule at most once and follows the declaration order of the rules
    (entity, structure, authoritativeness, freshness), each
    recommendation carrying the fixed priority of its rule; the list is
    not sorted by priority. *)
Theorem recommendations_in_declaration_order (analysisData : AnalysisData) :
  StronglySorted declarationOrder (generateRecommendations analysisData)
  /\ NoDup (map (fun r => rtype r) (generateRecommendations analysisData))
  /\ Forall (fun r => priority r = rulePriority (rtype r))
            (generateRecommendations analysisData).
Proof.
  unfold generateRecommendations; split_rules; cbn [app];
    (split; [ | split ]);
    repeat first
      [ apply SSorted_nil | apply SSorted_cons
      | apply Forall_nil | apply Forall_cons
      | apply NoDup_nil | apply NoDup_cons
      | reflexivity
      | (unfold declarationOrder; cbn; lia)
      | (cbn; intuition discriminate) ].
Qed.

End Analysis.

(** ** The structure score *)

Section Structure.

Import ContentStructurer.

Ltac split_structure_tests :=
  unfold analyzeStructure, calculateStructureScore, calculateReadabilityScore;
  cbn [headings faqs tables lists sectionHeadings words sentences];
  match goal with
  | |- context [PrimFloat.div ?w ?n] =>
      let avgWordsPerSentence := fresh "avgWordsPerSentence" in
      generalize (PrimFloat.div w n); intros avgWordsPerSentence;
      destruct (PrimFloat.ltb 20 avgWordsPerSentence);
      destruct (PrimFloat.ltb 25 avgWordsPerSentence)
  end;
  repeat match goal with
         | |- context [(?a <? ?b)%nat] => destruct (Nat.ltb_spec a b)
         end;
  first [ vm_compute; reflexivity | lia ].

(** The structure score of every document is a number between 0 and 1. *)
Lemma analyzeStructure_inUnit (f : StructureFeatures) :
  JS.inUnit (analyzeStructure f) = true.
Proof. split_structure_tests. Qed.






(** The structure score of a document is not monotonic in its elements:
    an element brings words, and a heading of two words before twenty
    words in one sentence takes the average above 20, the readability
    score from 1 to 0.8 and the structure score from 0.3 to 0.24. *)
Lemma extra_heading_lowers_structure_score :
  headings twentyWordsUnderHeading = S (headings twentyWords)
  /\ analyzeStructure twentyWords = 0.3%float
  /\ analyzeStructure twentyWordsUnderHeading = 0.24%float
  /\ PrimFloat.leb (analyzeStructure twentyWords) (analyzeStructure twentyWordsUnderHeading)
     = false.
Proof. repeat split; vm_compute; reflexivity. Qed.

End Structure.

(** ** The entity score *)

Section EntityScore.

Import EntityOptimizer.

Lemma fold_scripts_valid (scripts : list bool) (acc : nat * float) :
  fold_left (fun '(entities, score) parses =>
               if parses : bool then (S entities, (score + 0.1)%float) else (entities, score))
            scripts acc
  = fold_left (fun '(entities, score) parses =>
                 if parses : bool then (S entities, (score + 0.1)%float) else (entities, score))
              (filter (fun parses => parses) scripts) acc.
Proof.
  revert acc. induction scripts as [|parses scripts IH]; intros [n s]; [ reflexivity | ].
  destruct parses; cbn [fold_left filter]; apply IH.
Qed.

Lemma fold_scripts_count (scripts : list bool) (acc : nat * float) :
  fst (fold_left (fun '(entities, score) parses =>
                    if parses : bool then (S entities, (score + 0.1)%float)
                    else (entities, score))
                 scripts acc)
  = fst acc + length (filter (fun parses => parses) scripts).
Proof.
  revert acc. induction scripts as [|parses scripts IH]; intros [n s]; [ cbn; lia | ].
  destruct parses; cbn [fold_left filter length]; rewrite IH; cbn [fst]; lia.
Qed.









End EntityScore.

(** ** Monotonicity *)

Section Monotonicity.

Import Types AICitationAnalyzer.


Lemma citationStepsUpEverywhere_true : citationStepsUpEverywhere = true.
Proof. vm_compute. reflexivity. Qed.

Lemma forallb_seq (f : nat -> bool) (n k : nat) :
  forallb f (seq 0 n) = true -> k < n -> f k = true.
Proof.
  intros Hall Hk. rewrite forallb_forall in Hall.
  apply Hall, in_seq. lia.
Qed.

Lemma citationStepsUp_bounded (i v d q : nat) (research : bool) :
  i <= 5 -> v <= d -> d <= 10 -> q <= 5 -> citationStepsUp i v d q research = true.
Proof.
  intros Hi Hv Hd Hq.
  pose proof citationStepsUpEverywhere_true as Hall.
  unfold citationStepsUpEverywhere in Hall.
  apply forallb_seq with (k := i) in Hall; [ | lia ].
  apply forallb_seq with (k := d) in Hall; [ | lia ].
  apply forallb_seq with (k := v) in Hall; [ | lia ].
  apply forallb_seq with (k := q) in Hall; [ | lia ].
  rewrite forallb_forall in Hall. apply Hall.
  destruct research; cbn; auto.
Qed.

Lemma filter_verifiable_repeat (v n : nat) :
  length (filter verifiable
                 (repeat {| unique := true; verifiable := true |} v
                  ++ repeat {| unique := true; verifiable := false |} n)) = v.
Proof.
  induction v as [|v IH]; cbn.
  - induction n as [|n IHn]; cbn; [ reflexivity | exact IHn ].
  - now rewrite IH.
Qed.

(** The score depends on the data through the counts only. *)
Lemma calculateCitationWorthiness_counts (data : CitationData) :
  calculateCitationWorthiness data
  = citationScore (length (uniqueInsights data))
                  (length (filter verifiable (dataPoints data)))
                  (length (dataPoints data))
                  (length (expertQuotes data))
                  (originalResearch data).
Proof.
  assert (Hv : length (filter verifiable (dataPoints data)) <= length (dataPoints data))
    by apply filter_length_le.
  unfold citationScore, calculateCitationWorthiness.
  cbn [uniqueInsights dataPoints originalResearch expertQuotes].
  rewrite filter_verifiable_repeat, length_app, !repeat_length.
  replace (length (filter verifiable (dataPoints data))
           + (length (dataPoints data) - length (filter verifiable (dataPoints data))))
    with (length (dataPoints data)) by lia.
  reflexivity.
Qed.

(** The counts the extractors hand to [calculateCitationWorthiness]. *)
Lemma citationData_bounds (f : CitationFeatures) :
  length (uniqueInsights (citationData f)) <= 5
  /\ length (filter verifiable (dataPoints (citationData f)))
     <= length (dataPoints (citationData f))
  /\ length (dataPoints (citationData f)) <= 10
  /\ length (expertQuotes (citationData f)) <= 5.
Proof.
  unfold citationData, extractUniqueInsights, extractDataPoints, extractExpertQuotes.
  cbn [uniqueInsights dataPoints expertQuotes].
  repeat split; try apply firstn_le_length. apply filter_length_le.
Qed.

Lemma citationStepsUp_citationData (f : CitationFeatures) :
  citationStepsUp (length (uniqueInsights (citationData f)))
                  (length (filter verifiable (dataPoints (citationData f))))
                  (length (dataPoints (citationData f)))
                  (length (expertQuotes (citationData f)))
                  (originalResearch (citationData f)) = true.
Proof.
  destruct (citationData_bounds f) as (Hi & Hv & Hd & Hq).
  now apply citationStepsUp_bounded.
Qed.

(** The citation-worthiness score of every document is a number between
    0 and 1. *)
Lemma analyzeCitationPotential_inUnit (f : CitationFeatures) :
  JS.inUnit (analyzeCitationPotential f) = true.
Proof.
  unfold analyzeCitationPotential. rewrite calculateCitationWorthiness_counts.
  pose proof (citationStepsUp_citationData f) as Hup.
  unfold citationStepsUp in Hup. rewrite !andb_true_iff in Hup. apply Hup.
Qed.










(** A data point without a source can lower the score when ten are
    found: before nine data points without a source and one with a
    source it takes the place of the latter among the first ten. *)
Lemma unverifiable_data_point_lowers_citation_score :
  PrimFloat.leb
    (analyzeCitationPotential nineInternalOneReferenced)
    (analyzeCitationPotential
       (addDataPoint nineInternalOneReferenced 0 {| unique := true; verifiable := false |}))
  = false.
Proof. vm_compute. reflexivity. Qed.

(** The balance ratio is not monotonic either: a match of an AI pattern
    has a positive weight in [calculateAIScore] and lowers the ratio of
    the human score to the sum of both. *)
Lemma extra_ai_pattern_lowers_balance_ratio :
  JS.inUnit (AIContentBalancer.ratio (AIContentBalancer.analyzeBalance plainParagraph)) = true
  /\ JS.inUnit (AIContentBalancer.ratio (AIContentBalancer.analyzeBalance plainParagraphMoreover))
     = true
  /\ PrimFloat.leb
       (AIContentBalancer.ratio (AIContentBalancer.analyzeBalance plainParagraph))
       (AIContentBalancer.ratio (AIContentBalancer.analyzeBalance plainParagraphMoreover))
     = false.
Proof. repeat split; vm_compute; reflexivity. Qed.

Lemma float_add_nan (x : float) : (x + nan = nan)%float.
Proof.
  apply Prim2SF_inj. rewrite add_spec.
  change (Prim2SF nan) with S754_nan.
  destruct (Prim2SF x); reflexivity.
Qed.

Lemma float_nan_add (x : float) : (nan + x = nan)%float.
Proof.
  apply Prim2SF_inj. rewrite add_spec.
  change (Prim2SF nan) with S754_nan. reflexivity.
Qed.

Lemma float_div_nan (x : float) : (x / nan = nan)%float.
Proof.
  apply Prim2SF_inj. rewrite div_spec.
  change (Prim2SF nan) with S754_nan.
  destruct (Prim2SF x); reflexivity.
Qed.

Lemma float_leb_nan (x : float) : PrimFloat.leb x nan = false.
Proof.
  rewrite leb_spec. change (Prim2SF nan) with S754_nan.
  destruct (Prim2SF x); reflexivity.
Qed.

(** For a document without paragraphs the ratio is NaN whatever else the
    document has, so no signal, human indicators included, takes it to a
    ratio that is at least the one before. *)
Lemma balance_ratio_without_paragraphs_is_NaN
      (f g : AIContentBalancer.BalanceFeatures) :
  AIContentBalancer.paragraphs f = [] ->
  AIContentBalancer.ratio (AIContentBalancer.analyzeBalance f) = nan
  /\ PrimFloat.leb (AIContentBalancer.ratio (AIContentBalancer.analyzeBalance g))
                   (AIContentBalancer.ratio (AIContentBalancer.analyzeBalance f)) = false.
Proof.
  intros Hnone.
  assert (Hnan : AIContentBalancer.ratio (AIContentBalancer.analyzeBalance f) = nan).
  { unfold AIContentBalancer.analyzeBalance. cbn [AIContentBalancer.ratio].
    assert (Hai : AIContentBalancer.calculateAIScore f = nan).
    { unfold AIContentBalancer.calculateAIScore. rewrite Hnone.
      change (AIContentBalancer.analyzeSentimentNeutrality [] * 0.15)%float with nan.
      rewrite float_add_nan. vm_compute. reflexivity. }
    rewrite Hai, float_nan_add, float_div_nan. reflexivity. }
  split; [ exact Hnan | ]. rewrite Hnan. apply float_leb_nan.
Qed.



End Monotonicity.

(** ** The overall score *)

Section OverallScore.

Import Types ReportGenerator.

(** The literals of the score helpers, read at binary64. *)
Lemma float_literals :
  @lit float _ 0 = 0%float /\ @lit float _ 0.2 = 0.2%float
  /\ @lit float _ 0.25 = 0.25%float /\ @lit float _ 0.15 = 0.15%float
  /\ @lit float _ 4 = 4%float /\ @lit float _ 100 = 100%float
  /\ @lit float _ 0.8 = 0.8%float /\ @lit float _ 0.3 = 0.3%float.
Proof. repeat split; vm_compute; reflexivity. Qed.

(** [tableWeightedMean] at binary64 uses the constants of [EEAT_WEIGHTS]. *)
Lemma tableWeightedMean_uses_EEAT_WEIGHTS (eeat : EEATAnalysis float) :
  tableWeightedMean eeat
  = (expertise eeat * Constants.EEAT_WEIGHTS.EXPERTISE
     + experience eeat * Constants.EEAT_WEIGHTS.EXPERIENCE
     + authoritativeness eeat * Constants.EEAT_WEIGHTS.AUTHORITATIVENESS
     + trustworthiness eeat * Constants.EEAT_WEIGHTS.TRUSTWORTHINESS)%float.
Proof. reflexivity. Qed.

(** C4, as stated, fails: when each of the five dimension scores is 0.8
    the overall score is 0.8000000000000002, not 0.8. *)
Lemma overall_score_of_uniform_08_is_not_08 :
  Forall (fun key => scores (uniformAnalysis 0.8%float) (uniformKpis 0.8%float) key = 0.8%float)
         [entity; citation; structure; eeat; visibility]
  /\ calculateOverallScore (uniformAnalysis 0.8%float) (uniformKpis 0.8%float) <> 0.8%float.
Proof.
  split.
  - repeat constructor; vm_compute; reflexivity.
  - intros H. float_discriminate H.
Qed.

(** C4, amended: the overall score is the dot product of the five
    dimension scores with the weights 0.2, 0.25, 0.15, 0.2, 0.2, summed
    from 0 in the order entity, citation, structure, E-E-A-T, visibility,
    each operation rounded to binary64.  When every dimension score is
    0.8 it is 0.8000000000000002, the binary64 number next above 0.8 and
    2^-53 away from it; read in exact arithmetic the same sum is the weighted sum of the scores, the
    weights add up to 1, and the sum at 0.8 is 0.8. *)
Theorem overall_score_is_weighted_sum :
  (forall (analysis : ContentAnalysis float) (kpis : KPIMetrics float),
      calculateOverallScore analysis kpis
      = (0
         + entityScore analysis * 0.2
         + aiCitationPotential analysis * 0.25
         + structureScore analysis * 0.15
         + calculateEEATAverage (eeatSignals analysis) / 100 * 0.2
         + aiVisibilityIndex kpis * 0.2)%float)
  /\ calculateOverallScore (uniformAnalysis 0.8%float) (uniformKpis 0.8%float)
     = 0.8000000000000002%float
  /\ calculateOverallScore (uniformAnalysis 0.8%float) (uniformKpis 0.8%float)
     = PrimFloat.next_up 0.8%float
  /\ (calculateOverallScore (uniformAnalysis 0.8%float) (uniformKpis 0.8%float) - 0.8
      = 0x1p-53)%float
  /\ (forall (analysis : ContentAnalysis Q) (kpis : KPIMetrics Q),
         calculateOverallScore analysis kpis
         == 0.2 * entityScore analysis
            + 0.25 * aiCitationPotential analysis
            + 0.15 * structureScore analysis
            + 0.2 * unweightedMean (eeatSignals analysis)
            + 0.2 * aiVisibilityIndex kpis)%Q
  /\ (fold_right Qplus 0 (map snd (@weights Q _)) == 1)%Q
  /\ (calculateOverallScore (uniformAnalysis 0.8%Q) (uniformKpis 0.8%Q) == 0.8)%Q.
Proof.
  split; [ | split; [ | split; [ | split; [ | split; [ | split ] ] ] ] ].
  - intros analysis kpis. reflexivity.
  - vm_compute. reflexivity.
  - vm_compute. reflexivity.
  - vm_compute. reflexivity.
  - intros analysis kpis.
    unfold calculateOverallScore, weights, scores, calculateEEATAverage, unweightedMean.
    cbn [fold_left lit add mul div exactArith]. field.
  - vm_compute. reflexivity.
  - vm_compute. reflexivity.
Qed.

(** Binary64 addition is commutative. *)
Lemma SFadd_comm (prec emax : Z) (x y : spec_float) :
  SFadd prec emax x y = SFadd prec emax y x.
Proof.
  destruct x as [sx | sx | | sx mx ex], y as [sy | sy | | sy my ey]; cbn [SFadd];
    try reflexivity; try (destruct sx, sy; reflexivity).
  rewrite (Z.min_comm ey ex), (Z.add_comm (cond_Zopp sy _)). reflexivity.
Qed.

Lemma float_add_comm (x y : float) : (x + y = y + x)%float.
Proof.
  apply Prim2SF_inj. rewrite !add_spec. apply SFadd_comm.
Qed.

(** C10, as stated, fails in binary64: the program multiplies the mean by
    100 and divides by 100 again, and the result can differ from the mean
    in the last place.  For a document with four citations, a contact
    element and a link to a legal page (authoritativeness 0.4,
    trustworthiness 0.55) the mean is 0.23750000000000002 and the E-E-A-T
    score that enters the overall score is 0.2375. *)
Lemma eeat_value_differs_from_mean_in_binary64 :
  authoritativeness (eeatSignals (AIOptimizer.analyzeContent citedWithContact (envAt 0 0.5)))
  = 0.4%float
  /\ trustworthiness (eeatSignals (AIOptimizer.analyzeContent citedWithContact (envAt 0 0.5)))
     = 0.55%float
  /\ unweightedMean (eeatSignals (AIOptimizer.analyzeContent citedWithContact (envAt 0 0.5)))
     = 0.23750000000000002%float
  /\ scores (AIOptimizer.analyzeContent citedWithContact (envAt 0 0.5)) (uniformKpis 0%float)
            ReportGenerator.eeat
     = 0.2375%float
  /\ scores (AIOptimizer.analyzeContent citedWithContact (envAt 0 0.5)) (uniformKpis 0%float)
            ReportGenerator.eeat
     <> unweightedMean (eeatSignals (AIOptimizer.analyzeContent citedWithContact (envAt 0 0.5))).
Proof.
  assert (Hmean : unweightedMean
                    (eeatSignals (AIOptimizer.analyzeContent citedWithContact (envAt 0 0.5)))
                  = 0.23750000000000002%float) by (vm_compute; reflexivity).
  assert (Hscore : scores (AIOptimizer.analyzeContent citedWithContact (envAt 0 0.5))
                          (uniformKpis 0%float) ReportGenerator.eeat
                   = 0.2375%float) by (vm_compute; reflexivity).
  repeat split; try assumption; try (vm_compute; reflexivity).
  rewrite Hmean, Hscore. intros H. float_discriminate H.
Qed.

(** C10, amended: in exact arithmetic the E-E-A-T value of the report is
    100 times the unweighted mean (expertise + experience +
    authoritativeness + trustworthiness) / 4, and the E-E-A-T score that
    enters the overall score is that mean, each component weighing 0.25.
    The weights of [EEAT_WEIGHTS] are not used, in binary64 either: the
    value is the same when expertise and experience, which the table
    weighs 0.3 and 0.25, are exchanged, and for expertise 1 and the other
    components 0 the report shows 25, where the table would give 0.3. *)
Theorem eeat_value_is_unweighted_mean :
  (forall eeat : EEATAnalysis Q,
      calculateEEATAverage eeat == 100 * unweightedMean eeat)%Q
  /\ (forall (analysis : ContentAnalysis Q) (kpis : KPIMetrics Q),
         scores analysis kpis ReportGenerator.eeat == unweightedMean (eeatSignals analysis)
         /\ scores analysis kpis ReportGenerator.eeat
            == 0.25 * expertise (eeatSignals analysis)
               + 0.25 * experience (eeatSignals analysis)
               + 0.25 * authoritativeness (eeatSignals analysis)
               + 0.25 * trustworthiness (eeatSignals analysis))%Q
  /\ (forall e x a t : float,
         calculateEEATAverage (eeatOf e x a t) = calculateEEATAverage (eeatOf x e a t)
         /\ forall kpis,
             scores (uniformAnalysisWith (eeatOf e x a t)) kpis ReportGenerator.eeat
             = scores (uniformAnalysisWith (eeatOf x e a t)) kpis ReportGenerator.eeat)
  /\ calculateEEATAverage (eeatOf 1 0 0 0)%float = 25%float
  /\ calculateEEATAverage (eeatOf 0 1 0 0)%float = 25%float
  /\ tableWeightedMean (eeatOf 1 0 0 0)%float = 0.3%float
  /\ tableWeightedMean (eeatOf 0 1 0 0)%float = 0.25%float
  /\ (unweightedMean (eeatOf 1 0 0 0) == 0.25)%Q
  /\ (tableWeightedMean (eeatOf 1 0 0 0) == 0.3)%Q.
Proof.
  split; [ | split; [ | split; [ | repeat split; vm_compute; reflexivity ] ] ].
  - intros eeat. unfold calculateEEATAverage, unweightedMean.
    cbn [lit add mul div exactArith]. field.
  - intros analysis kpis.
    unfold scores, calculateEEATAverage, unweightedMean.
    cbn [lit add mul div exactArith]. split; field.
  - intros e x a t.
    assert (Hswap : calculateEEATAverage (eeatOf e x a t)
                    = calculateEEATAverage (eeatOf x e a t)).
    { unfold calculateEEATAverage, eeatOf.
      cbn [expertise experience authoritativeness trustworthiness add mul div floatArith].
      now rewrite (float_add_comm e x). }
    split; [ exact Hswap | ].
    intros kpis. unfold scores, uniformAnalysisWith. cbn [eeatSignals].
    now rewrite Hswap.
Qed.

End OverallScore.

(** * Properties of more of the code *)

Delimit Scope string_scope with string.

(** ** The labels of the report *)

Section Labels.

Import Types ReportLabels.

(** X1: the labels of a score agree.  For every score, NaN included,
    [getStatus], [getPerformanceLevel], [getStatusEmoji] and
    [getVisibilityPerformance] name the same one of the four bands cut at
    0.8, 0.6 and 0.4, the emoji not telling the two lower bands apart. *)
Theorem score_labels_agree (score : float) :
  getStatus score = statusOfLevel (getPerformanceLevel score)
  /\ getStatusEmoji score = emojiOfStatus (getStatus score)
  /\ getVisibilityPerformance score = visibilityOfStatus (getStatus score)
  /\ (getStatus score = Excellent <-> PrimFloat.leb 0.8 score = true)
  /\ (getStatus score = Poor <-> PrimFloat.leb 0.4 score = false
                                 /\ PrimFloat.leb 0.6 score = false
                                 /\ PrimFloat.leb 0.8 score = false).
Proof.
  unfold getStatus, getPerformanceLevel, getStatusEmoji, getVisibilityPerformance.
  destruct (PrimFloat.leb 0.8 score), (PrimFloat.leb 0.6 score),
    (PrimFloat.leb 0.4 score); cbn;
    repeat split; intros; try discriminate; try reflexivity;
    repeat match goal with H : _ /\ _ |- _ => destruct H end; discriminate.
Qed.

(** X2: the KPI tracker and the report label a KPI alike.  For every value
    and every benchmark table, the report's status is the one that goes
    with the tracker's benchmark level, and the tracker's percentile is
    one that goes with that level. *)
Theorem benchmark_labels_agree (value : float) (benchmarks : Benchmarks) :
  getBenchmarkStatus value benchmarks
  = statusOfBenchmarkLevel (KPITracker.getBenchmarkLevel value benchmarks)
  /\ In (KPITracker.calculatePercentile value benchmarks)
        (percentilesOfBenchmarkLevel (KPITracker.getBenchmarkLevel value benchmarks))
  /\ (KPITracker.calculatePercentile value benchmarks = 90
      <-> getBenchmarkStatus value benchmarks = Top_10).
Proof.
  unfold getBenchmarkStatus, KPITracker.getBenchmarkLevel, KPITracker.calculatePercentile.
  destruct (PrimFloat.leb (EXCELLENT_ benchmarks) value),
    (PrimFloat.leb (GOOD_ benchmarks) value),
    (PrimFloat.leb (AVERAGE_ benchmarks) value),
    (PrimFloat.leb (POOR benchmarks) value); cbn;
    repeat split; intros; try discriminate; try reflexivity; auto.
Qed.

Import String.StringSyntax.

Lemma countSignalsByType_app (a b : list (EEATSignal float)) (type : String.string) :
  countSignalsByType (a ++ b) type = countSignalsByType a type + countSignalsByType b type.
Proof. unfold countSignalsByType. now rewrite filter_app, length_app. Qed.

Lemma countSignalsByType_cons (s : EEATSignal float) (l : list (EEATSignal float))
      (type : String.string) :
  countSignalsByType (s :: l) type
  = (if String.eqb (SignalType_text (Types.type s)) type then 1 else 0)
    + countSignalsByType l type.
Proof.
  unfold countSignalsByType. cbn [filter].
  destruct (String.eqb (SignalType_text (Types.type s)) type); reflexivity.
Qed.

(** The signals of authoritativeness and trustworthiness are no
    credentials. *)
Lemma no_credential_in_authority_and_trust (f : EEATSignalBuilder.EEATFeatures) :
  countSignalsByType (EEATSignalBuilder.analyzeAuthoritativeness f) "credential"%string = 0
  /\ countSignalsByType (EEATSignalBuilder.analyzeTrustworthiness f) "credential"%string = 0.
Proof.
  unfold EEATSignalBuilder.analyzeAuthoritativeness, EEATSignalBuilder.analyzeTrustworthiness.
  split;
    repeat match goal with
           | |- context [if ?c then _ else _] => destruct c
           end; reflexivity.
Qed.

(** X3: the "Experience" row of the E-E-A-T table counts nothing.  No
    signal has the type 'experience', so its count is 0 for every list of
    signals; the signals of type author_bio and review are counted in no
    row; and the "credentials" of the "Expertise" row are the credential
    signals of the expertise and of the experience analysis together. *)
Theorem experience_row_counts_nothing
        (signals : list (EEATSignal float)) (f : EEATSignalBuilder.EEATFeatures) :
  countSignalsByType signals "experience"%string = 0
  /\ nth 1 (signalsFound signals) 1 = 0
  /\ countSignalsByType signals "credential"%string
     + countSignalsByType signals "citation"%string
     + countSignalsByType signals "social_proof"%string
     + countSignalsByType signals "author_bio"%string
     + countSignalsByType signals "review"%string = length signals
  /\ countSignalsByType (Types.signals (EEATSignalBuilder.analyzeEEATSignals f))
                        "credential"%string
     = countSignalsByType (EEATSignalBuilder.analyzeExpertise f) "credential"%string
       + countSignalsByType (EEATSignalBuilder.analyzeExperience f) "credential"%string.
Proof.
  assert (Hexperience : countSignalsByType signals "experience"%string = 0).
  { induction signals as [|s l IH]; [ reflexivity | ].
    rewrite countSignalsByType_cons, IH. destruct s as [[] ?]; reflexivity. }
  split; [ exact Hexperience | ].
  split; [ exact Hexperience | ].
  split.
  - induction signals as [|s l IH]; [ reflexivity | ].
    rewrite !countSignalsByType_cons. cbn [length].
    assert (Hl : countSignalsByType l "experience"%string = 0).
    { clear. induction l as [|s l IH]; [ reflexivity | ].
      rewrite countSignalsByType_cons, IH. destruct s as [[] ?]; reflexivity. }
    specialize (IH Hl).
    destruct s as [[] ?]; cbn; lia.
  - unfold EEATSignalBuilder.analyzeEEATSignals. cbn [Types.signals].
    rewrite !countSignalsByType_app.
    destruct (no_credential_in_authority_and_trust f) as [-> ->]. lia.
Qed.

End Labels.

(** ** Update suggestions and the recommendations of the report *)

Section Updates.

Import Types ContentUpdateSuggester.

Lemma firstn_app_keeps (A : Type) (n : nat) (a b : list A) (x : A) :
  length a <= n -> In x a -> In x (firstn n (a ++ b)).
Proof.
  intros Hlen Hin. rewrite firstn_app, firstn_all2 by exact Hlen.
  apply in_or_app. now left.
Qed.

Lemma In_firstn (A : Type) (n : nat) (l : list A) (x : A) :
  In x (firstn n l) -> In x l.
Proof.
  intros Hin. rewrite <- (firstn_skipn n l). apply in_or_app. now left.
Qed.

Lemma fold_left_push (A B : Type) (g : B -> list A) (l : list B) (init : list A) :
  fold_left (fun all c => all ++ g c) l init = init ++ flat_map g l.
Proof.
  revert init. induction l as [|c l IH]; intros init; cbn.
  - now rewrite app_nil_r.
  - now rewrite IH, app_assoc.
Qed.

Lemma flat_map_filter_concat (A : Type) (p : A -> bool) (l : list (list A)) :
  flat_map (filter p) l = filter p (concat l).
Proof.
  induction l as [|c l IH]; cbn; [ reflexivity | ].
  now rewrite filter_app, IH.
Qed.

(** The list [all] of [prioritizeAllRecommendations]. *)
Lemma prioritized_entries
      (recs : list (Recommendation float)) (suggestions : option (list (list Update))) :
  exists updates,
    ReportLabels.critical_actions (ReportLabels.prioritizeAllRecommendations recs suggestions)
    = firstn 3 (filter ReportLabels.isCritical (map ReportLabels.ofAnalysis recs)
                ++ filter ReportLabels.isCritical (map ReportLabels.ofUpdate updates))
    /\ ReportLabels.quickWins (ReportLabels.prioritizeAllRecommendations recs suggestions)
       = firstn 3 (filter ReportLabels.isQuickWin (map ReportLabels.ofAnalysis recs)
                   ++ filter ReportLabels.isQuickWin (map ReportLabels.ofUpdate updates))
    /\ ReportLabels.strategic (ReportLabels.prioritizeAllRecommendations recs suggestions)
       = firstn 3 (filter ReportLabels.isStrategic (map ReportLabels.ofAnalysis recs)
                   ++ filter ReportLabels.isStrategic (map ReportLabels.ofUpdate updates)).
Proof.
  unfold ReportLabels.prioritizeAllRecommendations.
  cbn [ReportLabels.critical_actions ReportLabels.quickWins ReportLabels.strategic].
  destruct suggestions as [categories|].
  - exists (concat categories).
    rewrite (fold_left_push (fun c => map ReportLabels.ofUpdate c)).
    rewrite flat_map_concat_map, <- concat_map, !filter_app.
    repeat split.
  - exists []. cbn [map filter]. rewrite !app_nil_r. repeat split.
Qed.

(** Of the recommendations of the analysis at most three are critical and
    at most one is strategic. *)
Lemma generateRecommendations_few (analysisData : AIOptimizer.AnalysisData) :
  length (filter ReportLabels.isCritical
                 (map ReportLabels.ofAnalysis (AIOptimizer.generateRecommendations analysisData)))
  <= 3
  /\ length (filter ReportLabels.isStrategic
                    (map ReportLabels.ofAnalysis (AIOptimizer.generateRecommendations analysisData)))
     <= 3
  /\ length (filter isHighPriority (AIOptimizer.generateRecommendations analysisData)) <= 3.
Proof.
  unfold AIOptimizer.generateRecommendations.
  repeat match goal with
         | |- context [PrimFloat.ltb ?a ?b] => destruct (PrimFloat.ltb a b)
         | |- context [Urgency_eqb ?a ?b] => destruct (Urgency_eqb a b)
         end; cbn; lia.
Qed.

(** X4: no recommendation of the analysis is lost in the report.  Whatever
    update suggestions are passed along, every high-priority
    recommendation of [generateRecommendations] is among the (at most
    three) critical actions, the medium-priority one among the strategic
    improvements, none is a quick win, and the "top opportunities" of the
    summary are all the high-priority recommendations. *)
Theorem analysis_recommendations_reach_the_report
        (analysisData : AIOptimizer.AnalysisData) (suggestions : option (list (list Update))) :
  (forall r, In r (AIOptimizer.generateRecommendations analysisData) ->
             priority r = priority_high ->
             In (ReportLabels.ofAnalysis r)
                (ReportLabels.critical_actions
                   (ReportLabels.prioritizeAllRecommendations
                      (AIOptimizer.generateRecommendations analysisData) suggestions)))
  /\ (forall r, In r (AIOptimizer.generateRecommendations analysisData) ->
                priority r = priority_medium ->
                In (ReportLabels.ofAnalysis r)
                   (ReportLabels.strategic
                      (ReportLabels.prioritizeAllRecommendations
                         (AIOptimizer.generateRecommendations analysisData) suggestions)))
  /\ (forall r, ~ In (ReportLabels.ofAnalysis r)
                  (ReportLabels.quickWins
                     (ReportLabels.prioritizeAllRecommendations
                        (AIOptimizer.generateRecommendations analysisData) suggestions)))
  /\ ReportLabels.topOpportunities (AIOptimizer.generateRecommendations analysisData)
     = filter isHighPriority (AIOptimizer.generateRecommendations analysisData)
  /\ length (ReportLabels.critical_actions
               (ReportLabels.prioritizeAllRecommendations
                  (AIOptimizer.generateRecommendations analysisData) suggestions)) <= 3.
Proof.
  destruct (prioritized_entries (AIOptimizer.generateRecommendations analysisData) suggestions)
    as (updates & -> & -> & ->).
  destruct (generateRecommendations_few analysisData) as (Hcritical & Hstrategic & Hhigh).
  repeat split.
  - intros r Hin Hpriority. apply firstn_app_keeps; [ exact Hcritical | ].
    apply filter_In. split; [ now apply in_map | ].
    unfold ReportLabels.isCritical. cbn. now rewrite Hpriority.
  - intros r Hin Hpriority. apply firstn_app_keeps; [ exact Hstrategic | ].
    apply filter_In. split; [ now apply in_map | ].
    unfold ReportLabels.isStrategic. cbn. now rewrite Hpriority.
  - intros r Hin. apply In_firstn, in_app_or in Hin. destruct Hin as [Hin | Hin].
    + apply filter_In in Hin as [_ Hquick]. discriminate Hquick.
    + apply filter_In in Hin as [Hin _]. apply in_map_iff in Hin as (u & Hu & _).
      discriminate Hu.
  - unfold ReportLabels.topOpportunities. now apply firstn_all2.
  - apply firstn_le_length.
Qed.

(** *** The timeline and the summary of the update suggester *)

Lemma filterUpdatesByPriorityAndEffort_filter
      (suggestions : list (list Update))
      (priorities : list UpdatePriority) (efforts : list Effort) :
  filterUpdatesByPriorityAndEffort suggestions priorities efforts
  = filter (fun u => existsb (UpdatePriority_eqb (upriority u)) priorities
                     && existsb (Effort_eqb (effort u)) efforts)
           (concat suggestions).
Proof.
  unfold filterUpdatesByPriorityAndEffort.
  rewrite (fold_left_push
             (fun c => filter (fun u => existsb (UpdatePriority_eqb (upriority u)) priorities
                                        && existsb (Effort_eqb (effort u)) efforts) c)).
  cbn [app]. apply flat_map_filter_concat.
Qed.

(** An update is a task of the timeline exactly when it is suggested with
    one of the five scheduled pairs of priority and effort. *)
Lemma timeline_tasks (suggestions : list (list Update)) (u : Update) :
  In u (concat (createUpdateTimeline suggestions))
  <-> In u (concat suggestions) /\ scheduled u = true.
Proof.
  unfold createUpdateTimeline. cbn [concat].
  rewrite !filterUpdatesByPriorityAndEffort_filter, app_nil_r, !in_app_iff, !filter_In.
  unfold scheduled. destruct u as [t [] []]; cbn; intuition discriminate.
Qed.

(** The updates that the suggester creates. *)
Lemma suggested_update (f : UpdateFeatures) (metrics : Metrics) (u : Update) :
  In u (concat (suggestionsOf f metrics)) ->
  In u [ update critical_freshness urgent effort_medium;
         update update_add_author_bio update_high effort_low;
         update update_improve_structure update_high effort_medium;
         update entity_building update_medium effort_high;
         update platform_optimization update_medium effort_high;
         update schema_enhancement update_high effort_medium;
         update image_optimization update_medium effort_low;
         update internal_linking update_medium effort_low;
         update content_expansion update_medium effort_high;
         update add_examples update_medium effort_medium;
         update add_data update_high effort_medium;
         update improve_formatting update_low effort_low;
         update citation_optimization update_high effort_high;
         update brand_building update_medium effort_medium ].
Proof.
  unfold suggestionsOf, getImmediateUpdates, getStrategicUpdates, getTechnicalUpdates,
    getContentUpdates, getCompetitiveUpdates.
  cbn [concat]. rewrite !in_app_iff.
  intros Hin.
  repeat match type of Hin with
         | _ \/ _ => destruct Hin as [Hin | Hin]
         end;
    repeat match type of Hin with
           | In _ (if ?c then _ else _) => destruct c
           | In _ (match ?c with _ => _ end) => destruct c
           end;
    cbn in Hin; try contradiction;
    destruct Hin as [<- | []]; cbn; tauto.
Qed.

(** The lists of the summary. *)
Lemma topPriorities_of_summary (suggestions : list (list Update)) :
  topPriorities (generateUpdateSummary suggestions) = getTopPriorities suggestions.
Proof.
  unfold generateUpdateSummary.
  destruct (fold_left _ suggestions (0, 0, 0)) as [[total urgent] hours]. reflexivity.
Qed.

(** X5: the updates the timeline leaves out.  A task of the timeline is a
    suggested update whose priority and effort are urgent or high with
    low, high or medium with medium, or medium with high, and the three
    phases take the low, the medium and the high efforts.  So the update
    for critically stale content (urgent, medium effort) is in no phase,
    like the updates for citations, image
    alt texts, internal links and formatting, although it is the first of
    the top priorities of the summary. *)
Theorem critical_freshness_is_never_scheduled (f : UpdateFeatures) (metrics : Metrics) :
  (forall u, In u (concat (createUpdateTimeline (suggestionsOf f metrics))) ->
             In u (concat (suggestionsOf f metrics))
             /\ scheduled u = true
             /\ ~ In (utype u) unscheduledTypes)
  /\ (forall u, In u (concat (suggestionsOf f metrics)) ->
                ~ In (utype u) unscheduledTypes ->
                In u (concat (createUpdateTimeline (suggestionsOf f metrics))))
  /\ (forall u, (In u (nth 0 (createUpdateTimeline (suggestionsOf f metrics)) []) ->
                 effort u = effort_low)
                /\ (In u (nth 1 (createUpdateTimeline (suggestionsOf f metrics)) []) ->
                    effort u = effort_medium)
                /\ (In u (nth 2 (createUpdateTimeline (suggestionsOf f metrics)) []) ->
                    effort u = effort_high))
  /\ (updateUrgency metrics = Some critical ->
      hd_error (topPriorities (generateUpdateSummary (suggestionsOf f metrics)))
      = Some (update critical_freshness urgent effort_medium)).
Proof.
  split; [ | split; [ | split ] ].
  - intros u Htask. apply timeline_tasks in Htask as [Hin Hscheduled].
    split; [ exact Hin | ]. split; [ exact Hscheduled | ].
    apply suggested_update in Hin. cbn in Hin.
    repeat match type of Hin with
           | _ \/ _ => destruct Hin as [<- | Hin]
           end; try contradiction; try discriminate Hscheduled;
      cbn; intuition discriminate.
  - intros u Hin Hnot. apply timeline_tasks. split; [ exact Hin | ].
    apply suggested_update in Hin. cbn in Hin.
    repeat match type of Hin with
           | _ \/ _ => destruct Hin as [<- | Hin]
           end; try contradiction; try reflexivity;
      exfalso; apply Hnot; cbn; tauto.
  - intros u. unfold createUpdateTimeline. cbn [nth].
    rewrite !filterUpdatesByPriorityAndEffort_filter.
    repeat split; intros Hin; apply filter_In in Hin as [_ Hin];
      destruct u as [t p []]; cbn in Hin;
      rewrite ?andb_false_r in Hin; try discriminate Hin; reflexivity.
  - intros Hcritical.
    rewrite topPriorities_of_summary.
    unfold suggestionsOf, getImmediateUpdates, getTopPriorities.
    rewrite Hcritical. reflexivity.
Qed.

Lemma fold_left_concat (A B : Type) (step : B -> A -> B) (l : list (list A)) (init : B) :
  fold_left (fun acc category => fold_left step category acc) l init
  = fold_left step (concat l) init.
Proof.
  revert init. induction l as [|c l IH]; intros init; cbn; [ reflexivity | ].
  now rewrite IH, fold_left_app.
Qed.

(** The three counters of the summary, over the updates of all
    categories. *)
Lemma summary_counters (l : list Update) (total urgent hours : nat) :
  fold_left
    (fun '(totalUpdates, urgentUpdates, estimatedEffort) u =>
       (S totalUpdates,
        if isUrgentOrHigh u then S urgentUpdates else urgentUpdates,
        estimatedEffort + effortToHours u.(effort)))
    l (total, urgent, hours)
  = (total + length l,
     urgent + length (filter isUrgentOrHigh l),
     hours + list_sum (map (fun u => effortToHours (effort u)) l)).
Proof.
  revert total urgent hours. induction l as [|u l IH]; intros total urgent hours.
  - cbn. now rewrite !Nat.add_0_r.
  - cbn [fold_left]. rewrite IH. unfold list_sum. cbn [length filter map fold_right].
    destruct (isUrgentOrHigh u); cbn [length];
      (apply f_equal2; [ apply f_equal2 | ]; lia).
Qed.

Lemma summary_of (suggestions : list (list Update)) :
  totalUpdates (generateUpdateSummary suggestions) = length (concat suggestions)
  /\ urgentUpdates (generateUpdateSummary suggestions)
     = length (filter isUrgentOrHigh (concat suggestions))
  /\ estimatedHours (generateUpdateSummary suggestions)
     = list_sum (map (fun u => effortToHours (effort u)) (concat suggestions)).
Proof.
  unfold generateUpdateSummary.
  rewrite (fold_left_concat
             (fun '(totalUpdates, urgentUpdates, estimatedEffort) u =>
                (S totalUpdates,
                 if isUrgentOrHigh u then S urgentUpdates else urgentUpdates,
                 estimatedEffort + effortToHours u.(effort)))).
  rewrite summary_counters. cbn. repeat split.
Qed.

Lemma hours_bounds (l : list Update) :
  2 * length l <= list_sum (map (fun u => effortToHours (effort u)) l) <= 20 * length l.
Proof.
  unfold list_sum in *.
  induction l as [|u l IH]; cbn [length map fold_right]; [ lia | ].
  destruct (effort u); cbn [effortToHours]; lia.
Qed.

(** X6: the summary of the update suggestions.  [totalUpdates] is the
    number of suggested updates, [urgentUpdates] the number of those with
    priority urgent or high, so at most [totalUpdates]; the estimated
    hours are between 2 and 20 for each update; the top priorities are the
    first five urgent or high updates.  The suggester always suggests the
    platform optimization, so there is at least one update and at least 20
    hours. *)
Theorem update_summary_counts
        (suggestions : list (list Update)) (f : UpdateFeatures) (metrics : Metrics) :
  totalUpdates (generateUpdateSummary suggestions) = length (concat suggestions)
  /\ urgentUpdates (generateUpdateSummary suggestions)
     = length (filter isUrgentOrHigh (concat suggestions))
  /\ urgentUpdates (generateUpdateSummary suggestions)
     <= totalUpdates (generateUpdateSummary suggestions)
  /\ 2 * totalUpdates (generateUpdateSummary suggestions)
     <= estimatedHours (generateUpdateSummary suggestions)
     <= 20 * totalUpdates (generateUpdateSummary suggestions)
  /\ topPriorities (generateUpdateSummary suggestions)
     = firstn 5 (filter isUrgentOrHigh (concat suggestions))
  /\ length (topPriorities (generateUpdateSummary suggestions))
     = Nat.min 5 (urgentUpdates (generateUpdateSummary suggestions))
  /\ 1 <= totalUpdates (generateUpdateSummary (suggestionsOf f metrics))
  /\ 20 <= estimatedHours (generateUpdateSummary (suggestionsOf f metrics)).
Proof.
  destruct (summary_of suggestions) as (Htotal & Hurgent & Hhours).
  rewrite Htotal, Hurgent, Hhours, topPriorities_of_summary.
  split; [ reflexivity | ]. split; [ reflexivity | ].
  split; [ apply filter_length_le | ].
  split; [ apply hours_bounds | ].
  split; [ reflexivity | ].
  split; [ unfold getTopPriorities; apply length_firstn | ].
  destruct (summary_of (suggestionsOf f metrics)) as (-> & _ & ->).
  unfold suggestionsOf, getStrategicUpdates. cbn [concat].
  rewrite !length_app, !map_app, !list_sum_app.
  unfold list_sum. cbn [length map fold_right effort update effortToHours].
  lia.
Qed.

End Updates.

(** ** Freshness: age, score and urgency *)

Section FreshnessMore.

Import Types FreshnessMonitor.

Ltac split_ages :=
  repeat match goal with
         | |- context [(?a <? ?b)%Z] =>
             destruct (Z.ltb_spec a b); try (exfalso; lia)
         end.

(** X7: older content never scores higher.  For a higher age and a
    competitor average that is not higher, the freshness score is at most
    what it was. *)
Theorem freshness_score_decreases_with_age
        (daysSinceUpdate olderDays competitorAverage lowerAverage : Z) :
  (daysSinceUpdate <= olderDays)%Z ->
  (lowerAverage <= competitorAverage)%Z ->
  PrimFloat.leb (calculateFreshnessScore olderDays lowerAverage)
                (calculateFreshnessScore daysSinceUpdate competitorAverage) = true.
Proof.
  intros Hage Haverage. unfold calculateFreshnessScore.
  split_ages; vm_compute; reflexivity.
Qed.

Lemma freshness_score_decreases_with_age_witness :
  PrimFloat.leb (calculateFreshnessScore 40 15) (calculateFreshnessScore 10 20) = true.
Proof.
  apply (@freshness_score_decreases_with_age 10 40 20 15); lia.
Defined.

(** X8: the age in days.  [calculateDaysSince] counts the days between
    the two time stamps, in either order, so a date in the future is as
    old as the same distance in the past; it is the least number of whole
    days that covers the distance, and 0 only for equal time stamps. *)
Theorem calculateDaysSince_is_ceiling_of_distance (date now : Z) :
  calculateDaysSince date now = calculateDaysSince now date
  /\ (0 <= calculateDaysSince date now)%Z
  /\ ((calculateDaysSince date now - 1) * msPerDay < Z.abs (now - date)
      <= calculateDaysSince date now * msPerDay)%Z
  /\ (calculateDaysSince date now = 0%Z <-> date = now).
Proof.
  unfold calculateDaysSince, JS.ceilDiv.
  replace (Z.abs (date - now)) with (Z.abs (now - date)) by lia.
  set (distance := Z.abs (now - date)).
  assert (Hdistance : (0 <= distance)%Z) by (subst distance; lia).
  assert (Hday : (0 < msPerDay)%Z) by reflexivity.
  pose proof (Z.div_mod (- distance) msPerDay ltac:(lia)) as Hdiv.
  pose proof (Z.mod_pos_bound (- distance) msPerDay Hday) as Hmod.
  assert (Hzero : distance = 0%Z <-> date = now) by (subst distance; lia).
  repeat split; nia.
Qed.

(** The urgency is high or critical exactly for content older than a
    week or than twice the competitor average. *)
Lemma urgency_high_or_critical (daysSinceUpdate competitorAverage : Z) :
  Urgency_eqb (determineUpdateUrgency daysSinceUpdate competitorAverage) high
  || Urgency_eqb (determineUpdateUrgency daysSinceUpdate competitorAverage) critical
  = (competitorAverage * 2 <? daysSinceUpdate)%Z || (7 <? daysSinceUpdate)%Z.
Proof.
  unfold determineUpdateUrgency, Constants.FRESHNESS_THRESHOLDS.CRITICAL,
    Constants.FRESHNESS_THRESHOLDS.HIGH, Constants.FRESHNESS_THRESHOLDS.MEDIUM.
  split_ages; reflexivity.
Qed.

(** X9: when the analysis recommends an update.  [analyzeContent]
    recommends update_content exactly when the content is older than 7
    days or than twice the competitor average, whatever the freshness
    score: content between 8 and 30 days old that is fresher than the
    competitors has the full freshness score 1 and the recommendation. *)
Theorem update_recommended_for_content_older_than_a_week
        (doc : AIOptimizer.Document) (env : Env) :
  (In update_content
      (map (fun r => rtype r) (recommendations (AIOptimizer.analyzeContent doc env)))
   <-> (7 < ageInDays (AIOptimizer.dateFeatures doc) env
        \/ 2 * competitorAverage (freshness (AIOptimizer.analyzeContent doc env))
           < ageInDays (AIOptimizer.dateFeatures doc) env)%Z)
  /\ ((7 < ageInDays (AIOptimizer.dateFeatures doc) env <= 30)%Z ->
      (ageInDays (AIOptimizer.dateFeatures doc) env
       < competitorAverage (freshness (AIOptimizer.analyzeContent doc env)))%Z ->
      score (freshness (AIOptimizer.analyzeContent doc env)) = 1%float
      /\ updateUrgency (freshness (AIOptimizer.analyzeContent doc env)) = critical).
Proof.
  unfold AIOptimizer.analyzeContent, AIOptimizer.analyze, AIOptimizer.generateRecommendations,
    checkFreshness, ageInDays.
  cbn [recommendations freshness AIOptimizer.freshness AIOptimizer.entityScore
       AIOptimizer.structure AIOptimizer.eeatSignals updateUrgency competitorAverage score].
  set (age := calculateDaysSince _ _).
  set (average := getCompetitorFreshness _).
  split.
  - rewrite urgency_high_or_critical, !map_app, !in_app_iff.
    split.
    + intros [Hin | [Hin | [Hin | Hin]]];
        repeat match type of Hin with
               | In _ (map _ (if ?c then _ else _)) => destruct c eqn:Hc
               end;
        cbn in Hin; try contradiction;
        try (destruct Hin as [Hin | []]; discriminate Hin).
      apply orb_true_iff in Hc as [Hc | Hc]; apply Z.ltb_lt in Hc; lia.
    + intros Hold. do 3 right.
      replace ((average * 2 <? age)%Z || (7 <? age)%Z) with true; [ now left | ].
      symmetry. apply orb_true_iff.
      destruct Hold as [Hold | Hold]; [ right | left ]; apply Z.ltb_lt; lia.
  - intros Hage Hfresher. split.
    + unfold calculateFreshnessScore. split_ages; vm_compute; reflexivity.
    + apply determineUpdateUrgency_critical. lia.
Qed.

End FreshnessMore.

(** ** Freshness: the update suggestions *)

Section UpdateSuggestions.

Import FreshnessUpdates.

(** X10: the estimated impact of the suggested updates.  The competitive
    and the trending suggestions are always there, so the estimated impact
    of [suggestUpdates] is at least 0.55, and it is at most 1, which it
    reaches when every category has a suggestion. *)
Theorem estimated_impact_at_least_055 (scan : UpdateScan) (currentYear : Z) :
  PrimFloat.leb 0.55 (estimatedImpact (suggestUpdates scan currentYear)) = true
  /\ PrimFloat.leb (estimatedImpact (suggestUpdates scan currentYear)) 1 = true
  /\ (findOutdatedStatistics scan currentYear = [] ->
      findTemporalReferences scan = [] ->
      suggestStructuralUpdates scan = [] ->
      estimatedImpact (suggestUpdates scan currentYear) = 0.55%float)
  /\ (findOutdatedStatistics scan currentYear <> [] ->
      findTemporalReferences scan <> [] ->
      suggestStructuralUpdates scan <> [] ->
      estimatedImpact (suggestUpdates scan currentYear) = 1%float).
Proof.
  unfold suggestUpdates, calculateUpdateImpact, suggestionsOf.
  cbn [estimatedImpact fold_left].
  destruct (findOutdatedStatistics scan currentYear) as [|s1 l1],
    (findTemporalReferences scan) as [|s2 l2],
    (suggestStructuralUpdates scan) as [|s3 l3];
    cbn [length Nat.ltb Nat.leb];
    repeat split; intros; try congruence; vm_compute; reflexivity.
Qed.

(** *** The urgent updates *)

Lemma insertByPriority_In (u v : Category * Suggestion) (l : list (Category * Suggestion)) :
  In v (insertByPriority u l) <-> v = u \/ In v l.
Proof.
  induction l as [|w l IH]; cbn.
  - intuition.
  - destruct (_ <=? _); cbn; rewrite ?IH; intuition.
Qed.

Lemma insertByPriority_length (u : Category * Suggestion) (l : list (Category * Suggestion)) :
  length (insertByPriority u l) = S (length l).
Proof.
  induction l as [|w l IH]; cbn; [ reflexivity | ].
  destruct (_ <=? _); cbn; [ reflexivity | now rewrite IH ].
Qed.

Lemma insertByPriority_sorted (u : Category * Suggestion) (l : list (Category * Suggestion)) :
  StronglySorted byPriority l -> StronglySorted byPriority (insertByPriority u l).
Proof.
  induction l as [|w l IH]; intros Hsorted; cbn.
  - repeat constructor.
  - apply StronglySorted_inv in Hsorted as [Hl Hw].
    destruct (Nat.leb_spec (priorityOrder (stype (snd u))) (priorityOrder (stype (snd w))))
      as [Hle | Hgt].
    + constructor; [ now constructor | ].
      constructor; [ exact Hle | ].
      rewrite Forall_forall in *. intros x Hx. specialize (Hw x Hx).
      unfold byPriority in *. lia.
    + constructor; [ now apply IH | ].
      rewrite Forall_forall in *. intros x Hx.
      apply insertByPriority_In in Hx as [-> | Hx]; [ | now apply Hw ].
      unfold byPriority. lia.
Qed.

Lemma sortByPriority_sorted (l : list (Category * Suggestion)) :
  StronglySorted byPriority (sortByPriority l).
Proof.
  unfold sortByPriority.
  induction l as [|u l IH]; cbn [fold_right];
    [ constructor | now apply insertByPriority_sorted ].
Qed.

Lemma sortByPriority_In (v : Category * Suggestion) (l : list (Category * Suggestion)) :
  In v (sortByPriority l) <-> In v l.
Proof.
  unfold sortByPriority.
  induction l as [|u l IH]; cbn [fold_right In]; [ tauto | ].
  rewrite insertByPriority_In, IH. intuition.
Qed.

Lemma sortByPriority_length (l : list (Category * Suggestion)) :
  length (sortByPriority l) = length l.
Proof.
  unfold sortByPriority.
  induction l as [|u l IH]; cbn [fold_right]; [ reflexivity | ].
  now rewrite insertByPriority_length, IH.
Qed.

Lemma firstn_sorted (A : Type) (R : A -> A -> Prop) (n : nat) (l : list A) :
  StronglySorted R l -> StronglySorted R (firstn n l).
Proof.
  revert n. induction l as [|a l IH]; intros n Hsorted.
  - rewrite firstn_nil. constructor.
  - destruct n as [|n]; cbn; [ constructor | ].
    apply StronglySorted_inv in Hsorted as [Hl Ha].
    constructor; [ now apply IH | ].
    rewrite Forall_forall in *. intros x Hx. apply Ha.
    rewrite <- (firstn_skipn n l). apply in_or_app. now left.
Qed.

(** What stands first in a sorted list is smallest. *)
Lemma sorted_head (l : list (Category * Suggestion)) (u v : Category * Suggestion) :
  StronglySorted byPriority l -> hd_error l = Some u -> In v l -> byPriority u v.
Proof.
  intros Hsorted Hhead Hin. destruct l as [|w l]; [ discriminate | ].
  injection Hhead as ->. apply StronglySorted_inv in Hsorted as [_ Hu].
  destruct Hin as [<- | Hin]; [ unfold byPriority; lia | ].
  rewrite Forall_forall in Hu. now apply Hu.
Qed.

(** X11: the urgent updates.  [prioritizeUpdates] returns suggestions of
    the input in the order of their priority, at most ten of them, and all
    of them when there are at most ten.  In [suggestUpdates] the suggestion
    about a feature of the competitors is always among the input, so the
    first urgent update is about an outdated year or about that feature. *)
Theorem urgent_updates_sorted_and_at_most_ten
        (suggestions : Suggestions) (scan : UpdateScan) (currentYear : Z) :
  StronglySorted byPriority (prioritizeUpdates suggestions)
  /\ length (prioritizeUpdates suggestions) = Nat.min 10 (length (allUpdates suggestions))
  /\ (forall u, In u (prioritizeUpdates suggestions) -> In u (allUpdates suggestions))
  /\ (length (allUpdates suggestions) <= 10 ->
      forall u, In u (allUpdates suggestions) -> In u (prioritizeUpdates suggestions))
  /\ exists first,
      hd_error (urgentUpdates (suggestUpdates scan currentYear)) = Some first
      /\ (stype (snd first) = outdated_year \/ stype (snd first) = competitor_feature).
Proof.
  unfold prioritizeUpdates.
  split; [ apply firstn_sorted, sortByPriority_sorted | ].
  split; [ now rewrite length_firstn, sortByPriority_length | ].
  split.
  { intros u Hin. apply sortByPriority_In.
    rewrite <- (firstn_skipn 10 (sortByPriority (allUpdates suggestions))).
    apply in_or_app. now left. }
  split.
  { intros Hfew u Hin. rewrite firstn_all2 by (now rewrite sortByPriority_length).
    now apply sortByPriority_In. }
  unfold suggestUpdates. cbn [urgentUpdates]. unfold prioritizeUpdates.
  set (all := allUpdates (suggestionsOf scan currentYear)).
  assert (Hfeature : In (competitive, suggestion competitor_feature) (sortByPriority all)).
  { apply sortByPriority_In. subst all. unfold allUpdates, suggestionsOf.
    cbn [flat_map]. rewrite !in_app_iff. do 2 right. left. cbn. now left. }
  pose proof (sortByPriority_sorted all) as Hsorted.
  destruct (sortByPriority all) as [|first rest] eqn:Hall; [ contradiction | ].
  exists first. split; [ reflexivity | ].
  pose proof (@sorted_head (first :: rest) first _ Hsorted eq_refl Hfeature) as Hle.
  unfold byPriority in Hle. cbn in Hle.
  destruct (stype (snd first)); cbn in Hle; try lia; auto.
Qed.

End UpdateSuggestions.

(** ** Flagged sections *)

Section Flagged.

Import FlaggedSections.

Lemma fold_patterns (l : list bool) (init : float) :
  fold_left (fun probability present =>
               if present : bool then (probability + 0.15)%float else probability) l init
  = Nat.iter (length (filter (fun present => present) l))
             (fun probability => (probability + 0.15)%float) init.
Proof.
  revert init. induction l as [|present l IH]; intros init; [ reflexivity | ].
  cbn [fold_left filter]. rewrite IH. destruct present; [ | reflexivity ].
  cbn [length]. now rewrite Nat.iter_succ_r.
Qed.

Lemma calculateParagraphAIProbability_count (p : ParagraphScan) :
  calculateParagraphAIProbability p = probabilityOf (patternCount p) (uniformSentences p).
Proof.
  unfold calculateParagraphAIProbability, probabilityOf, patternCount.
  now rewrite fold_patterns.
Qed.

Lemma flaggedFromFourOrFive_true : flaggedFromFourOrFive = true.
Proof. vm_compute. reflexivity. Qed.

(** X12: which paragraphs are flagged.  A paragraph, scanned for the ten
    AI patterns, is flagged exactly when it has at least 50 characters and
    includes at least five of the patterns, or at least four and has more
    than two sentences of uniform length; its AI probability is a number
    between 0 and 1. *)
Theorem flagged_from_four_or_five_patterns (p : ParagraphScan) :
  length (aiPatterns p) = 10 ->
  flagged p
  = negb (chars p <? 50)
    && ((5 <=? patternCount p) || ((4 <=? patternCount p) && uniformSentences p))
  /\ JS.inUnit (calculateParagraphAIProbability p) = true
  /\ (forall paragraphs, In p (identifyProblematicSections paragraphs)
                         <-> In p paragraphs /\ flagged p = true).
Proof.
  intros Hten.
  assert (Hcount : patternCount p < 11).
  { unfold patternCount.
    pose proof (filter_length_le (fun present : bool => present) (aiPatterns p)). lia. }
  pose proof flaggedFromFourOrFive_true as Hall. unfold flaggedFromFourOrFive in Hall.
  apply forallb_seq with (k := patternCount p) in Hall; [ | exact Hcount ].
  rewrite forallb_forall in Hall.
  specialize (Hall (uniformSentences p)).
  assert (Hin : In (uniformSentences p) [false; true])
    by (destruct (uniformSentences p); cbn; auto).
  apply Hall, andb_true_iff in Hin as [Hflag Hunit]. apply Bool.eqb_prop in Hflag.
  split; [ | split ].
  - unfold flagged. rewrite calculateParagraphAIProbability_count, Hflag.
    destruct (chars p <? 50); reflexivity.
  - now rewrite calculateParagraphAIProbability_count.
  - intros paragraphs. unfold identifyProblematicSections. apply filter_In.
Qed.

Lemma flagged_from_four_or_five_patterns_witness :
  flagged {| chars := 120;
             aiPatterns := [true; true; false; true; false; false; true; false; false; false];
             sentenceWords := [12; 12; 13] |}
  = negb (120 <? 50)
    && ((5 <=? 4)
        || ((4 <=? 4)
            && uniformSentences
                 {| chars := 120;
                    aiPatterns := [true; true; false; true; false; false; true; false; false; false];
                    sentenceWords := [12; 12; 13] |}))
  /\ JS.inUnit (calculateParagraphAIProbability
                  {| chars := 120;
                     aiPatterns := [true; true; false; true; false; false; true; false; false; false];
                     sentenceWords := [12; 12; 13] |}) = true
  /\ (forall paragraphs,
         In {| chars := 120;
               aiPatterns := [true; true; false; true; false; false; true; false; false; false];
               sentenceWords := [12; 12; 13] |}
            (identifyProblematicSections paragraphs)
         <-> In {| chars := 120;
                   aiPatterns := [true; true; false; true; false; false; true; false; false; false];
                   sentenceWords := [12; 12; 13] |} paragraphs
             /\ flagged {| chars := 120;
                           aiPatterns := [true; true; false; true; false; false; true; false; false; false];
                           sentenceWords := [12; 12; 13] |} = true).
Proof.
  apply (@flagged_from_four_or_five_patterns
           {| chars := 120;
              aiPatterns := [true; true; false; true; false; false; true; false; false; false];
              sentenceWords := [12; 12; 13] |}).
  reflexivity.
Defined.

End Flagged.

(** ** The history of the KPI tracker *)

Section History.

Import KPITracker.

Variable M : Type.

(** X13: the history keeps the last 90 entries.  If no address has more
    than 90 stored metrics, then after [storeMetrics] none has; the
    history of the address ends with the new metrics, it is the old
    history with the new metrics appended when that had fewer than 90
    entries and otherwise loses its oldest entry, and the histories of the
    other addresses are unchanged. *)
Theorem storeMetrics_keeps_last_90
        (historicalData : History M) (url : String.string) (metrics : M) :
  (forall u, length (historicalData u) <= 90) ->
  (forall u, length (storeMetrics historicalData url metrics u) <= 90)
  /\ last (storeMetrics historicalData url metrics url) metrics = metrics
  /\ storeMetrics historicalData url metrics url <> []
  /\ (length (historicalData url) < 90 ->
      storeMetrics historicalData url metrics url = historicalData url ++ [metrics])
  /\ (length (historicalData url) = 90 ->
      storeMetrics historicalData url metrics url = tl (historicalData url) ++ [metrics])
  /\ (forall u, u <> url -> storeMetrics historicalData url metrics u = historicalData u).
Proof.
  intros Hbound. unfold storeMetrics. rewrite String.eqb_refl, length_app. cbn [length].
  pose proof (Hbound url) as Hurl.
  split; [ | split; [ | split; [ | split; [ | split ] ] ] ].
  - intros u. destruct (String.eqb_spec u url) as [-> | Hother]; [ | apply Hbound ].
    destruct (Nat.ltb_spec 90 (length (historicalData url) + 1)) as [Hfull | Hroom].
    + destruct (historicalData url) as [|m l]; cbn in *; [ lia | ].
      rewrite length_app. cbn. lia.
    + rewrite length_app. cbn. lia.
  - destruct (Nat.ltb_spec 90 (length (historicalData url) + 1)) as [Hfull | Hroom].
    + destruct (historicalData url) as [|m l]; cbn in *; [ lia | ].
      apply last_last.
    + apply last_last.
  - destruct (Nat.ltb_spec 90 (length (historicalData url) + 1)) as [Hfull | Hroom].
    + destruct (historicalData url) as [|m l]; cbn in *; [ lia | ].
      destruct l; discriminate.
    + destruct (historicalData url); discriminate.
  - intros Hroom.
    destruct (Nat.ltb_spec 90 (length (historicalData url) + 1)); [ lia | reflexivity ].
  - intros Hfull.
    destruct (Nat.ltb_spec 90 (length (historicalData url) + 1)); [ | lia ].
    destruct (historicalData url); [ discriminate Hfull | reflexivity ].
  - intros u Hother. destruct (String.eqb_spec u url); [ contradiction | reflexivity ].
Qed.

End History.

Section HistoryExample.

Import String.StringSyntax.

Lemma storeMetrics_keeps_last_90_witness :
  (forall u, length (KPITracker.storeMetrics fullHistory "a"%string 7 u) <= 90)
  /\ last (KPITracker.storeMetrics fullHistory "a"%string 7 "a"%string) 7 = 7
  /\ KPITracker.storeMetrics fullHistory "a"%string 7 "a"%string <> []
  /\ (length (fullHistory "a"%string) < 90 ->
      KPITracker.storeMetrics fullHistory "a"%string 7 "a"%string
      = fullHistory "a"%string ++ [7])
  /\ (length (fullHistory "a"%string) = 90 ->
      KPITracker.storeMetrics fullHistory "a"%string 7 "a"%string
      = tl (fullHistory "a"%string) ++ [7])
  /\ (forall u, u <> "a"%string ->
                KPITracker.storeMetrics fullHistory "a"%string 7 u = fullHistory u).
Proof.
  apply (@storeMetrics_keeps_last_90 nat fullHistory "a"%string 7).
  intros u. cbv. lia.
Defined.

End HistoryExample.


(** ** The platform scores and recommendations *)

Section Platforms.

Import MultiPlatformAnalyzer.

Lemma platformScoresOk_true : platformScoresOk = true.
Proof. vm_compute. reflexivity. Qed.

Lemma In_simulatedVisibilities (v : PlatformVisibility) :
  1 <= citationFrequency v <= 20 -> 1 <= averagePosition v <= 5 ->
  In v simulatedVisibilities.
Proof.
  intros Hfrequency Hposition. destruct v as [isIndexed frequency position asks].
  cbn [citationFrequency averagePosition] in *.
  unfold simulatedVisibilities.
  apply in_flat_map. exists isIndexed. split; [ destruct isIndexed; cbn; auto | ].
  apply in_flat_map. exists frequency. split; [ apply in_seq; lia | ].
  apply in_flat_map. exists position. split; [ apply in_seq; lia | ].
  apply in_map_iff. exists asks. split; [ reflexivity | destruct asks; cbn; auto ].
Qed.

(** X14: the platform score.  For every visibility the simulated check
    can return (a citation frequency from 1 to 20 and an average position
    from 1 to 5) and every platform, the score is a number between 0 and
    1, is at most 0.9 on the platforms without a weight table, and is not
    lowered by being indexed, by one more citation or by a position one
    nearer to the top. *)
Theorem platform_score_in_unit_and_monotone (platform : Platform) (v : PlatformVisibility) :
  1 <= citationFrequency v <= 20 -> 1 <= averagePosition v <= 5 ->
  JS.inUnit (calculatePlatformScore platform v) = true
  /\ (hasWeights platform = false ->
      PrimFloat.leb (calculatePlatformScore platform v) 0.9 = true)
  /\ PrimFloat.leb (calculatePlatformScore platform v)
                   (calculatePlatformScore platform (nowIndexed v)) = true
  /\ PrimFloat.leb (calculatePlatformScore platform v)
                   (calculatePlatformScore platform (citedOnceMore v)) = true
  /\ PrimFloat.leb (calculatePlatformScore platform v)
                   (calculatePlatformScore platform (onePositionUp v)) = true.
Proof.
  intros Hfrequency Hposition.
  pose proof platformScoresOk_true as Hall. unfold platformScoresOk in Hall.
  rewrite forallb_forall in Hall.
  assert (Hplatform : In platform allPlatforms) by (destruct platform; cbn; tauto).
  apply Hall in Hplatform. rewrite forallb_forall in Hplatform.
  specialize (Hplatform v (In_simulatedVisibilities v Hfrequency Hposition)).
  unfold platformScoreOk in Hplatform. rewrite !andb_true_iff in Hplatform.
  destruct Hplatform as ((((Hunit & Hcap) & Hindexed) & Hcited) & Hup).
  repeat split; try assumption.
  intros Hnone. rewrite Hnone in Hcap. exact Hcap.
Qed.

Lemma platform_score_in_unit_and_monotone_witness :
  JS.inUnit (calculatePlatformScore claude
               {| indexed := false; citationFrequency := 7;
                  averagePosition := 2; asksHowOrWhat := true |}) = true
  /\ (hasWeights claude = false ->
      PrimFloat.leb (calculatePlatformScore claude
                       {| indexed := false; citationFrequency := 7;
                          averagePosition := 2; asksHowOrWhat := true |}) 0.9 = true)
  /\ PrimFloat.leb (calculatePlatformScore claude
                      {| indexed := false; citationFrequency := 7;
                         averagePosition := 2; asksHowOrWhat := true |})
                   (calculatePlatformScore claude
                      (nowIndexed {| indexed := false; citationFrequency := 7;
                                     averagePosition := 2; asksHowOrWhat := true |})) = true
  /\ PrimFloat.leb (calculatePlatformScore claude
                      {| indexed := false; citationFrequency := 7;
                         averagePosition := 2; asksHowOrWhat := true |})
                   (calculatePlatformScore claude
                      (citedOnceMore {| indexed := false; citationFrequency := 7;
                                        averagePosition := 2; asksHowOrWhat := true |})) = true
  /\ PrimFloat.leb (calculatePlatformScore claude
                      {| indexed := false; citationFrequency := 7;
                         averagePosition := 2; asksHowOrWhat := true |})
                   (calculatePlatformScore claude
                      (onePositionUp {| indexed := false; citationFrequency := 7;
                                        averagePosition := 2; asksHowOrWhat := true |})) = true.
Proof.
  apply (@platform_score_in_unit_and_monotone claude
           {| indexed := false; citationFrequency := 7;
              averagePosition := 2; asksHowOrWhat := true |});
    cbn [citationFrequency averagePosition]; lia.
Defined.

(** X15: the top recommendations of a platform in the report.  They are
    the first two high-priority recommendations, so they never include the
    medium-priority advice on citations, ranking or educational content;
    on Perplexity they always include the freshness update, whatever the
    visibility; and for an indexed page they are empty on every platform
    but Google AI Overview and Perplexity, however low the visibility. *)
Theorem top_recommendations_of_a_platform (platform : Platform) (v : PlatformVisibility) :
  topRecommendations (generatePlatformRecommendations platform v)
  = (if indexed v then [] else [indexing])
    ++ match platform with
       | google_ai_overview =>
           if citationFrequency v <? 10 then [snippet_optimization] else []
       | perplexity => [freshness_update]
       | _ => []
       end
  /\ In freshness_update (topRecommendations (generatePlatformRecommendations perplexity v))
  /\ (forall r, In r (topRecommendations (generatePlatformRecommendations platform v)) ->
                r = indexing \/ r = snippet_optimization \/ r = freshness_update)
  /\ length (generatePlatformRecommendations platform v) <= 4.
Proof.
  unfold topRecommendations, generatePlatformRecommendations,
    getPlatformSpecificRecommendations.
  destruct (indexed v), (citationFrequency v <? 5), (3 <? averagePosition v),
    (asksHowOrWhat v), (citationFrequency v <? 10), platform; cbn;
    repeat split; auto; try lia; intros r Hr; cbn in Hr; intuition.
Qed.

End Platforms.

(** ** The AI detector *)

Section Detector.

Import AIDetector.

Lemma SFcompare_antisym (a b : spec_float) :
  SFcompare b a = option_map CompOpp (SFcompare a b).
Proof.
  destruct a as [sa | sa | | sa ma ea], b as [sb | sb | | sb mb eb]; cbn;
    try reflexivity; try (destruct sa; reflexivity); try (destruct sb; reflexivity);
    try (destruct sa, sb; reflexivity).
  destruct sa, sb; try reflexivity;
    rewrite (Z.compare_antisym ea eb);
    change (Pcompare mb ma Eq) with (Pos.compare mb ma);
    change (Pcompare ma mb Eq) with (Pos.compare ma mb);
    rewrite (Pos.compare_antisym ma mb);
    destruct (ea ?= eb)%Z; cbn; try reflexivity;
    destruct (ma ?= mb)%positive; reflexivity.
Qed.

Lemma ltb_leb (x y : float) :
  PrimFloat.ltb x y = true -> PrimFloat.leb x y = true.
Proof.
  rewrite ltb_spec, leb_spec. unfold SFltb, SFleb.
  destruct (SFcompare (Prim2SF x) (Prim2SF y)) as [[]|]; auto.
Qed.

Lemma not_ltb_leb (x y : float) :
  is_nan x = false -> is_nan y = false ->
  PrimFloat.ltb x y = false -> PrimFloat.leb y x = true.
Proof.
  unfold is_nan. rewrite !eqb_spec, ltb_spec, leb_spec. unfold SFeqb, SFltb, SFleb.
  rewrite (SFcompare_antisym (Prim2SF x) (Prim2SF y)).
  intros Hx Hy.
  destruct (SFcompare (Prim2SF x) (Prim2SF y)) as [[]|] eqn:Hcompare; cbn;
    try reflexivity; try discriminate.
  intros _.
  destruct (Prim2SF x), (Prim2SF y); cbn in Hx, Hy, Hcompare; try discriminate;
    repeat match type of Hcompare with
           | context [if ?s then _ else _] => destruct s
           end; discriminate.
Qed.

(** [Math.max(0, Math.min(1, x))] of a number is between 0 and 1. *)
Lemma clamp_inUnit (x : float) :
  is_nan x = false -> JS.inUnit (JS.Math_max 0 (JS.Math_min 1 x)) = true.
Proof.
  intros Hx. unfold JS.Math_min.
  change (is_nan 1) with false. rewrite Hx. cbn [orb].
  change (get_sign 1) with false. cbv iota.
  destruct (PrimFloat.ltb 1 x) eqn:H1x; [ vm_compute; reflexivity | ].
  assert (Hle1 : PrimFloat.leb x 1 = true) by (apply not_ltb_leb; auto).
  assert (Hm : (if PrimFloat.ltb x 1 then x else x) = x)
    by (destruct (PrimFloat.ltb x 1); reflexivity).
  rewrite Hm. unfold JS.Math_max.
  change (is_nan 0) with false. rewrite Hx. cbn [orb].
  change (get_sign 0) with false. cbv iota.
  destruct (PrimFloat.ltb 0 x) eqn:H0x.
  - unfold JS.inUnit. now rewrite (ltb_leb H0x), Hle1.
  - assert (Hz : (if PrimFloat.ltb x 0 then 0 else 0)%float = 0%float)
      by (destruct (PrimFloat.ltb x 0); reflexivity).
    rewrite Hz. vm_compute. reflexivity.
Qed.

(** and of NaN it is NaN. *)
Lemma clamp_nan (x : float) :
  is_nan x = true -> JS.Math_max 0 (JS.Math_min 1 x) = nan.
Proof.
  intros Hx. unfold JS.Math_min. rewrite Hx, orb_true_r. vm_compute. reflexivity.
Qed.

Lemma clamp_cases (x : float) :
  JS.Math_max 0 (JS.Math_min 1 x) = nan
  \/ JS.inUnit (JS.Math_max 0 (JS.Math_min 1 x)) = true.
Proof.
  destruct (is_nan x) eqn:Hx; [ left; now apply clamp_nan | right; now apply clamp_inUnit ].
Qed.

(** X16: the clamped scores.  For all features, whatever numbers they
    are, the confidence of [detectAIContent] is a number between 0 and 1
    or NaN, and a text is reported as AI-generated only with a confidence
    that is a number above 0.6 and at most 1; and every value of the
    generated trend data is a number between 0 and 1 or NaN, for every
    base value and random draw. *)
Theorem clamped_scores_stay_in_the_unit_interval
        (features : Features) (baseValue rnd : float) :
  (confidence (detectAIContent features) = nan
   \/ JS.inUnit (confidence (detectAIContent features)) = true)
  /\ (isAIGenerated (detectAIContent features) = true ->
      JS.inUnit (confidence (detectAIContent features)) = true
      /\ PrimFloat.ltb 0.6 (confidence (detectAIContent features)) = true)
  /\ (KPITracker.trendValue baseValue rnd = nan
      \/ JS.inUnit (KPITracker.trendValue baseValue rnd) = true).
Proof.
  unfold detectAIContent, calculateAIConfidence, KPITracker.trendValue.
  cbn [confidence isAIGenerated].
  split; [ apply clamp_cases | split; [ | apply clamp_cases ] ].
  match goal with |- context [JS.Math_min 1 ?x] => generalize x end.
  intros x Hflagged. split; [ | exact Hflagged ].
  destruct (clamp_cases x) as [Hnan | Hunit]; [ | exact Hunit ].
  rewrite Hnan in Hflagged. vm_compute in Hflagged. discriminate Hflagged.
Qed.

Lemma perfection_indicator (features : Features) :
  In Unnaturally_perfect_grammar_and_formatting (identifyAIIndicators features)
  <-> PrimFloat.ltb 0.8 (unnaturalPerfection features) = true.
Proof.
  unfold identifyAIIndicators. rewrite !in_app_iff.
  repeat match goal with
         | |- context [if ?b then _ else _] => destruct b
         end; cbn; intuition (try discriminate; try congruence).
Qed.

(** X17: the indicator of unnatural perfection.  With the perfection
    feature computed by [detectUnnaturalPerfection], the indicator
    "Unnaturally perfect grammar and formatting" is reported exactly when
    the text has none of the common errors, none of the punctuation errors
    and no inconsistent formatting: two of the three never suffice. *)
Theorem perfection_indicator_needs_all_three_tests
        (features : Features) (commonErrors punctuationErrors inconsistentFormatting : bool) :
  unnaturalPerfection features
  = detectUnnaturalPerfection commonErrors punctuationErrors inconsistentFormatting ->
  (In Unnaturally_perfect_grammar_and_formatting
      (indicators (detectAIContent features))
   <-> commonErrors = false /\ punctuationErrors = false /\ inconsistentFormatting = false).
Proof.
  intros Hperfection. unfold detectAIContent. cbn [indicators].
  rewrite perfection_indicator, Hperfection.
  destruct commonErrors, punctuationErrors, inconsistentFormatting;
    vm_compute; intuition discriminate.
Qed.

Lemma perfection_indicator_needs_all_three_tests_witness :
  In Unnaturally_perfect_grammar_and_formatting
     (indicators (detectAIContent
        {| vocabularyRichness := 0.5; sentenceLengthVariance := 20;
           sentimentConsistency := 0.5; personalPronounRatio := 0.05;
           formulaicPhrases := 0; repetitiveStructures := 0;
           unnaturalPerfection := detectUnnaturalPerfection false false false |}))
  <-> false = false /\ false = false /\ false = false.
Proof.
  apply (@perfection_indicator_needs_all_three_tests
           {| vocabularyRichness := 0.5; sentenceLengthVariance := 20;
              sentimentConsistency := 0.5; personalPronounRatio := 0.05;
              formulaicPhrases := 0; repetitiveStructures := 0;
              unnaturalPerfection := detectUnnaturalPerfection false false false |}
           false false false).
  reflexivity.
Defined.

End Detector.

(** ** The keywords of a heading *)

Section KeywordsOfAHeading.

Import Keywords.
Import String.StringSyntax.

Lemma commonWords_short (word : String.string) :
  In word commonWords -> String.length word <= 3.
Proof.
  unfold commonWords. cbn [In].
  intros H; repeat (destruct H as [<- | H]; [ cbn; lia | ]); destruct H.
Qed.

(** X18: the stop words of [extractKeywords] have no effect.  Every stop
    word has at most three characters and words of at most three
    characters are dropped anyway, so the keywords are the first five
    words of more than three characters, stop-word list or not. *)
Theorem stop_words_have_no_effect (words : list String.string) :
  extractKeywords words
  = firstn 5 (filter (fun word => 3 <? String.length word) words)
  /\ length (extractKeywords words) <= 5
  /\ (forall word, In word (extractKeywords words) ->
                   In word words /\ 3 < String.length word).
Proof.
  assert (Hsame : extractKeywords words
                  = firstn 5 (filter (fun word => 3 <? String.length word) words)).
  { unfold extractKeywords. f_equal. apply filter_ext. intros word.
    destruct (Nat.ltb_spec 3 (String.length word)) as [Hlong | Hshort]; [ | reflexivity ].
    destruct (existsb (String.eqb word) commonWords) eqn:Hcommon; [ | reflexivity ].
    apply existsb_exists in Hcommon as (stop & Hstop & Heq).
    apply String.eqb_eq in Heq. subst stop.
    apply commonWords_short in Hstop. lia. }
  split; [ exact Hsame | split ].
  - rewrite Hsame. apply firstn_le_length.
  - intros word Hword. rewrite Hsame in Hword.
    apply In_firstn, filter_In in Hword as [Hin Hlong].
    split; [ exact Hin | now apply Nat.ltb_lt ].
Qed.

End KeywordsOfAHeading.

(** ** Bounds of the scores *)

Section Bounds.

Import Types AIOptimizer.

Lemma citationAtMostFairEverywhere_true : citationAtMostFairEverywhere = true.
Proof. vm_compute. reflexivity. Qed.

(** X19: the citation potential is at most 0.515.  For every document
    the citation-worthiness score is at most 0.515, the score of a
    document with five insights, ten verifiable data points, original
    research and five quotes; so the report never rates the citation
    potential of a document better than Fair. *)
Theorem citation_potential_at_most_0515 (f : AICitationAnalyzer.CitationFeatures) :
  PrimFloat.leb (AICitationAnalyzer.analyzeCitationPotential f) 0.515 = true
  /\ ReportLabels.getStatus (AICitationAnalyzer.analyzeCitationPotential f)
     <> ReportLabels.Excellent
  /\ ReportLabels.getStatus (AICitationAnalyzer.analyzeCitationPotential f)
     <> ReportLabels.Good
  /\ AICitationAnalyzer.analyzeCitationPotential richestCitations = 0.515%float.
Proof.
  destruct (citationData_bounds f) as (Hi & Hv & Hd & Hq).
  pose proof citationAtMostFairEverywhere_true as Hall.
  unfold citationAtMostFairEverywhere in Hall.
  apply forallb_seq with (k := length (AICitationAnalyzer.uniqueInsights
                                         (AICitationAnalyzer.citationData f))) in Hall;
    [ | lia ].
  apply forallb_seq with (k := length (AICitationAnalyzer.dataPoints
                                         (AICitationAnalyzer.citationData f))) in Hall;
    [ | lia ].
  apply forallb_seq with
    (k := length (filter AICitationAnalyzer.verifiable
                         (AICitationAnalyzer.dataPoints
                            (AICitationAnalyzer.citationData f)))) in Hall;
    [ | lia ].
  apply forallb_seq with (k := length (AICitationAnalyzer.expertQuotes
                                         (AICitationAnalyzer.citationData f))) in Hall;
    [ | lia ].
  rewrite forallb_forall in Hall.
  specialize (Hall (AICitationAnalyzer.originalResearch (AICitationAnalyzer.citationData f))).
  assert (Hin : In (AICitationAnalyzer.originalResearch (AICitationAnalyzer.citationData f))
                   [false; true])
    by (destruct (AICitationAnalyzer.originalResearch (AICitationAnalyzer.citationData f));
        cbn; auto).
  apply Hall in Hin. unfold citationAtMostFair in Hin.
  rewrite <- calculateCitationWorthiness_counts in Hin.
  fold (AICitationAnalyzer.analyzeCitationPotential f) in Hin.
  apply andb_true_iff in Hin as [Hle Hstatus].
  split; [ exact Hle | split; [ | split ] ].
  - intros Hexcellent. rewrite Hexcellent in Hstatus. discriminate Hstatus.
  - intros Hgood. rewrite Hgood in Hstatus. discriminate Hstatus.
  - vm_compute. reflexivity.
Qed.

Ltac split_structure :=
  unfold ContentStructurer.analyzeStructure, ContentStructurer.calculateStructureScore,
    ContentStructurer.calculateReadabilityScore;
  match goal with
  | |- context [PrimFloat.div ?w ?n] =>
      let avgWordsPerSentence := fresh "avgWordsPerSentence" in
      generalize (PrimFloat.div w n); intros avgWordsPerSentence;
      destruct (PrimFloat.ltb 20 avgWordsPerSentence);
      destruct (PrimFloat.ltb 25 avgWordsPerSentence)
  end;
  repeat match goal with
         | |- context [(?a <? ?b)%nat] => destruct (Nat.ltb_spec a b)
         end.

Lemma structure_floor (f : ContentStructurer.StructureFeatures) :
  PrimFloat.leb 0.5 (ContentStructurer.calculateReadabilityScore f) = true
  /\ PrimFloat.leb 0.15 (ContentStructurer.analyzeStructure f) = true.
Proof. split; split_structure; vm_compute; reflexivity. Qed.

Lemma well_structured (f : ContentStructurer.StructureFeatures) :
  PrimFloat.ltb (ContentStructurer.analyzeStructure f) 0.7 = false ->
  (3 < ContentStructurer.headings f /\ 2 < ContentStructurer.faqs f)
  \/ (0 < ContentStructurer.tables f /\ 1 < ContentStructurer.lists f
      /\ (3 < ContentStructurer.headings f \/ 2 < ContentStructurer.faqs f)).
Proof.
  split_structure; first [ intros _; lia | vm_compute; discriminate ].
Qed.

Lemma improve_structure_recommended (data : AnalysisData) :
  PrimFloat.ltb (structure data) 0.7 = true ->
  exists r, In r (generateRecommendations data) /\ rtype r = improve_structure.
Proof.
  intros Hlow. unfold generateRecommendations. rewrite Hlow.
  eexists. split; [ | shelve ].
  apply in_or_app. right. apply in_or_app. left. left. reflexivity.
  Unshelve. reflexivity.
Qed.

(** X20: the structure score and its recommendation.  For every document
    the readability score is at least 0.5 and the structure score at least
    0.15; and [analyzeContent] recommends to improve the structure unless
    the document has more than three headings and more than two
    question/answer pairs, or a table, more than one list and one of those
    two. *)
Theorem structure_recommended_unless_well_structured (doc : Document) (env : Env) :
  PrimFloat.leb 0.5 (ContentStructurer.calculateReadabilityScore (structureFeatures doc)) = true
  /\ PrimFloat.leb 0.15 (structureScore (analyzeContent doc env)) = true
  /\ ((forall r, In r (recommendations (analyzeContent doc env)) ->
                 rtype r <> improve_structure) ->
      (3 < ContentStructurer.headings (structureFeatures doc)
       /\ 2 < ContentStructurer.faqs (structureFeatures doc))
      \/ (0 < ContentStructurer.tables (structureFeatures doc)
          /\ 1 < ContentStructurer.lists (structureFeatures doc)
          /\ (3 < ContentStructurer.headings (structureFeatures doc)
              \/ 2 < ContentStructurer.faqs (structureFeatures doc)))).
Proof.
  unfold analyzeContent. cbn [structureScore recommendations].
  unfold analyze at 1. cbn [structure].
  destruct (structure_floor (structureFeatures doc)) as [Hreadable Hfloor].
  split; [ exact Hreadable | split; [ exact Hfloor | ] ].
  intros Hnone. apply well_structured.
  destruct (PrimFloat.ltb (ContentStructurer.analyzeStructure (structureFeatures doc)) 0.7)
    eqn:Hlow; [ | reflexivity ].
  destruct (improve_structure_recommended (analyze doc env)) as (r & Hin & Htype).
  - exact Hlow.
  - exfalso. exact (Hnone r Hin Htype).
Qed.

(** X21: the trustworthiness score is at most 0.6.  It is the mean of the
    strengths 0.6, 0.5, 0.4 and 0.5 of the trust signals found, so for
    every document it is 0 (no signal) or between 0.4 and 0.6; it reaches
    0.6, the least score the report rates Good, only for a document with a
    contact element and no legal link, no mention of security and no date
    element; and the report never rates it Excellent. *)
Theorem trustworthiness_at_most_06 (f : EEATSignalBuilder.EEATFeatures) :
  PrimFloat.leb (trustworthiness (EEATSignalBuilder.analyzeEEATSignals f)) 0.6 = true
  /\ PrimFloat.leb 0.4 (trustworthiness (EEATSignalBuilder.analyzeEEATSignals f))
     = negb (length (EEATSignalBuilder.analyzeTrustworthiness f) =? 0)
  /\ PrimFloat.leb 0.6 (trustworthiness (EEATSignalBuilder.analyzeEEATSignals f))
     = (0 <? EEATSignalBuilder.contactElements f)
       && (EEATSignalBuilder.legalLinks f =? 0)
       && negb (EEATSignalBuilder.securityMentioned f)
       && (EEATSignalBuilder.dateElements f =? 0)
  /\ (length (EEATSignalBuilder.analyzeTrustworthiness f) = 0 ->
      trustworthiness (EEATSignalBuilder.analyzeEEATSignals f) = 0%float)
  /\ ReportLabels.getStatus (trustworthiness (EEATSignalBuilder.analyzeEEATSignals f))
     <> ReportLabels.Excellent.
Proof.
  unfold EEATSignalBuilder.analyzeEEATSignals. cbn [trustworthiness].
  unfold EEATSignalBuilder.analyzeTrustworthiness.
  destruct (EEATSignalBuilder.contactElements f), (EEATSignalBuilder.legalLinks f),
    (EEATSignalBuilder.securityMentioned f), (EEATSignalBuilder.dateElements f);
    repeat split; try (vm_compute; reflexivity);
    intros H; vm_compute in H; discriminate H.
Qed.

End Bounds.


(** ** The schema generator *)

Section Schemas.

Import SchemaGenerator.
Import String.StringSyntax.

Lemma schemaPriority_999 (s : SchemaMarkup) : schemaPriority s = 999.
Proof. destruct s as [[] n]; reflexivity. Qed.

Lemma insertSchema_cons (s : SchemaMarkup) (l : list SchemaMarkup) :
  insertSchema s l = s :: l.
Proof.
  destruct l as [|t l]; [ reflexivity | ].
  cbn [insertSchema]. now rewrite !schemaPriority_999.
Qed.

Lemma prioritizeSchemas_id (schemas : list SchemaMarkup) :
  prioritizeSchemas schemas = schemas.
Proof.
  unfold prioritizeSchemas.
  induction schemas as [|s l IH]; [ reflexivity | ].
  cbn [fold_right]. now rewrite IH, insertSchema_cons.
Qed.

(** X22: [generateSchemas] throws or returns the schemas unsorted.  For
    a content structure without key points, which is every structure of
    the declared type, building the WebPage schema throws a TypeError, so
    [generateSchemas] returns nothing.  For one with key points the
    priority sort never reorders the schemas: no ['@type'] that is built
    is a key of [SCHEMA_PRIORITY] (the keys are FAQ, HOWTO, PERSON, ...,
    the types FAQPage, HowTo, Person, ...), so every schema has the
    priority 999 and the stable sort returns its argument: the result is
    in the order of the pushes, with the Brand schema first and the
    WebPage schema last, and the FAQPage schema of a page with FAQs
    second, not first. *)
Theorem schemas_are_never_reordered (data : SchemaData) (schemas : list SchemaMarkup) :
  (forall t, priorityOr999 (SchemaType_text t) = 999)
  /\ prioritizeSchemas schemas = schemas
  /\ (keyPoints data = None -> generateSchemas data = Exceptions.Throws Exceptions.TypeError)
  /\ (keyPoints data <> None ->
      generateSchemas data = Exceptions.Returns (schemasInPushOrder data))
  /\ hd_error (schemasInPushOrder data) = Some {| atType := Brand; name := None |}
  /\ last (schemasInPushOrder data) {| atType := Brand; name := None |}
     = {| atType := WebPage; name := None |}
  /\ (0 < faqs data ->
      nth_error (schemasInPushOrder data) 1 = Some {| atType := FAQPage; name := None |})
  /\ (In {| atType := HowTo; name := None |} (schemasInPushOrder data)
      <-> isHowToContent data = true /\ 0 < steps data).
Proof.
  split; [ intros []; reflexivity | ].
  split; [ apply prioritizeSchemas_id | ].
  split; [ | split ].
  - intros Hnone. unfold generateSchemas, generateArticleSchema, generateWebPageSchema.
    rewrite Hnone. destruct (isArticleOrBlog (contentType data)); reflexivity.
  - intros Hsome. unfold generateSchemas, generateArticleSchema, generateWebPageSchema,
      generateHowToSchema, schemasInPushOrder.
    destruct (keyPoints data) as [n|]; [ | contradiction ].
    destruct (0 <? faqs data), (isHowToContent data), (steps data =? 0),
      (isArticleOrBlog (contentType data));
      rewrite prioritizeSchemas_id; cbn [andb negb app];
      rewrite <- ?app_assoc; reflexivity.
  - unfold schemasInPushOrder.
    split; [ reflexivity | ].
    split; [ rewrite !app_assoc; apply last_last | ].
    split.
    + intros Hfaqs. apply Nat.ltb_lt in Hfaqs. rewrite Hfaqs. reflexivity.
    + assert (Hentity : ~ In {| atType := HowTo; name := None |}
                          (flat_map entitySchema (entities data))).
      { intros Hin. apply in_flat_map in Hin as (entity & _ & Hin).
        unfold entitySchema in Hin.
        destruct (entityType entity); cbn in Hin;
          repeat (destruct Hin as [Hin | Hin]; try discriminate Hin); exact Hin. }
      rewrite !in_app_iff.
      destruct (0 <? faqs data), (isHowToContent data), (Nat.eqb_spec (steps data) 0),
        (isArticleOrBlog (contentType data)); cbn [In andb negb];
        split; intros H;
        repeat match goal with
               | H : _ \/ _ |- _ => destruct H
               | H : _ /\ _ |- _ => destruct H
               | H : False |- _ => destruct H
               end;
        try discriminate; try contradiction; try lia; try (split; [ reflexivity | lia ]);
        auto 10.
Qed.

Lemma length_substring_0 (n : nat) (s : String.string) :
  String.length (String.substring 0 n s) = Nat.min n (String.length s).
Proof.
  revert s. induction n as [|n IH]; intros s.
  - destruct s; reflexivity.
  - destruct s as [|c s]; [ reflexivity | ].
    cbn [String.substring String.length Nat.min]. now rewrite IH.
Qed.

Lemma length_append (s t : String.string) :
  String.length (String.append s t) = String.length s + String.length t.
Proof.
  induction s as [|c s IH]; [ reflexivity | ].
  cbn [String.append String.length]. now rewrite IH.
Qed.

Lemma substring_append (n : nat) (s t : String.string) :
  n <= String.length s ->
  String.substring 0 n (String.append (String.substring 0 n s) t) = String.substring 0 n s.
Proof.
  revert s. induction n as [|n IH]; intros s Hn.
  - destruct s; cbn; destruct t; reflexivity.
  - destruct s as [|c s]; [ cbn in Hn; lia | ].
    cbn [String.substring String.append]. rewrite IH; [ reflexivity | cbn in Hn; lia ].
Qed.

(** X23: the description of a schema has at most 160 characters.  A first
    paragraph of at most 160 characters is returned as it is; a longer one
    gives exactly 160 characters, its first 157 followed by three dots. *)
Theorem description_has_at_most_160_characters (firstParagraph : String.string) :
  String.length (extractDescription firstParagraph) <= 160
  /\ (String.length firstParagraph <= 160 ->
      extractDescription firstParagraph = firstParagraph)
  /\ (160 < String.length firstParagraph ->
      String.length (extractDescription firstParagraph) = 160
      /\ String.substring 0 157 (extractDescription firstParagraph)
         = String.substring 0 157 firstParagraph
      /\ String.substring 157 3 (extractDescription firstParagraph) = "..."%string).
Proof.
  unfold extractDescription.
  destruct (Nat.ltb_spec 160 (String.length firstParagraph)) as [Hlong | Hshort].
  - assert (Hlength : String.length
                        (String.append (String.substring 0 157 firstParagraph) "...") = 160).
    { rewrite length_append, length_substring_0.
      change (String.length "...") with 3. lia. }
    split; [ lia | split; [ lia | intros _ ] ].
    split; [ exact Hlength | split ].
    + apply substring_append. lia.
    + assert (Hdots : forall n s t, String.length s = n ->
                String.substring n (String.length t) (String.append s t) = t).
      { induction n as [|n IH]; intros s t Hs.
        - destruct s; [ | discriminate Hs ]. cbn [String.append].
          induction t as [|c t IHt]; [ reflexivity | ].
          cbn [String.length String.substring]. now rewrite IHt.
        - destruct s as [|c s]; [ discriminate Hs | ].
          cbn [String.append String.substring]. apply IH. now injection Hs. }
      apply (Hdots 157 (String.substring 0 157 firstParagraph) "..."%string).
      rewrite length_substring_0. lia.
  - split; [ lia | split; [ reflexivity | lia ] ].
Qed.

End Schemas.


(** ** The sections of the privacy policy *)

Section PrivacyPolicy.

Import PrivacyPolicyGenerator.
Import String.StringSyntax.

(** X24: the optional sections of the privacy policy.  The section
    numbers are fixed, so a policy without an optional section skips its
    number; the HTML policy numbers its sections up to 14 and the Markdown
    policy up to 15, Data Retention being section 7 of the one and 8 of
    the other; every section of the HTML policy has a text; and with the
    international transfers or the cookies given as an empty array, the
    HTML policy leaves the section out while the Markdown policy keeps its
    heading with nothing under it. *)
Theorem optional_sections_of_the_privacy_policy (options : PrivacyPolicyOptions) :
  headingNumbers (generate options)
  = [1; 2; 3; 4; 5]
    ++ (if missingOrEmpty (internationalTransfers options) then [] else [6])
    ++ [7; 8; 9]
    ++ (if missingOrEmpty (cookies options) then [] else [10])
    ++ (if notSet (childrenPrivacy options) then [] else [11])
    ++ (if notSet (californiaPrivacy options) then [] else [12])
    ++ [13; 14]
  /\ headingNumbers (generateMarkdown options)
     = [1; 2; 3; 4; 5; 6]
       ++ (match internationalTransfers options with Some _ => [7] | None => [] end)
       ++ [8; 9; 10]
       ++ (match cookies options with Some _ => [11] | None => [] end)
       ++ (if notSet (childrenPrivacy options) then [] else [12])
       ++ (if notSet (californiaPrivacy options) then [] else [13])
       ++ [14; 15]
  /\ emptySections (generate options) = []
  /\ emptySections (generateMarkdown options)
     = (match internationalTransfers options with Some 0 => [7] | _ => [] end)
       ++ (match cookies options with Some 0 => [11] | _ => [] end)
  /\ numberOf "Data Retention"%string (generate options) = Some 7
  /\ numberOf "Data Retention"%string (generateMarkdown options) = Some 8.
Proof.
  unfold generate, generateMarkdown, generateInternationalTransfers, generateCookies,
    generateChildrenPrivacy, generateCaliforniaPrivacy,
    generateInternationalTransfersMarkdown, generateCookiesMarkdown,
    generateChildrenPrivacyMarkdown, generateCaliforniaPrivacyMarkdown.
  destruct (internationalTransfers options) as [[|transfers]|],
    (cookies options) as [[|categories]|],
    (childrenPrivacy options) as [[]|],
    (californiaPrivacy options) as [[]|];
    repeat split; reflexivity.
Qed.

End PrivacyPolicy.


(** ** The schema scripts of a document *)

Section Entities.

Import EntityOptimizer.

Lemma filter_insertAt_false (k : nat) (scripts : list bool) :
  filter (fun parses : bool => parses) (insertAt k false scripts)
  = filter (fun parses : bool => parses) scripts.
Proof.
  revert k. induction scripts as [|parses scripts IH]; intros [|k];
    cbn [insertAt filter]; try reflexivity.
  rewrite IH. reflexivity.
Qed.

(** X25: a schema script that does not parse adds no entity.  The error
    of [JSON.parse] is caught: the number of entities is the number of
    scripts that parse, and one more script that does not parse leaves the
    entities as they are and, unless its text adds brand mentions, the
    whole analysis.  Its text is searched for the brand like any text: in
    an otherwise empty document a script that does not parse and names the
    brand once takes the score from 0 to 0.05. *)
Theorem unparsable_script_adds_no_entity
        (config : AIOptimizerConfig) (f : EntityFeatures) (k mentions : nat) :
  entities (analysisOfEntities f) = parsedScripts f
  /\ entities (analysisOfEntities f) <= length (schemaScripts f)
  /\ entities (analysisOfEntities (addUnparsableScript f k mentions))
     = entities (analysisOfEntities f)
  /\ analyzeEntities config (addUnparsableScript f k (brandMentions f))
     = analyzeEntities config f
  /\ score (analysisOfEntities (AIOptimizer.entityFeatures emptyDocument)) = 0%float
  /\ score (analysisOfEntities
              (addUnparsableScript (AIOptimizer.entityFeatures emptyDocument) 0 1))
     = 0.05%float.
Proof.
  assert (Hcount : forall g, entities (analysisOfEntities g) = parsedScripts g).
  { intros g. unfold analysisOfEntities, parsedScripts.
    pose proof (fold_scripts_count (schemaScripts g) (0, 0%float)) as Hfst.
    destruct (fold_left _ (schemaScripts g) (0, 0%float)) as [n s].
    cbn [entities]. exact Hfst. }
  split; [ apply Hcount | ].
  split; [ rewrite Hcount; apply filter_length_le | ].
  split; [ | split; [ | split; vm_compute; reflexivity ] ].
  - rewrite !Hcount. unfold parsedScripts, addUnparsableScript. cbn [schemaScripts].
    now rewrite filter_insertAt_false.
  - unfold analyzeEntities, countBrandMentions.
    destruct (brandIsPattern config); [ | reflexivity ].
    f_equal. unfold analysisOfEntities, addUnparsableScript.
    cbn [schemaScripts brandMentions hasItemscope hasAddress hasAuthor].
    rewrite (fold_scripts_valid (insertAt k false (schemaScripts f))),
      (fold_scripts_valid (schemaScripts f)), filter_insertAt_false.
    reflexivity.
Qed.

End Entities.
